(** * SAR tracker: the deadline and status engine of [app/crud.py]

    A shallow embedding of the case life cycle (creation, update,
    escalation), of the reminder scheduler and of the read-side analytics
    (dashboard counts, organisation performance, upcoming deadlines,
    calendar events), followed by the properties of the specification that
    hold on it and the inputs on which the others fail.

    Conventions.
    - A [date] is its proleptic Gregorian ordinal ([date.toordinal()]), a
      [datetime] the number of microseconds since midnight of ordinal 0;
      [timedelta(days=n)] is the addition of [n] days.  The bounds
      [date.min] and [date.max] are not represented.
    - [None] of Python and NULL of SQL are [None]; a nullable column is an
      [option].  SQL filters use three-valued logic ([Sql]).
    - [date.today()] and [datetime.now()] are read from an explicit clock
      argument.
    - [SessionLocal] ([app.database] is not among the sources) is taken to
      hand out one shared session: an attribute assignment followed by
      [db.commit()] is an update of the store.
    - The store is the SQLite database of [config.py]
      ([sqlite:///./sar_tracking.db]); a [Date] column holds the text
      YYYY-MM-DD, and SQL arithmetic on it is SQLite's ([Sqlite]).
    - A Python [float] is a binary64 number ([PyFloat]).  The integers
      that the analytics divide (counts of rows, sums of day numbers) are
      below 2^53, where [a / b] is the binary64 quotient of the two
      conversions.
    - Columns that no deadline, status or analytics code reads (addresses,
      phone numbers, free-text summaries, timestamps) are left out of the
      records. *)

From Stdlib Require Import PrimFloat.
From Stdlib Require Import ZArith List String Ascii Bool Lia QArith.
From Stdlib Require Import Permutation Sorted DecimalString.
Import ListNotations.
Local Open Scope string_scope.
Local Open Scope Z_scope.

(* ================================================================== *)
(** * Python values: exceptions, dates, strings *)

Inductive PyExn : Type :=
| TypeError            (* ordering comparison against None *)
| ValueError           (* "SAR case not found", schema validators *)
| ZeroDivisionError
| IntegrityError       (* sqlalchemy.exc: a unique index refuses the row *)
| ConfigurationError.  (* named by the specification only: nothing below raises it *)

Inductive result (A : Type) : Type :=
| Ok (a : A)
| Raise (e : PyExn).
Arguments Ok {A} a.
Arguments Raise {A} e.

Definition is_ok {A} (r : result A) : bool :=
  match r with Ok _ => true | Raise _ => false end.

(** [a or b] on values whose only falsy inhabitant is [None] (dates). *)
Definition py_or {A} (a b : option A) : option A :=
  match a with Some x => Some x | None => b end.

(** Truthiness of an [Optional[bool]]. *)
Definition truthy (b : option bool) : bool :=
  match b with Some true => true | _ => false end.

(** Truthiness of an optional value that is never falsy when present. *)
Definition present {A} (a : option A) : bool :=
  match a with Some _ => true | None => false end.

(** Python floats.  [value] is the binary64 number that the interpreter
    holds; [exact] is the real number that it stands for, i.e. the result
    of the same operations without rounding. *)
Module PyFloat.
Record t : Type := mk { value : float; exact : Q }.

Fixpoint float_of_pos (p : positive) : float :=
  match p with
  | xH => PrimFloat.one
  | xO q => PrimFloat.mul PrimFloat.two (float_of_pos q)
  | xI q => PrimFloat.add (PrimFloat.mul PrimFloat.two (float_of_pos q)) PrimFloat.one
  end.

(** [float(z)]; exact below 2^53. *)
Definition float_of_Z (z : Z) : float :=
  match z with
  | Z0 => PrimFloat.zero
  | Zpos p => float_of_pos p
  | Zneg p => PrimFloat.opp (float_of_pos p)
  end.

Definition of_int (z : Z) : t := mk (float_of_Z z) (inject_Z z).

Definition div (a b : t) : t :=
  mk (PrimFloat.div (value a) (value b)) (exact a / exact b)%Q.

Definition mul (a b : t) : t :=
  mk (PrimFloat.mul (value a) (value b)) (exact a * exact b)%Q.
End PyFloat.

Definition str_of_Z (z : Z) : string := NilZero.string_of_int (Z.to_int z).

Fixpoint zeros (n : nat) (s : string) : string :=
  match n with O => s | S k => String "0" (zeros k s) end.

Definition zfill (w : nat) (s : string) : string :=
  zeros (w - String.length s) s.

(** Ordinal of a day, and microseconds since midnight of ordinal 0. *)
Definition date : Type := Z.
Definition datetime : Type := Z.

Module Date.

(** Days between 1970-01-01 and the civil date [y-m-d]. *)
Definition days_from_civil (y m d : Z) : Z :=
  let y' := if m <=? 2 then y - 1 else y in
  let era := y' / 400 in
  let yoe := y' - era * 400 in
  let mp := if 2 <? m then m - 3 else m + 9 in
  let doy := (153 * mp + 2) / 5 + d - 1 in
  let doe := yoe * 365 + yoe / 4 - yoe / 100 + doy in
  era * 146097 + doe - 719468.

(** [date(y, m, d).toordinal()]; ordinal 1 is 0001-01-01. *)
Definition ymd (y m d : Z) : date := days_from_civil y m d + 719163.

Definition to_ymd (o : date) : Z * Z * Z :=
  let z := o - 719163 + 719468 in
  let era := z / 146097 in
  let doe := z - era * 146097 in
  let yoe := (doe - doe / 1460 + doe / 36524 - doe / 146096) / 365 in
  let y := yoe + era * 400 in
  let doy := doe - (365 * yoe + yoe / 4 - yoe / 100) in
  let mp := (5 * doy + 2) / 153 in
  let d := doy - (153 * mp + 2) / 5 + 1 in
  let m := if mp <? 10 then mp + 3 else mp - 9 in
  (if m <=? 2 then y + 1 else y, m, d).

(** [d.isoformat()], i.e. [str(d)]: YYYY-MM-DD. *)
Definition isoformat (d : date) : string :=
  let '(y, m, dd) := to_ymd d in
  zfill 4 (str_of_Z y) ++ "-" ++ zfill 2 (str_of_Z m) ++ "-" ++ zfill 2 (str_of_Z dd).

(** [d + timedelta(days=n)] *)
Definition add_days (d : date) (n : Z) : date := d + n.

(** [(a - b).days] *)
Definition diff_days (a b : date) : Z := a - b.

(** [d.year] and [d.day] *)
Definition year (d : date) : Z := fst (fst (to_ymd d)).
Definition day (d : date) : Z := snd (to_ymd d).
End Date.

Module Datetime.
Definition us_per_day : Z := 86400000000.

(** [datetime.combine(d, datetime.min.time())] *)
Definition combine_min (d : date) : datetime := d * us_per_day.

(** [datetime.combine(d, datetime.max.time())]: 23:59:59.999999 *)
Definition combine_max (d : date) : datetime := d * us_per_day + (us_per_day - 1).

(** [dt - timedelta(days=n)] *)
Definition sub_days (dt : datetime) (n : Z) : datetime := dt - n * us_per_day.

(** [dt.date()] *)
Definition date_of (dt : datetime) : date := dt / us_per_day.

(** [dt.strftime('%Y%m')] *)
Definition strftime_Ym (dt : datetime) : string :=
  let '(y, m, _) := Date.to_ymd (date_of dt) in
  zfill 4 (str_of_Z y) ++ zfill 2 (str_of_Z m).
End Datetime.

(* ================================================================== *)
(** * SQL three-valued logic, as the filters of the queries use it *)

Module Sql.
(** A filter expression evaluates to TRUE, FALSE or NULL ([None]). *)
Definition tv := option bool.

Definition and_ (a b : tv) : tv :=
  match a, b with
  | Some false, _ | _, Some false => Some false
  | Some true, Some true => Some true
  | _, _ => None
  end.

Definition or_ (a b : tv) : tv :=
  match a, b with
  | Some true, _ | _, Some true => Some true
  | Some false, Some false => Some false
  | _, _ => None
  end.

Definition cmp (op : Z -> Z -> bool) (a b : option Z) : tv :=
  match a, b with
  | Some x, Some y => Some (op x y)
  | _, _ => None
  end.

Definition ge := cmp Z.geb.
Definition le := cmp Z.leb.
Definition lt := cmp Z.ltb.
Definition gt := cmp Z.gtb.

Definition eq_bool (a : option bool) (b : bool) : tv :=
  match a with Some x => Some (Bool.eqb x b) | None => None end.

Definition isnot_None {A} (a : option A) : tv := Some (present a).

(** A row is selected when the filter is TRUE. *)
Definition holds (t : tv) : bool :=
  match t with Some true => true | _ => false end.
End Sql.

(* ================================================================== *)
(** * SQLite: arithmetic on stored dates *)

Module Sqlite.

(** [a - b] on two [Date] columns.  Each operand is the text YYYY-MM-DD,
    which the subtraction converts to the integer of its leading digits,
    the year; the difference is an integer, or NULL when an operand is. *)
Definition minus (a b : option date) : option Z :=
  match a, b with
  | Some x, Some y => Some (Date.year x - Date.year y)
  | _, _ => None
  end.

(** [CAST(STRFTIME('%d', n) AS INTEGER)], the SQL of [func.extract('day', n)]
    on SQLite.  A number is read as a Julian day number: day 0 is
    24 November -4713, ordinal -1721425, and the last valid day is
    5373484 (31 December 9999); outside that range the result is NULL. *)
Definition extract_day (n : option Z) : option Z :=
  match n with
  | Some j =>
      if (0 <=? j) && (j <=? 5373484)
      then Some (Date.day (j - 1721425))
      else None
  | None => None
  end.
End Sqlite.

(* ================================================================== *)
(** * app/schemas.py: enumerations *)

Inductive SARStatus : Type := Pending | Responded | Overdue | Complete | Escalated.

Definition SARStatus_eqb (a b : SARStatus) : bool :=
  match a, b with
  | Pending, Pending | Responded, Responded | Overdue, Overdue
  | Complete, Complete | Escalated, Escalated => true
  | _, _ => false
  end.

(** [sar_case.status == "..."] on the nullable status column. *)
Definition status_is (s : option SARStatus) (v : SARStatus) : bool :=
  match s with Some x => SARStatus_eqb x v | None => false end.

Inductive RequestType : Type :=
  personal_data | special_categories | criminal_records | foia | other.

Definition RequestType_value (r : RequestType) : string :=
  match r with
  | personal_data => "Personal Data"
  | special_categories => "Special Categories"
  | criminal_records => "Criminal Records"
  | foia => "FOIA"
  | other => "Other"
  end.

Inductive ReminderType : Type := DEADLINE | FOLLOW_UP | ICO_DEADLINE | CUSTOM.

Definition ReminderType_value (r : ReminderType) : string :=
  match r with
  | DEADLINE => "Deadline"
  | FOLLOW_UP => "Follow-up"
  | ICO_DEADLINE => "ICO Deadline"
  | CUSTOM => "Custom"
  end.

(* ================================================================== *)
(** * app/models.py: rows *)

Module SARCase.
Record t : Type := mk {
  id : Z;
  user_id : Z;
  case_reference : string;
  organization_name : string;
  request_type : string;
  submission_date : option date;
  statutory_deadline : option date;
  extended_deadline : option date;
  custom_deadline : option date;
  status : option SARStatus;
  response_received : option bool;
  response_date : option date
}.

Definition set_organization_name (v : string) (c : t) : t :=
  mk c.(id) c.(user_id) c.(case_reference) v c.(request_type)
     c.(submission_date) c.(statutory_deadline) c.(extended_deadline)
     c.(custom_deadline) c.(status) c.(response_received) c.(response_date).
Definition set_request_type (v : string) (c : t) : t :=
  mk c.(id) c.(user_id) c.(case_reference) c.(organization_name) v
     c.(submission_date) c.(statutory_deadline) c.(extended_deadline)
     c.(custom_deadline) c.(status) c.(response_received) c.(response_date).
Definition set_extended_deadline (v : option date) (c : t) : t :=
  mk c.(id) c.(user_id) c.(case_reference) c.(organization_name) c.(request_type)
     c.(submission_date) c.(statutory_deadline) v
     c.(custom_deadline) c.(status) c.(response_received) c.(response_date).
Definition set_custom_deadline (v : option date) (c : t) : t :=
  mk c.(id) c.(user_id) c.(case_reference) c.(organization_name) c.(request_type)
     c.(submission_date) c.(statutory_deadline) c.(extended_deadline)
     v c.(status) c.(response_received) c.(response_date).
Definition set_status (v : option SARStatus) (c : t) : t :=
  mk c.(id) c.(user_id) c.(case_reference) c.(organization_name) c.(request_type)
     c.(submission_date) c.(statutory_deadline) c.(extended_deadline)
     c.(custom_deadline) v c.(response_received) c.(response_date).
Definition set_response_received (v : option bool) (c : t) : t :=
  mk c.(id) c.(user_id) c.(case_reference) c.(organization_name) c.(request_type)
     c.(submission_date) c.(statutory_deadline) c.(extended_deadline)
     c.(custom_deadline) c.(status) v c.(response_date).
Definition set_response_date (v : option date) (c : t) : t :=
  mk c.(id) c.(user_id) c.(case_reference) c.(organization_name) c.(request_type)
     c.(submission_date) c.(statutory_deadline) c.(extended_deadline)
     c.(custom_deadline) c.(status) c.(response_received) v.
End SARCase.

Module Reminder.
Record t : Type := mk {
  id : Z;
  user_id : Z;
  sar_case_id : option Z;
  title : string;
  description : string;
  reminder_date : option datetime;
  reminder_type : string;
  is_recurring : bool;
  recurrence_pattern : option string;
  is_completed : option bool
}.
End Reminder.

Module ICOEscalation.
Record t : Type := mk {
  id : Z;
  sar_case_id : Z;
  user_id : Z;
  escalation_date : date;
  escalation_reason : string;
  escalation_method : string;
  ico_reference : string;
  ico_investigation_deadline : option date;
  ico_decision_deadline : option date;
  status : string
}.
End ICOEscalation.

(** The store behind the session: the three tables the engine touches. *)
Record DB : Type := mkDB {
  sar_cases : list SARCase.t;
  reminders : list Reminder.t;
  ico_escalations : list ICOEscalation.t
}.

Definition empty_db : DB := mkDB [] [] [].

(** Integer primary keys: one more than the largest key in the table. *)
Definition next_id (ids : list Z) : Z := 1 + fold_right Z.max 0 ids.

(* ================================================================== *)
(** * The session: store passing with exceptions *)

Definition M (A : Type) : Type := DB -> DB * result A.

Definition ret {A} (a : A) : M A := fun db => (db, Ok a).

Definition raise {A} (e : PyExn) : M A := fun db => (db, Raise e).

Definition bind {A B} (m : M A) (k : A -> M B) : M B :=
  fun db =>
    match m db with
    | (db', Ok a) => k a db'
    | (db', Raise e) => (db', Raise e)
    end.

Definition lift {A} (r : result A) : M A := fun db => (db, r).

Notation "x <- m ;; k" := (bind m (fun x => k))
  (at level 61, m at next level, right associativity).

(** [db.add(row); db.commit(); db.refresh(row)] for each table.  The
    reference of a case is unique too (models.py:31); [create_sar_case_db]
    always draws it from [uuid4], and the draw is taken to be new. *)
Definition add_sar_case (mkrow : Z -> SARCase.t) : M SARCase.t :=
  fun db =>
    let row := mkrow (next_id (map SARCase.id db.(sar_cases))) in
    (mkDB (db.(sar_cases) ++ [row])%list db.(reminders) db.(ico_escalations), Ok row).

Definition add_reminder (mkrow : Z -> Reminder.t) : M Reminder.t :=
  fun db =>
    let row := mkrow (next_id (map Reminder.id db.(reminders))) in
    (mkDB db.(sar_cases) (db.(reminders) ++ [row])%list db.(ico_escalations), Ok row).

(** The unique index on [ico_escalations.ico_reference] (models.py:137). *)
Definition reference_stored (ico_reference : string) (db : DB) : bool :=
  existsb (fun x => String.eqb x.(ICOEscalation.ico_reference) ico_reference)
          db.(ico_escalations).

(** The commit of a row that repeats a stored reference fails with
    [IntegrityError] and stores nothing. *)
Definition add_ico_escalation (mkrow : Z -> ICOEscalation.t) : M ICOEscalation.t :=
  fun db =>
    let row := mkrow (next_id (map ICOEscalation.id db.(ico_escalations))) in
    if reference_stored row.(ICOEscalation.ico_reference) db
    then (db, Raise IntegrityError)
    else (mkDB db.(sar_cases) db.(reminders) (db.(ico_escalations) ++ [row])%list, Ok row).

(** [db.commit()] of a case object whose attributes were assigned. *)
Definition commit_sar_case (c : SARCase.t) : M unit :=
  fun db =>
    (mkDB (map (fun r => if r.(SARCase.id) =? c.(SARCase.id) then c else r) db.(sar_cases))
          db.(reminders) db.(ico_escalations), Ok tt).

(* ================================================================== *)
(** * app/schemas.py: request bodies *)

Module SARCreate.
(** [request_type] is the [.value] of the classification: the simple
    API layer passes the raw string of the request body. *)
Record t : Type := mk {
  organization_name : string;
  request_type : string;
  submission_date : date;
  custom_deadline : option date
}.
End SARCreate.

(** A field of a partial update: unset ([None]), or set to a value or to
    null ([Some v], [Some None]). *)
Definition field (A : Type) : Type := option (option A).

(** The attribute read from the body: the default [None] when unset. *)
Definition attr {A} (f : field A) : option A :=
  match f with Some v => v | None => None end.

Module SARUpdate.
(** [organization_name] and [request_type] are columns declared
    [nullable=False]: they are unset or set to a value. *)
Record t : Type := mk {
  organization_name : option string;
  request_type : option RequestType;
  extended_deadline : field date;
  custom_deadline : field date;
  status : field SARStatus;
  response_received : field bool;
  response_date : field date
}.

Definition unset : t := mk None None None None None None None.
End SARUpdate.

Module SimpleUpdate.
(** The generic object of [update_sar_case_simple_db]: [Some v] when
    [hasattr(sar_data, name)]. *)
Record t : Type := mk {
  organization_name : option string;
  custom_deadline : field date
}.
End SimpleUpdate.

Module ICOEscalationCreate.
Record t : Type := mk {
  escalation_date : date;
  escalation_reason : string;
  escalation_method : string;
  ico_reference : option string;
  ico_investigation_deadline : option date;
  ico_decision_deadline : option date
}.
End ICOEscalationCreate.

Module ReminderCreate.
Record t : Type := mk {
  sar_case_id : option Z;
  title : string;
  description : string;
  reminder_date : datetime;
  reminder_type : ReminderType;
  is_recurring : bool;
  recurrence_pattern : option string
}.
End ReminderCreate.

(** The validator of [ReminderCreate.reminder_date] in [app/schemas.py]:
    [if v < datetime.now(): raise ValueError]. *)
Definition reminder_date_cannot_be_past (now v : datetime) : bool :=
  negb (v <? now).

(** A schema without a validator on [reminder_date]. *)
Definition reminder_date_unchecked (now v : datetime) : bool := true.

(* ================================================================== *)
(** * app/crud.py: reminders *)

Section Reminders.
(** [crud.py] takes its request schemas from [app.schemas_compatible],
    which is not among the sources; the check that its [ReminderCreate]
    makes on [reminder_date] (given the clock) is a parameter.
    [app/schemas.py] has [reminder_date_cannot_be_past]. *)
Variable reminder_date_valid : datetime -> datetime -> bool.

(** [ReminderCreate(...)]: pydantic raises a [ValueError] when the
    validator rejects the date. *)
Definition new_ReminderCreate (now : datetime) (sar_case_id : option Z)
    (title description : string) (reminder_date : datetime)
    (reminder_type : ReminderType) : result ReminderCreate.t :=
  if reminder_date_valid now reminder_date
  then Ok (ReminderCreate.mk sar_case_id title description reminder_date
                             reminder_type false None)
  else Raise ValueError.

Definition create_reminder (reminder_data : ReminderCreate.t) (user_id : Z)
  : M Reminder.t :=
  add_reminder (fun id =>
    Reminder.mk id user_id
      reminder_data.(ReminderCreate.sar_case_id)
      reminder_data.(ReminderCreate.title)
      reminder_data.(ReminderCreate.description)
      (Some reminder_data.(ReminderCreate.reminder_date))
      (ReminderType_value reminder_data.(ReminderCreate.reminder_type))
      reminder_data.(ReminderCreate.is_recurring)
      reminder_data.(ReminderCreate.recurrence_pattern)
      (Some false)).

(** Lines 350-356 of [create_deadline_reminder]: the date chosen. *)
Definition deadline_reminder_date (current_date deadline_date : date) : datetime :=
  if deadline_date <=? current_date
  then Datetime.combine_min (Date.add_days current_date 1)
  else Datetime.sub_days (Datetime.combine_min deadline_date) 1.

Definition create_deadline_reminder (now : datetime) (sar_id user_id : Z)
    (deadline_date : date) : M Reminder.t :=
  let current_date := Datetime.date_of now in
  let reminder_date := deadline_reminder_date current_date deadline_date in
  reminder_data <-
    lift (new_ReminderCreate now (Some sar_id)
            "Deadline Reminder - SAR Case"
            ("Deadline for SAR case is tomorrow (" ++ Date.isoformat deadline_date ++ ")")
            reminder_date DEADLINE) ;;
  create_reminder reminder_data user_id.

(** Line 370 of [create_ico_deadline_reminder]: the date chosen. *)
Definition ico_deadline_reminder_date (deadline_date : date) : datetime :=
  Datetime.sub_days (Datetime.combine_min deadline_date) 7.

Definition create_ico_deadline_reminder (now : datetime) (sar_id user_id : Z)
    (deadline_date : date) : M Reminder.t :=
  let reminder_date := ico_deadline_reminder_date deadline_date in
  reminder_data <-
    lift (new_ReminderCreate now (Some sar_id)
            "ICO Investigation Deadline Reminder"
            ("ICO investigation deadline is in 7 days (" ++ Date.isoformat deadline_date ++ ")")
            reminder_date ICO_DEADLINE) ;;
  create_reminder reminder_data user_id.

(* ---------------------------------------------------------------- *)
(** * app/crud.py: case creation *)

(** Lines 26-31: the statutory deadline. *)
Definition statutory_deadline_for (request_type : string) (submission_date : date)
  : date :=
  if String.eqb request_type "FOIA"
  then Date.add_days submission_date 20
  else Date.add_days submission_date 28.

(** [uuid8] stands for [uuid.uuid4().hex[:8].upper()]. *)
Definition create_sar_case_db (now : datetime) (uuid8 : string)
    (sar_data : SARCreate.t) (user_id : Z) : M SARCase.t :=
  let case_reference :=
    "SAR-" ++ Datetime.strftime_Ym now ++ "-" ++ uuid8 in
  let statutory_deadline :=
    statutory_deadline_for sar_data.(SARCreate.request_type)
                           sar_data.(SARCreate.submission_date) in
  db_sar <- add_sar_case (fun id =>
    SARCase.mk id user_id case_reference
      sar_data.(SARCreate.organization_name)
      sar_data.(SARCreate.request_type)
      (Some sar_data.(SARCreate.submission_date))
      (Some statutory_deadline)
      None
      sar_data.(SARCreate.custom_deadline)
      (Some Pending) (Some false) None) ;;
  _ <- create_deadline_reminder now db_sar.(SARCase.id) user_id statutory_deadline ;;
  ret db_sar.
End Reminders.

(* ================================================================== *)
(** * app/crud.py: case lookup and update *)

Definition get_sar_case_db (sar_id user_id : Z) : M (option SARCase.t) :=
  fun db =>
    (db, Ok (find (fun c => (c.(SARCase.id) =? sar_id) && (c.(SARCase.user_id) =? user_id))
                  db.(sar_cases))).

Definition set_if {A} (f : option A) (set : A -> SARCase.t -> SARCase.t)
    (c : SARCase.t) : SARCase.t :=
  match f with Some v => set v c | None => c end.

(** Lines 96-98: [setattr] of every field that the body sets, in the
    order of the schema. *)
Definition apply_update_data (sar_data : SARUpdate.t) (c : SARCase.t) : SARCase.t :=
  let c := set_if sar_data.(SARUpdate.organization_name) SARCase.set_organization_name c in
  let c := set_if sar_data.(SARUpdate.request_type)
             (fun v => SARCase.set_request_type (RequestType_value v)) c in
  let c := set_if sar_data.(SARUpdate.extended_deadline) SARCase.set_extended_deadline c in
  let c := set_if sar_data.(SARUpdate.custom_deadline) SARCase.set_custom_deadline c in
  let c := set_if sar_data.(SARUpdate.status) SARCase.set_status c in
  let c := set_if sar_data.(SARUpdate.response_received) SARCase.set_response_received c in
  set_if sar_data.(SARUpdate.response_date) SARCase.set_response_date c.

(** The deadline that the two update paths compare with today (lines 106
    and 149): [extended_deadline or custom_deadline or statutory_deadline]. *)
Definition update_deadline (c : SARCase.t) : option date :=
  py_or c.(SARCase.extended_deadline)
        (py_or c.(SARCase.custom_deadline) c.(SARCase.statutory_deadline)).

(** [current_date > deadline]: ordering a date against [None] is a
    [TypeError]. *)
Definition date_gt (a : date) (b : option date) : result bool :=
  match b with
  | Some d => Ok (d <? a)
  | None => Raise TypeError
  end.

(** Lines 100-109 of [update_sar_case_db]: the status pass, given the
    [response_received] attribute of the body.  The comparison with the
    deadline is the left operand of [and]: it is evaluated first. *)
Definition update_status_pass (response_received : option bool)
    (current_date : date) (c : SARCase.t) : result SARCase.t :=
  let c := if truthy response_received
           then SARCase.set_status (Some Responded) c else c in
  let deadline := update_deadline c in
  match date_gt current_date deadline with
  | Raise e => Raise e
  | Ok late =>
      Ok (if late && status_is c.(SARCase.status) Pending
          then SARCase.set_status (Some Overdue) c else c)
  end.

(** An exception leaves the store as it was: nothing is committed. *)
Definition update_sar_case_db (now : datetime) (sar_id : Z)
    (sar_data : SARUpdate.t) (user_id : Z) : M (option SARCase.t) :=
  sar_case <- get_sar_case_db sar_id user_id ;;
  match sar_case with
  | None => ret None
  | Some c =>
      let c := apply_update_data sar_data c in
      c <- lift (update_status_pass (attr sar_data.(SARUpdate.response_received))
                                    (Datetime.date_of now) c) ;;
      _ <- commit_sar_case c ;;
      ret (Some c)
  end.

(** Lines 130-145 of [update_sar_case_simple_db]. *)
Definition apply_simple_update (sar_data : SimpleUpdate.t) (c : SARCase.t) : SARCase.t :=
  let c := set_if sar_data.(SimpleUpdate.organization_name) SARCase.set_organization_name c in
  set_if sar_data.(SimpleUpdate.custom_deadline) SARCase.set_custom_deadline c.

(** Lines 147-152: the status pass of the simple path; [deadline and ...]
    skips the comparison when no deadline is set. *)
Definition update_simple_status_pass (current_date : date) (c : SARCase.t) : SARCase.t :=
  let deadline := update_deadline c in
  match deadline with
  | Some d =>
      if (d <? current_date) && status_is c.(SARCase.status) Pending
      then SARCase.set_status (Some Overdue) c else c
  | None => c
  end.

Definition update_sar_case_simple_db (now : datetime) (sar_id : Z)
    (sar_data : SimpleUpdate.t) (user_id : Z) : M (option SARCase.t) :=
  sar_case <- get_sar_case_db sar_id user_id ;;
  match sar_case with
  | None => ret None
  | Some c =>
      let c := apply_simple_update sar_data c in
      let c := update_simple_status_pass (Datetime.date_of now) c in
      _ <- commit_sar_case c ;;
      ret (Some c)
  end.

(* ================================================================== *)
(** * app/crud.py: escalation *)

Section Escalation.
Variable reminder_date_valid : datetime -> datetime -> bool.

(** [not escalation_data.ico_reference]: absent or empty. *)
Definition no_reference (r : option string) : bool :=
  match r with
  | None => true
  | Some s => String.eqb s ""
  end.

Definition create_ico_escalation_db (now : datetime) (uuid8 : string) (sar_id : Z)
    (escalation_data : ICOEscalationCreate.t) (user_id : Z) : M ICOEscalation.t :=
  sar_case <- get_sar_case_db sar_id user_id ;;
  match sar_case with
  | None => raise ValueError
  | Some c =>
      let ico_reference :=
        if no_reference escalation_data.(ICOEscalationCreate.ico_reference)
        then "ICO-" ++ Datetime.strftime_Ym now ++ "-" ++ uuid8
        else match escalation_data.(ICOEscalationCreate.ico_reference) with
             | Some s => s
             | None => ""
             end in
      db_escalation <- add_ico_escalation (fun id =>
        ICOEscalation.mk id sar_id user_id
          escalation_data.(ICOEscalationCreate.escalation_date)
          escalation_data.(ICOEscalationCreate.escalation_reason)
          escalation_data.(ICOEscalationCreate.escalation_method)
          ico_reference
          escalation_data.(ICOEscalationCreate.ico_investigation_deadline)
          escalation_data.(ICOEscalationCreate.ico_decision_deadline)
          "Submitted") ;;
      _ <- commit_sar_case (SARCase.set_status (Some Escalated) c) ;;
      _ <- match escalation_data.(ICOEscalationCreate.ico_investigation_deadline) with
           | Some deadline =>
               _ <- create_ico_deadline_reminder reminder_date_valid now sar_id user_id
                      deadline ;;
               ret tt
           | None => ret tt
           end ;;
      ret db_escalation
  end.
End Escalation.

(* ================================================================== *)
(** * Queries, sorting, division *)

(** [db.query(T).filter(f).all()] and [.count()] *)
Definition query {A} (f : A -> Sql.tv) (rows : list A) : list A :=
  filter (fun r => Sql.holds (f r)) rows.

Definition query_count {A} (f : A -> Sql.tv) (rows : list A) : Z :=
  Z.of_nat (List.length (query f rows)).

Definition user_is (user_id : Z) (c : SARCase.t) : Sql.tv :=
  Some (c.(SARCase.user_id) =? user_id).

Definition status_eq (v : SARStatus) (c : SARCase.t) : Sql.tv :=
  match c.(SARCase.status) with
  | Some s => Some (SARStatus_eqb s v)
  | None => None
  end.

(** [SARCase.status.in_(["Pending", "Overdue"])] *)
Definition status_open (c : SARCase.t) : Sql.tv :=
  Sql.or_ (status_eq Pending c) (status_eq Overdue c).

(** [list.sort(key=...)]: stable, ascending. *)
Section Sort.
Context {A K : Type} (leb : K -> K -> bool) (key : A -> K).

Fixpoint insert_sorted (x : A) (l : list A) : list A :=
  match l with
  | [] => [x]
  | y :: l' => if leb (key x) (key y) then x :: l else y :: insert_sorted x l'
  end.

Definition list_sort (l : list A) : list A := fold_right insert_sorted [] l.
End Sort.

Fixpoint mapM {A B} (f : A -> result B) (l : list A) : result (list B) :=
  match l with
  | [] => Ok []
  | x :: l' =>
      match f x with
      | Raise e => Raise e
      | Ok y =>
          match mapM f l' with
          | Raise e => Raise e
          | Ok ys => Ok (y :: ys)
          end
      end
  end.

(** [a / b] on two integers: a float. *)
Definition truediv (a b : Z) : result PyFloat.t :=
  if b =? 0
  then Raise ZeroDivisionError
  else Ok (PyFloat.div (PyFloat.of_int a) (PyFloat.of_int b)).

(* ================================================================== *)
(** * app/crud.py: dashboard counts *)

Record DashboardOverview : Type := mkDashboard {
  total_cases : Z;
  pending_cases : Z;
  overdue_cases : Z;
  completed_cases : Z;
  escalated_cases : Z;
  upcoming_deadlines : Z;
  overdue_deadlines : Z
}.

(** Lines 404-414: the filter of [upcoming_deadlines]. *)
Definition upcoming_filter (user_id : Z) (current_date : date) (c : SARCase.t) : Sql.tv :=
  Sql.and_ (user_is user_id c)
    (Sql.and_ (status_open c)
       (Sql.or_ (Sql.ge c.(SARCase.statutory_deadline) (Some current_date))
          (Sql.or_ (Sql.ge c.(SARCase.extended_deadline) (Some current_date))
                   (Sql.ge c.(SARCase.custom_deadline) (Some current_date))))).

(** Lines 416-426: the filter of [overdue_deadlines]. *)
Definition overdue_filter (user_id : Z) (current_date : date) (c : SARCase.t) : Sql.tv :=
  Sql.and_ (user_is user_id c)
    (Sql.and_ (status_open c)
       (Sql.or_ (Sql.lt c.(SARCase.statutory_deadline) (Some current_date))
          (Sql.or_ (Sql.lt c.(SARCase.extended_deadline) (Some current_date))
                   (Sql.lt c.(SARCase.custom_deadline) (Some current_date))))).

Definition get_dashboard_data (today : date) (user_id : Z) (db : DB) : DashboardOverview :=
  let cases := db.(sar_cases) in
  let by_status s := query_count (fun c => Sql.and_ (user_is user_id c) (status_eq s c)) cases in
  let current_date := today in
  mkDashboard
    (query_count (user_is user_id) cases)
    (by_status Pending)
    (by_status Overdue)
    (by_status Complete)
    (by_status Escalated)
    (query_count (upcoming_filter user_id current_date) cases)
    (query_count (overdue_filter user_id current_date) cases).

(* ================================================================== *)
(** * app/crud.py: organisation performance *)

Record OrganizationPerformance : Type := mkPerformance {
  perf_organization_name : string;
  total_sars : Z;
  responded_on_time : Z;
  responded_late : Z;
  ignored : Z;
  average_response_time : option PyFloat.t;
  compliance_rating : option PyFloat.t
}.

Definition org_is (user_id : Z) (org_name : string) (c : SARCase.t) : Sql.tv :=
  Sql.and_ (user_is user_id c)
           (Some (String.eqb c.(SARCase.organization_name) org_name)).

Definition on_time_filter (user_id : Z) (org_name : string) (c : SARCase.t) : Sql.tv :=
  Sql.and_ (org_is user_id org_name c)
    (Sql.and_ (Sql.eq_bool c.(SARCase.response_received) true)
              (Sql.le c.(SARCase.response_date) c.(SARCase.statutory_deadline))).

Definition late_filter (user_id : Z) (org_name : string) (c : SARCase.t) : Sql.tv :=
  Sql.and_ (org_is user_id org_name c)
    (Sql.and_ (Sql.eq_bool c.(SARCase.response_received) true)
              (Sql.gt c.(SARCase.response_date) c.(SARCase.statutory_deadline))).

Definition ignored_filter (user_id : Z) (org_name : string) (today : date)
    (c : SARCase.t) : Sql.tv :=
  Sql.and_ (org_is user_id org_name c)
    (Sql.and_ (Sql.eq_bool c.(SARCase.response_received) false)
              (Sql.lt c.(SARCase.statutory_deadline) (Some today))).

Definition responded_filter (user_id : Z) (org_name : string) (c : SARCase.t) : Sql.tv :=
  Sql.and_ (org_is user_id org_name c)
    (Sql.and_ (Sql.eq_bool c.(SARCase.response_received) true)
              (Sql.isnot_None c.(SARCase.response_date))).

(** [func.extract('day', SARCase.response_date - SARCase.submission_date)],
    lines 487-488, as SQLite evaluates it. *)
Definition response_days (c : SARCase.t) : option Z :=
  Sqlite.extract_day (Sqlite.minus c.(SARCase.response_date) c.(SARCase.submission_date)).

(** [sum(rt[0] for rt in response_times if rt[0] is not None)] *)
Definition sum_present (l : list (option Z)) : Z :=
  fold_right (fun rt acc => match rt with Some d => d + acc | None => acc end) 0 l.

(** Lines 498-500. *)
Definition average_of (response_times : list (option Z)) : result (option PyFloat.t) :=
  match response_times with
  | [] => Ok None
  | _ :: _ =>
      match truediv (sum_present response_times)
                    (Z.of_nat (List.length response_times)) with
      | Ok q => Ok (Some q)
      | Raise e => Raise e
      end
  end.

(** Lines 503-506. *)
Definition rating_of (responded_on_time total_sars : Z) : result (option PyFloat.t) :=
  if 0 <? total_sars
  then match truediv responded_on_time total_sars with
       | Ok q => Ok (Some (PyFloat.mul q (PyFloat.of_int 100)))
       | Raise e => Raise e
       end
  else Ok None.

(** The body of the loop over the organisations (lines 452-516). *)
Definition organization_performance (today : date) (user_id : Z) (db : DB)
    (org_name : string) : result OrganizationPerformance :=
  let cases := db.(sar_cases) in
  let total := query_count (org_is user_id org_name) cases in
  let on_time := query_count (on_time_filter user_id org_name) cases in
  let late := query_count (late_filter user_id org_name) cases in
  let ign := query_count (ignored_filter user_id org_name today) cases in
  let response_times := map response_days (query (responded_filter user_id org_name) cases) in
  match average_of response_times with
  | Raise e => Raise e
  | Ok avg =>
      match rating_of on_time total with
      | Raise e => Raise e
      | Ok rating => Ok (mkPerformance org_name total on_time late ign avg rating)
      end
  end.

(** [.distinct()] over the organisation names of the owner's cases. *)
Definition organizations (user_id : Z) (db : DB) : list string :=
  nodup string_dec
    (map SARCase.organization_name (query (user_is user_id) db.(sar_cases))).

Definition get_organization_performance_data (today : date) (user_id : Z) (db : DB)
    : result (list OrganizationPerformance) :=
  mapM (organization_performance today user_id db) (organizations user_id db).

(* ================================================================== *)
(** * app/crud.py: upcoming deadlines *)

(** Lines 539 and 593:
    [custom_deadline or extended_deadline or statutory_deadline]. *)
Definition actual_deadline (c : SARCase.t) : option date :=
  py_or c.(SARCase.custom_deadline)
        (py_or c.(SARCase.extended_deadline) c.(SARCase.statutory_deadline)).

(** Lines 553 and 594. *)
Definition deadline_type (c : SARCase.t) : string :=
  if present c.(SARCase.custom_deadline) then "Custom"
  else if present c.(SARCase.extended_deadline) then "Extended"
  else "Statutory".

Record DeadlineInfo : Type := mkDeadlineInfo {
  di_sar_case_id : Z;
  di_case_reference : string;
  di_organization_name : string;
  di_deadline_date : string;
  di_days_remaining : Z;
  di_is_overdue : bool;
  di_deadline_type : string
}.

(** The body of the loop (lines 538-554): at most one row per case. *)
Definition deadline_row (current_date : date) (days : Z) (c : SARCase.t)
    : list DeadlineInfo :=
  match actual_deadline c with
  | Some d =>
      let days_remaining := Date.diff_days d current_date in
      let is_overdue := days_remaining <? 0 in
      if (days_remaining <=? days) || is_overdue
      then [mkDeadlineInfo c.(SARCase.id) c.(SARCase.case_reference)
              c.(SARCase.organization_name) (Date.isoformat d)
              days_remaining is_overdue (deadline_type c)]
      else []
  | None => []
  end.

Definition get_upcoming_deadlines_data (today : date) (user_id : Z) (days : Z) (db : DB)
    : list DeadlineInfo :=
  let current_date := today in
  let deadlines :=
    query (fun c => Sql.and_ (user_is user_id c) (status_open c)) db.(sar_cases) in
  let deadline_data := flat_map (deadline_row current_date days) deadlines in
  list_sort String.leb di_deadline_date deadline_data.

(* ================================================================== *)
(** * app/crud.py: calendar events *)

Record CalendarEvent : Type := mkEvent {
  ev_id : string;
  ev_title : string;
  ev_description : string;
  event_date : datetime;
  event_type : string;
  ev_sar_case_id : option Z;
  ev_is_overdue : bool
}.

Definition within (d : option date) (start_date end_date : date) : Sql.tv :=
  Sql.and_ (Sql.ge d (Some start_date)) (Sql.le d (Some end_date)).

(** Lines 580-590. *)
Definition calendar_deadline_filter (user_id : Z) (start_date end_date : date)
    (c : SARCase.t) : Sql.tv :=
  Sql.and_ (user_is user_id c)
    (Sql.and_ (status_open c)
       (Sql.or_ (within c.(SARCase.statutory_deadline) start_date end_date)
          (Sql.or_ (within c.(SARCase.extended_deadline) start_date end_date)
                   (within c.(SARCase.custom_deadline) start_date end_date)))).

(** Lines 593-604; [datetime.combine(None, ...)] is a [TypeError]. *)
Definition deadline_event (today : date) (c : SARCase.t) : result CalendarEvent :=
  match actual_deadline c with
  | None => Raise TypeError
  | Some deadline_date =>
      Ok (mkEvent ("deadline_" ++ str_of_Z c.(SARCase.id))
            ("Deadline: " ++ c.(SARCase.case_reference))
            (deadline_type c ++ " deadline for " ++ c.(SARCase.organization_name))
            (Datetime.combine_min deadline_date)
            "Deadline"
            (Some c.(SARCase.id))
            (deadline_date <? today))
  end.

(** Lines 607-613. *)
Definition calendar_creation_filter (user_id : Z) (start_date end_date : date)
    (c : SARCase.t) : Sql.tv :=
  Sql.and_ (user_is user_id c)
    (Sql.and_ (Sql.ge c.(SARCase.submission_date) (Some start_date))
              (Sql.le c.(SARCase.submission_date) (Some end_date))).

(** Lines 616-624. *)
Definition creation_event (c : SARCase.t) : result CalendarEvent :=
  match c.(SARCase.submission_date) with
  | None => Raise TypeError
  | Some submission_date =>
      Ok (mkEvent ("creation_" ++ str_of_Z c.(SARCase.id))
            ("SAR Created: " ++ c.(SARCase.case_reference))
            ("SAR case submitted for " ++ c.(SARCase.organization_name))
            (Datetime.combine_min submission_date)
            "Case Creation"
            (Some c.(SARCase.id))
            false)
  end.

(** Lines 627-634. *)
Definition calendar_reminder_filter (user_id : Z) (start_date end_date : date)
    (r : Reminder.t) : Sql.tv :=
  Sql.and_ (Some (r.(Reminder.user_id) =? user_id))
    (Sql.and_ (Sql.ge r.(Reminder.reminder_date) (Some (Datetime.combine_min start_date)))
       (Sql.and_ (Sql.le r.(Reminder.reminder_date) (Some (Datetime.combine_max end_date)))
                 (Sql.eq_bool r.(Reminder.is_completed) false))).

(** Lines 637-645; ordering [None] against [datetime.now()] is a
    [TypeError]. *)
Definition reminder_event (now : datetime) (r : Reminder.t) : result CalendarEvent :=
  match r.(Reminder.reminder_date) with
  | None => Raise TypeError
  | Some reminder_date =>
      Ok (mkEvent ("reminder_" ++ str_of_Z r.(Reminder.id))
            ("Reminder: " ++ r.(Reminder.title))
            r.(Reminder.description)
            reminder_date
            "Reminder"
            r.(Reminder.sar_case_id)
            (reminder_date <? now))
  end.

(** The window: the arguments are the dates that [strptime] yields for
    the two query strings, [None] for an absent or empty string. *)
Definition calendar_window (today : date) (start_date end_date : option date)
    : date * date :=
  let s := match start_date with Some d => d | None => today end in
  let e := match end_date with Some d => d | None => Date.add_days s 30 end in
  (s, e).

Definition get_calendar_events_data (now : datetime) (user_id : Z)
    (start_date end_date : option date) (db : DB) : result (list CalendarEvent) :=
  let today := Datetime.date_of now in
  let '(start_date, end_date) := calendar_window today start_date end_date in
  let cases := query (calendar_deadline_filter user_id start_date end_date) db.(sar_cases) in
  match mapM (deadline_event today) cases with
  | Raise e => Raise e
  | Ok deadline_events =>
      let creation_cases :=
        query (calendar_creation_filter user_id start_date end_date) db.(sar_cases) in
      match mapM creation_event creation_cases with
      | Raise e => Raise e
      | Ok creation_events =>
          let rems :=
            query (calendar_reminder_filter user_id start_date end_date) db.(reminders) in
          match mapM (reminder_event now) rems with
          | Raise e => Raise e
          | Ok reminder_events =>
              let events := (deadline_events ++ creation_events ++ reminder_events)%list in
              Ok (list_sort Z.leb event_date events)
          end
      end
  end.

(* ================================================================== *)
(** * Notions used in the statements *)

(** One whole update of a case by [update_sar_case_db], without the store. *)
Definition update_case (today : date) (sar_data : SARUpdate.t) (c : SARCase.t)
    : result SARCase.t :=
  update_status_pass (attr sar_data.(SARUpdate.response_received)) today
                     (apply_update_data sar_data c).

Definition update_case_simple (today : date) (sar_data : SimpleUpdate.t) (c : SARCase.t)
    : SARCase.t :=
  update_simple_status_pass today (apply_simple_update sar_data c).

(** The pass of [update_sar_case_db], statuses only. *)
Definition pass_status (resp : option bool) (late : bool) (s : option SARStatus)
    : option SARStatus :=
  let s := if truthy resp then Some Responded else s in
  if late && status_is s Pending then Some Overdue else s.

(** Running a fallible step again on its own result. *)
Definition twice {A} (f : A -> result A) (a : A) : result A :=
  match f a with
  | Ok a' => f a'
  | Raise e => Raise e
  end.

(** Every case of [db'] has the identifier and the statutory deadline of a
    case of [db], and the identifiers are the same, row by row. *)
Definition keeps_statutory_deadlines (db db' : DB) : Prop :=
  map SARCase.id db'.(sar_cases) = map SARCase.id db.(sar_cases)
  /\ Forall (fun c' => exists c, In c db.(sar_cases)
                        /\ c.(SARCase.id) = c'.(SARCase.id)
                        /\ c.(SARCase.statutory_deadline) = c'.(SARCase.statutory_deadline))
            db'.(sar_cases).

(** The store after a computation, and its outcome. *)
Definition exec {A} (m : M A) (db : DB) : DB := fst (m db).
Definition outcome {A} (m : M A) (db : DB) : result A := snd (m db).

(** ** Scenarios *)

Definition case_with (statutory extended custom : option date) (status : SARStatus)
    (response_received : bool) : SARCase.t :=
  SARCase.mk 1 7 "SAR-202401-0A1B2C3D" "Acme" "Other" (Some (Date.ymd 2024 1 1))
             statutory extended custom (Some status) (Some response_received) None.

(** A pending case with a custom deadline on 2024-02-10 and an extended
    deadline on 2024-03-15. *)
Definition two_overrides_case : SARCase.t :=
  case_with (Some (Date.ymd 2024 1 29)) (Some (Date.ymd 2024 3 15))
            (Some (Date.ymd 2024 2 10)) Pending false.

Definition at_time (d : date) (hour : Z) : datetime :=
  Datetime.combine_min d + hour * 3600000000.

Definition acme_request : SARCreate.t :=
  SARCreate.mk "Acme" "Other" (Date.ymd 2024 1 1) None.

Definition escalation_request : ICOEscalationCreate.t :=
  ICOEscalationCreate.mk (Date.ymd 2024 2 5) "No response within the deadline"
                         "Online Form" None None None.

(** The body that records a response received on [d]. *)
Definition response_update (d : date) : SARUpdate.t :=
  SARUpdate.mk None None None None None (Some (Some true)) (Some (Some d)).

Definition status_update (s : SARStatus) : SARUpdate.t :=
  SARUpdate.mk None None None None (Some (Some s)) None None.

(** The case of the specification's scenario: created on 2024-01-01,
    seen overdue on 2024-02-01, escalated on 2024-02-05. *)
Definition escalated_db : DB :=
  let db := exec (create_sar_case_db reminder_date_cannot_be_past
                    (at_time (Date.ymd 2024 1 1) 10) "0A1B2C3D" acme_request 7) empty_db in
  let db := exec (update_sar_case_db (at_time (Date.ymd 2024 2 1) 10) 1 SARUpdate.unset 7) db in
  exec (create_ico_escalation_db reminder_date_cannot_be_past
          (at_time (Date.ymd 2024 2 5) 10) "9F8E7D6C" 1 escalation_request 7) db.

(** A case marked complete by hand. *)
Definition complete_db : DB :=
  let db := exec (create_sar_case_db reminder_date_cannot_be_past
                    (at_time (Date.ymd 2024 1 1) 10) "0A1B2C3D" acme_request 7) empty_db in
  exec (update_sar_case_db (at_time (Date.ymd 2024 1 20) 10) 1 (status_update Complete) 7) db.

(** A case answered on time and then put back to Pending by hand. *)
Definition reopened_db : DB :=
  let db := exec (create_sar_case_db reminder_date_cannot_be_past
                    (at_time (Date.ymd 2024 1 1) 10) "0A1B2C3D" acme_request 7) empty_db in
  let db := exec (update_sar_case_db (at_time (Date.ymd 2024 1 10) 10) 1
                    (response_update (Date.ymd 2024 1 10)) 7) db in
  exec (update_sar_case_db (at_time (Date.ymd 2024 1 11) 10) 1 (status_update Pending) 7) db.

(** The reference under which an escalation is filed: the one given with
    the request unless it is missing or empty, else ICO-, the year and
    month of the clock, and the eight characters drawn. *)
Definition escalation_reference (now : datetime) (uuid8 : string)
    (e : ICOEscalationCreate.t) : string :=
  match ICOEscalationCreate.ico_reference e with
  | Some (String a r) => String a r
  | _ => "ICO-" ++ Datetime.strftime_Ym now ++ "-" ++ uuid8
  end.

(** A second escalation of the scenario's case under the reference that
    the first one was stored with. *)
Definition repeated_escalation : ICOEscalationCreate.t :=
  ICOEscalationCreate.mk (Date.ymd 2024 3 1) "Still no response" "Email"
                         (Some "ICO-202402-9F8E7D6C") None None.

(** A case without any deadline. *)
Definition no_deadline_case (s : SARStatus) : SARCase.t := case_with None None None s false.

Definition stored_status (sar_id : Z) (db : DB) : option (option SARStatus) :=
  option_map SARCase.status
    (find (fun c => SARCase.id c =? sar_id) db.(sar_cases)).

Definition stored_response (sar_id : Z) (db : DB) : option (option bool) :=
  option_map SARCase.response_received
    (find (fun c => SARCase.id c =? sar_id) db.(sar_cases)).

(** A request filed on 2024-01-01 has its statutory deadline on
    2024-01-29: on 2024-01-28 that deadline is tomorrow. *)
Definition day_before_deadline : datetime := at_time (Date.ymd 2024 1 28) 10.

Definition investigated_escalation : ICOEscalationCreate.t :=
  ICOEscalationCreate.mk (Date.ymd 2024 1 28) "No response within the deadline"
                         "Online Form" None (Some (Date.ymd 2024 2 1)) None.

Definition reminder_dates (db : DB) : list (option datetime) :=
  map Reminder.reminder_date db.(reminders).

(** The three deadline columns of a case. *)
Definition deadline_fields (c : SARCase.t) : list (option date) :=
  [c.(SARCase.statutory_deadline); c.(SARCase.extended_deadline);
   c.(SARCase.custom_deadline)].

(** The organisation of the specification's scenario: two requests filed
    on 2024-01-01, answered after 10 and after 35 days (both in 2024). *)
Definition answered_case (id response_day : Z) : SARCase.t :=
  SARCase.mk id 7 ("SAR-202401-0000000" ++ str_of_Z id) "Acme" "Other"
             (Some (Date.ymd 2024 1 1)) (Some (Date.ymd 2024 1 29)) None None
             (Some Responded) (Some true) (Some (Date.ymd 2024 1 1 + response_day)).

Definition acme_db : DB := mkDB [answered_case 1 10; answered_case 2 35] [] [].


(** The float [a / b * 100] of two counts. *)
Definition percentage (a b : Z) : PyFloat.t :=
  PyFloat.mul (PyFloat.div (PyFloat.of_int a) (PyFloat.of_int b)) (PyFloat.of_int 100).

(** The float [a / b] of two integers. *)
Definition quotient (a b : Z) : PyFloat.t :=
  PyFloat.div (PyFloat.of_int a) (PyFloat.of_int b).

(** The mean that the report gives for the listed cases: the sum of the
    day numbers that are present over the number of cases. *)
Definition mean_response_days (cs : list SARCase.t) : PyFloat.t :=
  quotient (sum_present (map response_days cs)) (Z.of_nat (List.length cs)).





(** ** Calendar notions *)

Definition sorted_by_event_date (events : list CalendarEvent) : Prop :=
  StronglySorted (fun a b => event_date a <= event_date b) events.

(** The prefix that the source of an event (its [event_type]) gives to its
    identifier. *)
Definition source_prefix (e : CalendarEvent) : string :=
  if String.eqb (event_type e) "Deadline" then "deadline_"
  else if String.eqb (event_type e) "Case Creation" then "creation_"
  else "reminder_".

Definition namespaced (e : CalendarEvent) : Prop :=
  In (event_type e) ["Deadline"; "Case Creation"; "Reminder"]
  /\ String.prefix (source_prefix e) (ev_id e) = true.

(** The deadline entries of the case [sar_id]. *)
Definition is_deadline_entry_for (sar_id : Z) (e : CalendarEvent) : bool :=
  String.eqb (event_type e) "Deadline"
  && match ev_sar_case_id e with Some i => i =? sar_id | None => false end.

Definition deadline_entries_for (sar_id : Z) (events : list CalendarEvent)
    : list CalendarEvent :=
  filter (is_deadline_entry_for sar_id) events.

(** An answered case whose statutory deadline is 2024-01-29, and the
    window from 2024-01-15 to 2024-02-15. *)
Definition answered_db : DB := mkDB [answered_case 1 10] [] [].

Definition pending_db : DB :=
  mkDB [case_with (Some (Date.ymd 2024 1 29)) None None Pending false]
       [Reminder.mk 1 7 (Some 1) "Deadline Reminder - SAR Case"
          "Deadline for SAR case is tomorrow (2024-01-29)"
          (Some (at_time (Date.ymd 2024 1 28) 0)) "Deadline" false None (Some false)]
       [].

(* ================================================================== *)
(** * app/models.py and app/crud.py: case updates, files, deletion *)

Inductive UpdateType : Type :=
  NOTE | CORRESPONDENCE | PHONE_CALL | RESPONSE_RECEIVED | DEADLINE_EXTENSION.

Definition UpdateType_value (t : UpdateType) : string :=
  match t with
  | NOTE => "Note"
  | CORRESPONDENCE => "Correspondence"
  | PHONE_CALL => "Phone Call"
  | RESPONSE_RECEIVED => "Response Received"
  | DEADLINE_EXTENSION => "Deadline Extension"
  end.

Module CaseUpdate.
(** The correspondence and call columns are written once and never read:
    they are left out. *)
Record t : Type := mk {
  id : Z;
  sar_case_id : Z;
  user_id : Z;
  update_type : string;
  title : string;
  content : string;
  created_at : datetime
}.
End CaseUpdate.

Module CaseUpdateCreate.
Record t : Type := mk {
  update_type : UpdateType;
  title : string;
  content : string
}.
End CaseUpdateCreate.

Module CaseFile.
Record t : Type := mk {
  id : Z;
  sar_case_id : Z;
  user_id : Z;
  filename : string;
  uploaded_at : datetime
}.
End CaseFile.

(** The store with the two further child tables of a case. *)
Record Store : Type := mkStore {
  core : DB;
  case_updates : list CaseUpdate.t;
  case_files : list CaseFile.t
}.

Definition find_case (sar_id user_id : Z) (rows : list SARCase.t) : option SARCase.t :=
  find (fun c => (SARCase.id c =? sar_id) && (SARCase.user_id c =? user_id)) rows.

(** [is_child sar_id k]: the foreign key [k] points to the case. *)
Definition is_child (sar_id : Z) (k : option Z) : bool :=
  match k with Some i => i =? sar_id | None => false end.

(** [delete_sar_case_db]: [db.delete(sar_case)] removes the row and, by the
    [cascade="all, delete-orphan"] of the four relationships of [SARCase]
    (models.py lines 67-70), the updates, files, escalations and reminders
    whose foreign key is the case. *)
Definition delete_sar_case_db (sar_id user_id : Z) (st : Store) : Store * bool :=
  match find_case sar_id user_id st.(core).(sar_cases) with
  | None => (st, false)
  | Some c =>
      let i := SARCase.id c in
      (mkStore
         (mkDB (filter (fun r => negb (SARCase.id r =? i)) st.(core).(sar_cases))
               (filter (fun r => negb (is_child i (Reminder.sar_case_id r)))
                       st.(core).(reminders))
               (filter (fun e => negb (ICOEscalation.sar_case_id e =? i))
                       st.(core).(ico_escalations)))
         (filter (fun u => negb (CaseUpdate.sar_case_id u =? i)) st.(case_updates))
         (filter (fun f => negb (CaseFile.sar_case_id f =? i)) st.(case_files)),
       true)
  end.

(** [create_case_update]; [created_at] is the column default [func.now()]. *)
Definition create_case_update (now : datetime) (sar_id : Z)
    (update_data : CaseUpdateCreate.t) (user_id : Z) (st : Store)
    : Store * result CaseUpdate.t :=
  match find_case sar_id user_id st.(core).(sar_cases) with
  | None => (st, Raise ValueError)
  | Some _ =>
      let db_update :=
        CaseUpdate.mk (next_id (map CaseUpdate.id st.(case_updates))) sar_id user_id
          (UpdateType_value update_data.(CaseUpdateCreate.update_type))
          update_data.(CaseUpdateCreate.title)
          update_data.(CaseUpdateCreate.content)
          now in
      (mkStore st.(core) (st.(case_updates) ++ [db_update])%list st.(case_files),
       Ok db_update)
  end.

(** [a >= b], the order of [order_by(desc(...))]. *)
Definition desc (a b : Z) : bool := b <=? a.

(** [get_case_updates_db]: the updates of the case, newest first; nothing
    for a case that is not the owner's. *)
Definition get_case_updates_db (sar_id user_id : Z) (st : Store) : list CaseUpdate.t :=
  match find_case sar_id user_id st.(core).(sar_cases) with
  | None => []
  | Some _ =>
      list_sort desc CaseUpdate.created_at
        (filter (fun u => CaseUpdate.sar_case_id u =? sar_id) st.(case_updates))
  end.

(** [get_case_files_db] *)
Definition get_case_files_db (sar_id user_id : Z) (st : Store) : list CaseFile.t :=
  match find_case sar_id user_id st.(core).(sar_cases) with
  | None => []
  | Some _ =>
      list_sort desc CaseFile.uploaded_at
        (filter (fun f => CaseFile.sar_case_id f =? sar_id) st.(case_files))
  end.

(* ================================================================== *)
(** * app/main_simple.py: the update request *)

Module UpdateBody.
(** The two keys of the JSON body that reach the columns kept here, with
    string values: [organization_name] when the key is present, and
    [custom_deadline] as [strptime] reads it ([None] when absent or empty). *)
Record t : Type := mk {
  organization_name : option string;
  custom_deadline : option date
}.
End UpdateBody.

(** Lines 495-504: the generic object always has every attribute;
    [data.get('organization_name', '')]. *)
Definition update_object (body : UpdateBody.t) : SimpleUpdate.t :=
  SimpleUpdate.mk
    (Some (match body.(UpdateBody.organization_name) with Some s => s | None => "" end))
    (Some body.(UpdateBody.custom_deadline)).

(** [update_sar_case] of main_simple.py (PUT /sar/{sar_id}). *)
Definition update_sar_case (now : datetime) (sar_id : Z) (body : UpdateBody.t)
    (user_id : Z) : M (option SARCase.t) :=
  update_sar_case_simple_db now sar_id (update_object body) user_id.

(* ================================================================== *)
(** * app/reports.py: the compliance assessment of a case report *)

(** [d.strftime('%d/%m/%Y')] *)
Definition strftime_dmY (d : date) : string :=
  let '(y, m, dd) := Date.to_ymd d in
  zfill 2 (str_of_Z dd) ++ "/" ++ zfill 2 (str_of_Z m) ++ "/" ++ zfill 4 (str_of_Z y).

(** [(a - b).days] where either date may be [None]. *)
Definition days_between (a b : option date) : result Z :=
  match a, b with
  | Some x, Some y => Ok (Date.diff_days x y)
  | _, _ => Raise TypeError
  end.

(** Lines 443-458 of [generate_word_report]: the paragraphs of the
    assessment ([generate_pdf_report], lines 240-256, writes the same
    paragraphs with bold labels). *)
Definition compliance_assessment (today : date) (c : SARCase.t) : result (list string) :=
  let current_date := today in
  let deadline := update_deadline c in
  match date_gt current_date deadline with
  | Raise e => Raise e
  | Ok late =>
      match (if late then days_between (Some current_date) deadline else Ok 0) with
      | Raise e => Raise e
      | Ok days_overdue =>
          if truthy c.(SARCase.response_received) then
            match days_between c.(SARCase.response_date) c.(SARCase.submission_date) with
            | Raise e => Raise e
            | Ok response_time =>
                let compliance_status :=
                  if response_time <=? 28 then "Compliant" else "Non-compliant" in
                match c.(SARCase.response_date) with
                | None => Raise TypeError
                | Some rd =>
                    Ok ["Response Status: " ++ compliance_status;
                        "Response Time: " ++ str_of_Z response_time ++ " days";
                        "Response Date: " ++ strftime_dmY rd]
                end
            end
          else if 0 <? days_overdue then
            Ok ["Status: Non-compliant - " ++ str_of_Z days_overdue ++ " days overdue"]
          else
            match days_between deadline (Some current_date) with
            | Raise e => Raise e
            | Ok days_remaining =>
                Ok ["Status: Pending - " ++ str_of_Z days_remaining ++ " days remaining"]
            end
      end
  end.

(* ================================================================== *)
(** * Further notions used in the statements *)

(** The rows of the owner. *)
Definition own (user_id : Z) (db : DB) : DB :=
  mkDB (filter (fun c => SARCase.user_id c =? user_id) db.(sar_cases))
       (filter (fun r => Reminder.user_id r =? user_id) db.(reminders))
       db.(ico_escalations).

Definition unique_case_ids (db : DB) : Prop := NoDup (map SARCase.id db.(sar_cases)).

(** No case of the store has this identifier and this owner. *)
Definition not_own_case (sar_id user_id : Z) (db : DB) : Prop :=
  find_case sar_id user_id db.(sar_cases) = None.

Definition is_open (c : SARCase.t) : bool :=
  status_is c.(SARCase.status) Pending || status_is c.(SARCase.status) Overdue.

Definition has_deadline (c : SARCase.t) : bool :=
  existsb present (deadline_fields c).

(** The row of [get_upcoming_deadlines_data] for a case with deadline [d]. *)
Definition deadline_info (today : date) (c : SARCase.t) (d : date) : DeadlineInfo :=
  mkDeadlineInfo c.(SARCase.id) c.(SARCase.case_reference) c.(SARCase.organization_name)
    (Date.isoformat d) (d - today) (d - today <? 0) (deadline_type c).

Definition replace_custom (k : option date) (r : SARCreate.t) : SARCreate.t :=
  SARCreate.mk r.(SARCreate.organization_name) r.(SARCreate.request_type)
               r.(SARCreate.submission_date) k.

(** The cases other than [sar_id]. *)
Definition other_cases (sar_id : Z) (db : DB) : list SARCase.t :=
  filter (fun r => negb (SARCase.id r =? sar_id)) db.(sar_cases).

Definition newest_first {A} (stamp : A -> datetime) (l : list A) : Prop :=
  StronglySorted (fun a b => stamp b <= stamp a) l.

(** A store with one pending case of owner 7, one reminder, one
    escalation, one update and one file of that case. *)
Definition small_store : Store :=
  mkStore
    (mkDB [case_with (Some (Date.ymd 2024 1 29)) None None Pending false]
          [Reminder.mk 1 7 (Some 1) "Deadline Reminder - SAR Case"
             "Deadline for SAR case is tomorrow (2024-01-29)"
             (Some (at_time (Date.ymd 2024 1 28) 0)) "Deadline" false None (Some false)]
          [ICOEscalation.mk 1 1 7 (Date.ymd 2024 2 5) "No response within the deadline"
             "Online Form" "ICO-202402-9F8E7D6C" None None "Submitted"])
    [CaseUpdate.mk 1 1 7 "Note" "Filed" "Request sent by email"
       (at_time (Date.ymd 2024 1 1) 10)]
    [CaseFile.mk 1 1 7 "request.pdf" (at_time (Date.ymd 2024 1 1) 11)].

(** The count that one row adds. *)
Definition ind (b : bool) : Z := if b then 1 else 0.

(** The row that [organization_performance] computes. *)
Definition performance_row (today : date) (user_id : Z) (db : DB) (org_name : string)
    : OrganizationPerformance :=
  let cases := db.(sar_cases) in
  let total := query_count (org_is user_id org_name) cases in
  let on_time := query_count (on_time_filter user_id org_name) cases in
  let responded := query (responded_filter user_id org_name) cases in
  mkPerformance org_name total on_time
    (query_count (late_filter user_id org_name) cases)
    (query_count (ignored_filter user_id org_name today) cases)
    (match responded with [] => None | _ :: _ => Some (mean_response_days responded) end)
    (if total =? 0 then None else Some (percentage on_time total)).


(* ================================================================== *)
(** * Properties *)

(** ** Setters and the status passes *)

Lemma update_deadline_set_status (s : option SARStatus) (c : SARCase.t) :
  update_deadline (SARCase.set_status s c) = update_deadline c.
Proof. reflexivity. Qed.

Lemma status_set_status (s : option SARStatus) (c : SARCase.t) :
  SARCase.status (SARCase.set_status s c) = s.
Proof. reflexivity. Qed.

Lemma set_status_twice (s t : option SARStatus) (c : SARCase.t) :
  SARCase.set_status s (SARCase.set_status t c) = SARCase.set_status s c.
Proof. reflexivity. Qed.

Lemma set_status_same (c : SARCase.t) :
  SARCase.set_status (SARCase.status c) c = c.
Proof. destruct c; reflexivity. Qed.

Lemma update_status_pass_eq (resp : option bool) (today : date) (c : SARCase.t) :
  update_status_pass resp today c =
  match update_deadline c with
  | None => Raise TypeError
  | Some d => Ok (SARCase.set_status (pass_status resp (d <? today) (SARCase.status c)) c)
  end.
Proof.
  unfold update_status_pass, pass_status.
  destruct (truthy resp); rewrite ?update_deadline_set_status;
    destruct (update_deadline c) as [d|]; cbn [date_gt]; try reflexivity;
    rewrite ?status_set_status.
  - destruct (d <? today); reflexivity.
  - destruct ((d <? today) && status_is (SARCase.status c) Pending).
    + reflexivity.
    + now rewrite set_status_same.
Qed.

Lemma update_simple_status_pass_eq (today : date) (c : SARCase.t) :
  update_simple_status_pass today c =
  match update_deadline c with
  | None => c
  | Some d => SARCase.set_status (pass_status None (d <? today) (SARCase.status c)) c
  end.
Proof.
  unfold update_simple_status_pass, pass_status.
  destruct (update_deadline c) as [d|]; [|reflexivity].
  cbn [truthy].
  destruct ((d <? today) && status_is (SARCase.status c) Pending).
  - reflexivity.
  - now rewrite set_status_same.
Qed.

Lemma pass_status_idem (resp : option bool) (late : bool) (s : option SARStatus) :
  pass_status resp late (pass_status resp late s) = pass_status resp late s.
Proof.
  unfold pass_status.
  destruct (truthy resp), late, s as [[]|]; reflexivity.
Qed.

Lemma update_status_pass_idem (resp : option bool) (today : date) (c : SARCase.t) :
  twice (update_status_pass resp today) c = update_status_pass resp today c.
Proof.
  unfold twice. rewrite update_status_pass_eq.
  destruct (update_deadline c) as [d|] eqn:E; [|reflexivity].
  rewrite update_status_pass_eq, update_deadline_set_status, E.
  now rewrite status_set_status, set_status_twice, pass_status_idem.
Qed.

Lemma update_simple_status_pass_idem (today : date) (c : SARCase.t) :
  update_simple_status_pass today (update_simple_status_pass today c) =
  update_simple_status_pass today c.
Proof.
  rewrite (update_simple_status_pass_eq today c).
  destruct (update_deadline c) as [d|] eqn:E.
  - rewrite update_simple_status_pass_eq, update_deadline_set_status, E.
    now rewrite status_set_status, set_status_twice, pass_status_idem.
  - now rewrite update_simple_status_pass_eq, E.
Qed.

Lemma apply_update_data_after_pass (u : SARUpdate.t) (s : option SARStatus) (c : SARCase.t) :
  apply_update_data u (SARCase.set_status s (apply_update_data u c)) =
  match u.(SARUpdate.status) with
  | Some _ => apply_update_data u c
  | None => SARCase.set_status s (apply_update_data u c)
  end.
Proof.
  destruct u as [o r e cu st rr rd], c.
  unfold apply_update_data, set_if; cbn.
  destruct o, r, e, cu, st, rr, rd; reflexivity.
Qed.

Lemma update_case_idem (today : date) (u : SARUpdate.t) (c : SARCase.t) :
  twice (update_case today u) c = update_case today u c.
Proof.
  unfold twice, update_case.
  rewrite (update_status_pass_eq _ today (apply_update_data u c)).
  destruct (update_deadline (apply_update_data u c)) as [d|] eqn:E; [|reflexivity].
  rewrite apply_update_data_after_pass.
  destruct (SARUpdate.status u) eqn:Es.
  - now rewrite update_status_pass_eq, E.
  - rewrite update_status_pass_eq, update_deadline_set_status, E.
    now rewrite status_set_status, set_status_twice, pass_status_idem.
Qed.

Lemma apply_simple_update_idem (u : SimpleUpdate.t) (s : option SARStatus) (c : SARCase.t) :
  apply_simple_update u (SARCase.set_status s (apply_simple_update u c)) =
  SARCase.set_status s (apply_simple_update u c).
Proof.
  destruct u as [o cu], c. unfold apply_simple_update, set_if; cbn.
  destruct o, cu; reflexivity.
Qed.

Lemma update_case_simple_idem (today : date) (u : SimpleUpdate.t) (c : SARCase.t) :
  update_case_simple today u (update_case_simple today u c) = update_case_simple today u c.
Proof.
  unfold update_case_simple.
  rewrite (update_simple_status_pass_eq today (apply_simple_update u c)).
  destruct (update_deadline (apply_simple_update u c)) as [d|] eqn:E.
  - rewrite apply_simple_update_idem.
    rewrite update_simple_status_pass_eq, update_deadline_set_status, E.
    now rewrite status_set_status, set_status_twice, pass_status_idem.
  - assert (H : apply_simple_update u (apply_simple_update u c) = apply_simple_update u c).
    { destruct u as [o cu], c. unfold apply_simple_update, set_if; cbn.
      destruct o, cu; reflexivity. }
    now rewrite H, update_simple_status_pass_eq, E.
Qed.

(** ** The statutory deadline *)

Lemma keeps_refl (db : DB) : keeps_statutory_deadlines db db.
Proof.
  split; [reflexivity|].
  apply Forall_forall. intros c Hc. exists c. auto.
Qed.

Lemma commit_keeps (c c' : SARCase.t) (db : DB) :
  In c (sar_cases db) ->
  SARCase.id c' = SARCase.id c ->
  SARCase.statutory_deadline c' = SARCase.statutory_deadline c ->
  keeps_statutory_deadlines db (fst (commit_sar_case c' db)).
Proof.
  intros Hin Hid Hst. unfold keeps_statutory_deadlines, commit_sar_case.
  cbn [fst sar_cases]. split.
  - rewrite map_map. apply map_ext. intros r.
    destruct (Z.eqb_spec (SARCase.id r) (SARCase.id c')); congruence.
  - apply Forall_forall. intros r Hr. apply in_map_iff in Hr.
    destruct Hr as [r0 [E Hr0]].
    destruct (SARCase.id r0 =? SARCase.id c'); subst r.
    + exists c. auto.
    + exists r0. auto.
Qed.

Lemma get_sar_case_db_In (sar_id user_id : Z) (db : DB) (c : SARCase.t) :
  find (fun c => (SARCase.id c =? sar_id) && (SARCase.user_id c =? user_id)) (sar_cases db)
  = Some c ->
  In c (sar_cases db) /\ SARCase.id c = sar_id /\ SARCase.user_id c = user_id.
Proof.
  intros H. apply find_some in H. destruct H as [Hin Hb].
  apply andb_true_iff in Hb. destruct Hb as [H1 H2].
  apply Z.eqb_eq in H1, H2. auto.
Qed.

Lemma apply_update_data_keeps (u : SARUpdate.t) (c : SARCase.t) :
  SARCase.id (apply_update_data u c) = SARCase.id c
  /\ SARCase.statutory_deadline (apply_update_data u c) = SARCase.statutory_deadline c.
Proof.
  destruct u as [o r e cu st rr rd], c. unfold apply_update_data, set_if; cbn.
  destruct o, r, e, cu, st, rr, rd; split; reflexivity.
Qed.

Lemma apply_simple_update_keeps (u : SimpleUpdate.t) (c : SARCase.t) :
  SARCase.id (apply_simple_update u c) = SARCase.id c
  /\ SARCase.statutory_deadline (apply_simple_update u c) = SARCase.statutory_deadline c.
Proof.
  destruct u as [o cu], c. unfold apply_simple_update, set_if; cbn.
  destruct o, cu; split; reflexivity.
Qed.

Lemma update_sar_case_db_keeps (now : datetime) (sar_id : Z) (u : SARUpdate.t)
    (user_id : Z) (db : DB) :
  keeps_statutory_deadlines db (fst (update_sar_case_db now sar_id u user_id db)).
Proof.
  unfold update_sar_case_db, bind, get_sar_case_db, lift, ret.
  destruct (find _ (sar_cases db)) as [c|] eqn:F; [|apply keeps_refl].
  apply get_sar_case_db_In in F. destruct F as [Hin _].
  rewrite update_status_pass_eq.
  destruct (update_deadline (apply_update_data u c)); [|apply keeps_refl].
  destruct (apply_update_data_keeps u c) as [Hid Hst].
  match goal with |- context [commit_sar_case ?x db] =>
    pose proof (commit_keeps c x db Hin Hid Hst) as K;
    destruct (commit_sar_case x db) as [db' [[]|e]] end; exact K.
Qed.

Lemma update_sar_case_simple_db_keeps (now : datetime) (sar_id : Z) (u : SimpleUpdate.t)
    (user_id : Z) (db : DB) :
  keeps_statutory_deadlines db (fst (update_sar_case_simple_db now sar_id u user_id db)).
Proof.
  unfold update_sar_case_simple_db, bind, get_sar_case_db, ret.
  destruct (find _ (sar_cases db)) as [c|] eqn:F; [|apply keeps_refl].
  apply get_sar_case_db_In in F. destruct F as [Hin _].
  destruct (apply_simple_update_keeps u c) as [Hid Hst].
  assert (K : keeps_statutory_deadlines db
                (fst (commit_sar_case
                        (update_simple_status_pass (Datetime.date_of now)
                           (apply_simple_update u c)) db))).
  { apply (commit_keeps c); auto; rewrite update_simple_status_pass_eq;
      destruct (update_deadline (apply_simple_update u c)); assumption. }
  destruct (commit_sar_case _ db) as [db' [[]|e]]; exact K.
Qed.

Lemma create_ico_escalation_db_keeps (valid : datetime -> datetime -> bool)
    (now : datetime) (uuid8 : string) (sar_id : Z) (e : ICOEscalationCreate.t)
    (user_id : Z) (db : DB) :
  keeps_statutory_deadlines db
    (fst (create_ico_escalation_db valid now uuid8 sar_id e user_id db)).
Proof.
  unfold create_ico_escalation_db, bind, get_sar_case_db, ret, raise.
  destruct (find _ (sar_cases db)) as [c|] eqn:F; [|apply keeps_refl].
  apply get_sar_case_db_In in F. destruct F as [Hin _].
  unfold add_ico_escalation. cbv zeta.
  destruct (reference_stored _ db); [apply keeps_refl|].
  cbn [commit_sar_case sar_cases reminders ico_escalations].
  assert (K := commit_keeps c (SARCase.set_status (Some Escalated) c) db Hin eq_refl eq_refl).
  unfold commit_sar_case in K; cbn [fst] in K.
  destruct (ICOEscalationCreate.ico_investigation_deadline e) as [d|]; cbn.
  - unfold create_ico_deadline_reminder, bind, lift, new_ReminderCreate.
    destruct (valid now (ico_deadline_reminder_date d)); cbn; exact K.
  - exact K.
Qed.

Lemma create_sar_case_db_stores (valid : datetime -> datetime -> bool) (now : datetime)
    (uuid8 : string) (sar_data : SARCreate.t) (user_id : Z) (db : DB) :
  let out := create_sar_case_db valid now uuid8 sar_data user_id db in
  exists c,
    sar_cases (fst out) = (sar_cases db ++ [c])%list
    /\ SARCase.statutory_deadline c =
       Some (statutory_deadline_for (SARCreate.request_type sar_data)
                                    (SARCreate.submission_date sar_data))
    /\ SARCase.status c = Some Pending
    /\ SARCase.custom_deadline c = SARCreate.custom_deadline sar_data
    /\ (snd out = Ok c \/ snd out = Raise ValueError).
Proof.
  cbv zeta. unfold create_sar_case_db, bind, add_sar_case, ret.
  unfold create_deadline_reminder, bind, lift, new_ReminderCreate.
  eexists. cbn [sar_cases SARCase.id].
  destruct (valid now _); cbn; repeat split; auto.
Qed.

(** C3.  Case creation stores a case whose statutory deadline is the
    submission date plus 20 days when the classification is FOIA and plus
    28 days for every other classification (whether or not the companion
    reminder is then accepted); and the deadline so stored is never
    recomputed: an update on either path and the creation of an escalation
    leave every case with its identifier and its statutory deadline. *)
Theorem statutory_deadline_computed_once :
  (forall (rt : RequestType) (submission_date : date),
      statutory_deadline_for (RequestType_value rt) submission_date
      = submission_date + match rt with foia => 20 | _ => 28 end)
  /\ (forall valid now uuid8 sar_data user_id db,
        let out := create_sar_case_db valid now uuid8 sar_data user_id db in
        let days := if String.eqb (SARCreate.request_type sar_data) "FOIA"
                    then 20 else 28 in
        exists c,
          sar_cases (fst out) = (sar_cases db ++ [c])%list
          /\ SARCase.statutory_deadline c
             = Some (SARCreate.submission_date sar_data + days)
          /\ (snd out = Ok c \/ snd out = Raise ValueError))
  /\ (forall now sar_id u user_id db,
        keeps_statutory_deadlines db (fst (update_sar_case_db now sar_id u user_id db)))
  /\ (forall now sar_id u user_id db,
        keeps_statutory_deadlines db
          (fst (update_sar_case_simple_db now sar_id u user_id db)))
  /\ (forall valid now uuid8 sar_id e user_id db,
        keeps_statutory_deadlines db
          (fst (create_ico_escalation_db valid now uuid8 sar_id e user_id db))).
Proof.
  split; [|split; [|split; [|split]]].
  - intros [] sub; reflexivity.
  - intros valid now uuid8 sar_data user_id db. cbv zeta.
    destruct (create_sar_case_db_stores valid now uuid8 sar_data user_id db)
      as [c [E [Hst [_ [_ Hout]]]]].
    exists c. split; [exact E|]. split; [|exact Hout].
    rewrite Hst. unfold statutory_deadline_for, Date.add_days.
    destruct (String.eqb _ _); reflexivity.
  - intros. apply update_sar_case_db_keeps.
  - intros. apply update_sar_case_simple_db_keeps.
  - intros. apply create_ico_escalation_db_keeps.
Qed.

(** ** The update paths, case by case *)

Lemma update_sar_case_db_eq (now : datetime) (sar_id : Z) (u : SARUpdate.t)
    (user_id : Z) (db : DB) :
  update_sar_case_db now sar_id u user_id db =
  match find (fun c => (SARCase.id c =? sar_id) && (SARCase.user_id c =? user_id))
             (sar_cases db) with
  | None => (db, Ok None)
  | Some c =>
      match update_case (Datetime.date_of now) u c with
      | Ok c' => (exec (commit_sar_case c') db, Ok (Some c'))
      | Raise e => (db, Raise e)
      end
  end.
Proof.
  unfold update_sar_case_db, bind, get_sar_case_db, lift, ret, update_case, exec.
  destruct (find _ (sar_cases db)) as [c|]; [|reflexivity].
  destruct (update_status_pass _ _ _); reflexivity.
Qed.

Lemma update_sar_case_simple_db_eq (now : datetime) (sar_id : Z) (u : SimpleUpdate.t)
    (user_id : Z) (db : DB) :
  update_sar_case_simple_db now sar_id u user_id db =
  match find (fun c => (SARCase.id c =? sar_id) && (SARCase.user_id c =? user_id))
             (sar_cases db) with
  | None => (db, Ok None)
  | Some c =>
      let c' := update_case_simple (Datetime.date_of now) u c in
      (exec (commit_sar_case c') db, Ok (Some c'))
  end.
Proof.
  unfold update_sar_case_simple_db, bind, get_sar_case_db, ret, update_case_simple, exec.
  destruct (find _ (sar_cases db)) as [c|]; reflexivity.
Qed.

Lemma pass_status_sticky (late : bool) (s : SARStatus) :
  s = Escalated \/ s = Complete ->
  forall resp, pass_status resp late (Some s) = Some (if truthy resp then Responded else s).
Proof.
  intros [-> | ->] resp; unfold pass_status; destruct (truthy resp), late; reflexivity.
Qed.

Lemma find_after_commit (sar_id user_id : Z) (c c' : SARCase.t) (rows : list SARCase.t) :
  let p := fun c => (SARCase.id c =? sar_id) && (SARCase.user_id c =? user_id) in
  find p rows = Some c ->
  SARCase.id c' = SARCase.id c ->
  SARCase.user_id c' = SARCase.user_id c ->
  find p (map (fun r => if SARCase.id r =? SARCase.id c' then c' else r) rows) = Some c'.
Proof.
  intros p F Hid Hu.
  assert (Hc : p c = true) by (apply find_some in F; tauto).
  assert (Hc' : p c' = true) by (unfold p in *; now rewrite Hid, Hu).
  revert F. induction rows as [|r rows IH]; [discriminate|].
  cbn [find map]. destruct (SARCase.id r =? SARCase.id c') eqn:E.
  - now rewrite Hc'.
  - destruct (p r) eqn:Hr.
    + intros [= ->]. rewrite Hid, Z.eqb_refl in E. discriminate.
    + exact IH.
Qed.

Lemma reference_stored_iff (ico_reference : string) (db : DB) :
  reference_stored ico_reference db = true
  <-> exists x, In x (ico_escalations db) /\ ICOEscalation.ico_reference x = ico_reference.
Proof.
  unfold reference_stored. rewrite existsb_exists.
  split; intros [x [Hin H]]; exists x; (split; [exact Hin|]); now apply String.eqb_eq.
Qed.

Lemma reference_new_iff (ico_reference : string) (db : DB) :
  reference_stored ico_reference db = false
  <-> forall x, In x (ico_escalations db) -> ICOEscalation.ico_reference x <> ico_reference.
Proof.
  split.
  - intros H x Hin E.
    assert (T : reference_stored ico_reference db = true)
      by (apply reference_stored_iff; now exists x).
    congruence.
  - intros H. destruct (reference_stored ico_reference db) eqn:E; [|reflexivity].
    apply reference_stored_iff in E. destruct E as [x [Hin E]]. now destruct (H x Hin).
Qed.

Lemma reference_of_request (now : datetime) (uuid8 : string) (e : ICOEscalationCreate.t) :
  (if no_reference (ICOEscalationCreate.ico_reference e)
   then "ICO-" ++ Datetime.strftime_Ym now ++ "-" ++ uuid8
   else match ICOEscalationCreate.ico_reference e with
        | Some s => s
        | None => ""
        end)
  = escalation_reference now uuid8 e.
Proof.
  unfold escalation_reference.
  destruct (ICOEscalationCreate.ico_reference e) as [[|a r]|]; reflexivity.
Qed.

(** The two ways an escalation of an owned case ends, as far as the cases
    are concerned. *)
Lemma create_ico_escalation_db_cases (valid : datetime -> datetime -> bool)
    (now : datetime) (uuid8 : string) (sar_id : Z) (e : ICOEscalationCreate.t)
    (user_id : Z) (db : DB) (c : SARCase.t) :
  outcome (get_sar_case_db sar_id user_id) db = Ok (Some c) ->
  if reference_stored (escalation_reference now uuid8 e) db
  then create_ico_escalation_db valid now uuid8 sar_id e user_id db
       = (db, Raise IntegrityError)
  else sar_cases (exec (create_ico_escalation_db valid now uuid8 sar_id e user_id) db)
       = sar_cases (exec (commit_sar_case (SARCase.set_status (Some Escalated) c)) db).
Proof.
  unfold outcome, exec, get_sar_case_db; cbn [snd]. intros [= F].
  unfold create_ico_escalation_db, bind, get_sar_case_db, ret, raise. rewrite F.
  unfold add_ico_escalation. cbv zeta. cbn [ICOEscalation.ico_reference].
  rewrite reference_of_request.
  destruct (reference_stored (escalation_reference now uuid8 e) db); [reflexivity|].
  cbn [commit_sar_case sar_cases reminders ico_escalations].
  destruct (ICOEscalationCreate.ico_investigation_deadline e) as [d|]; cbn.
  - unfold create_ico_deadline_reminder, bind, lift, new_ReminderCreate.
    destruct (valid now (ico_deadline_reminder_date d)); reflexivity.
  - reflexivity.
Qed.

Lemma escalation_forces_escalated (valid : datetime -> datetime -> bool)
    (now : datetime) (uuid8 : string) (sar_id : Z) (e : ICOEscalationCreate.t)
    (user_id : Z) (db : DB) (c : SARCase.t) :
  outcome (get_sar_case_db sar_id user_id) db = Ok (Some c) ->
  reference_stored (escalation_reference now uuid8 e) db = false ->
  outcome (get_sar_case_db sar_id user_id)
          (exec (create_ico_escalation_db valid now uuid8 sar_id e user_id) db)
  = Ok (Some (SARCase.set_status (Some Escalated) c)).
Proof.
  intros H N. pose proof H as F.
  unfold outcome, get_sar_case_db in F |- *; cbn [snd] in F |- *. injection F as F.
  pose proof (create_ico_escalation_db_cases valid now uuid8 sar_id e user_id db c H) as C.
  rewrite N in C. rewrite C.
  unfold exec, commit_sar_case; cbn [fst sar_cases].
  do 2 f_equal. now apply (find_after_commit sar_id user_id c).
Qed.

(** ** Idempotence *)

Lemma apply_update_data_user (u : SARUpdate.t) (c : SARCase.t) :
  SARCase.user_id (apply_update_data u c) = SARCase.user_id c.
Proof.
  destruct u as [o r e cu st rr rd], c. unfold apply_update_data, set_if; cbn.
  destruct o, r, e, cu, st, rr, rd; reflexivity.
Qed.

Lemma update_case_ids (today : date) (u : SARUpdate.t) (c c' : SARCase.t) :
  update_case today u c = Ok c' ->
  SARCase.id c' = SARCase.id c /\ SARCase.user_id c' = SARCase.user_id c.
Proof.
  unfold update_case. rewrite update_status_pass_eq.
  destruct (update_deadline _); [|discriminate]. intros [= <-]. split.
  - apply apply_update_data_keeps.
  - apply apply_update_data_user.
Qed.

Lemma commit_sar_case_twice (c : SARCase.t) (db : DB) :
  fst (commit_sar_case c (fst (commit_sar_case c db))) = fst (commit_sar_case c db).
Proof.
  unfold commit_sar_case; cbn [fst sar_cases reminders ico_escalations].
  f_equal. rewrite map_map. apply map_ext. intros r.
  destruct (SARCase.id r =? SARCase.id c) eqn:E; [now rewrite Z.eqb_refl|now rewrite E].
Qed.

Lemma update_sar_case_db_idem (now : datetime) (sar_id : Z) (u : SARUpdate.t)
    (user_id : Z) (db : DB) :
  update_sar_case_db now sar_id u user_id (fst (update_sar_case_db now sar_id u user_id db))
  = update_sar_case_db now sar_id u user_id db.
Proof.
  rewrite (update_sar_case_db_eq now sar_id u user_id db).
  destruct (find _ (sar_cases db)) as [c|] eqn:F.
  - destruct (update_case (Datetime.date_of now) u c) as [c'|e] eqn:U.
    + cbn [fst]. rewrite update_sar_case_db_eq.
      destruct (update_case_ids _ _ _ _ U) as [Hid Hu].
      unfold exec at 1 2. unfold commit_sar_case at 1. cbn [fst sar_cases].
      rewrite (find_after_commit sar_id user_id c c' _ F Hid Hu).
      pose proof (update_case_idem (Datetime.date_of now) u c) as I.
      unfold twice in I. rewrite U in I. rewrite I.
      unfold exec. now rewrite commit_sar_case_twice.
    + cbn [fst]. now rewrite update_sar_case_db_eq, F, U.
  - cbn [fst]. now rewrite update_sar_case_db_eq, F.
Qed.

(** C7.  The status pass applied after a mutation is idempotent: for the
    same body flag and the same current date, running the pass of
    [update_sar_case_db] on its own result returns that result again (and
    fails again where it failed), and so does the pass of
    [update_sar_case_simple_db]; the same holds of a whole update of a case
    (field assignment followed by the pass) on either path, and of
    [update_sar_case_db] on the store: a second call with the same body at
    the same time returns the same case and leaves the same store. *)
Theorem status_recomputation_idempotent :
  forall (today : date) (c : SARCase.t),
    (forall resp : option bool,
        twice (update_status_pass resp today) c = update_status_pass resp today c)
    /\ update_simple_status_pass today (update_simple_status_pass today c)
       = update_simple_status_pass today c
    /\ (forall u : SARUpdate.t, twice (update_case today u) c = update_case today u c)
    /\ (forall u : SimpleUpdate.t,
          update_case_simple today u (update_case_simple today u c)
          = update_case_simple today u c)
    /\ (forall now sar_id u user_id db,
          update_sar_case_db now sar_id u user_id
            (exec (update_sar_case_db now sar_id u user_id) db)
          = update_sar_case_db now sar_id u user_id db).
Proof.
  intros today c. repeat split; intros.
  - apply update_status_pass_idem.
  - apply update_simple_status_pass_idem.
  - apply update_case_idem.
  - apply update_case_simple_idem.
  - apply update_sar_case_db_idem.
Qed.

(** C1.  The two update paths resolve the deadline as extended, then
    custom, then statutory, whereas the upcoming-deadline rows and the
    calendar events resolve it as custom, then extended, then statutory:
    whenever both overrides are set, the former take the extended and the
    latter the custom deadline.  For the pending case with a custom deadline on 2024-02-10 and an
    extended deadline on 2024-03-15, on 2024-02-20: the analytics report
    the custom deadline and a row that is overdue, and an update on either
    path leaves the case Pending, since it compares with the extended
    deadline. *)
Theorem update_paths_take_extended_before_custom :
  let today := Date.ymd 2024 2 20 in
  let db := mkDB [two_overrides_case] [] [] in
  (forall (statutory : option date) (extended custom : date) (s : SARStatus) (r : bool),
      let c := case_with statutory (Some extended) (Some custom) s r in
      actual_deadline c = Some custom /\ update_deadline c = Some extended)
  /\ actual_deadline two_overrides_case = Some (Date.ymd 2024 2 10)
  /\ map (fun r => (di_deadline_date r, di_is_overdue r, di_deadline_type r))
         (get_upcoming_deadlines_data today 7 30 db)
     = [("2024-02-10", true, "Custom")]
  /\ update_deadline two_overrides_case = Some (Date.ymd 2024 3 15)
  /\ update_status_pass None today two_overrides_case = Ok two_overrides_case
  /\ update_simple_status_pass today two_overrides_case = two_overrides_case
  /\ stored_status 1 (exec (update_sar_case_db (at_time today 10) 1 SARUpdate.unset 7) db)
     = Some (Some Pending)
  /\ stored_status 1
       (exec (update_sar_case_simple_db (at_time today 10) 1 (SimpleUpdate.mk None None) 7) db)
     = Some (Some Pending).
Proof.
  cbv zeta. split; [intros; split; reflexivity|].
  vm_compute. repeat split; reflexivity.
Qed.

(** C2, as stated, fails: the escalated case of the scenario stays
    Escalated under an update without a response, but an update whose body
    carries [response_received = true] turns it into Responded; the same
    update turns a Complete case into Responded. *)
Lemma response_overwrites_escalated_and_complete :
  let now := at_time (Date.ymd 2024 3 1) 10 in
  stored_status 1 escalated_db = Some (Some Escalated)
  /\ stored_status 1 (exec (update_sar_case_db now 1 SARUpdate.unset 7) escalated_db)
     = Some (Some Escalated)
  /\ stored_status 1 (exec (update_sar_case_db now 1 (response_update (Date.ymd 2024 3 1)) 7)
                          escalated_db)
     = Some (Some Responded)
  /\ stored_status 1 complete_db = Some (Some Complete)
  /\ stored_status 1 (exec (update_sar_case_db now 1 (response_update (Date.ymd 2024 3 1)) 7)
                          complete_db)
     = Some (Some Responded).
Proof. vm_compute. repeat split; reflexivity. Qed.

(** C2, amended.  Once the status of a case is Escalated or Complete, the
    status pass of [update_sar_case_simple_db] leaves it, and the status
    pass of [update_sar_case_db] leaves it unless the body of the update
    carries [response_received = true], in which case the status becomes
    Responded; the overdue check never changes it.  The creation of an
    escalation sets the status of the case to Escalated whatever it was,
    provided that the escalation is stored: when its reference is the
    reference of a stored escalation, the insert fails with an
    [IntegrityError] before the status is assigned, and the store, and so
    the status, is as it was. *)
Theorem sticky_status_except_response :
  forall (s : SARStatus) (today : date) (c : SARCase.t),
    s = Escalated \/ s = Complete ->
    SARCase.status c = Some s ->
    SARCase.status (update_simple_status_pass today c) = Some s
    /\ (forall resp : option bool,
          match update_status_pass resp today c with
          | Ok c' => SARCase.status c' = Some (if truthy resp then Responded else s)
          | Raise _ => update_deadline c = None
          end)
    /\ (forall valid now uuid8 sar_id e user_id db c0,
          outcome (get_sar_case_db sar_id user_id) db = Ok (Some c0) ->
          let m := create_ico_escalation_db valid now uuid8 sar_id e user_id in
          ((forall x, In x (ico_escalations db) ->
                      ICOEscalation.ico_reference x <> escalation_reference now uuid8 e) ->
           outcome (get_sar_case_db sar_id user_id) (exec m db)
           = Ok (Some (SARCase.set_status (Some Escalated) c0)))
          /\ ((exists x, In x (ico_escalations db)
                         /\ ICOEscalation.ico_reference x = escalation_reference now uuid8 e) ->
              m db = (db, Raise IntegrityError))).
Proof.
  intros s today c Hs Hc. split; [|split].
  - rewrite update_simple_status_pass_eq.
    destruct (update_deadline c) as [d|]; [|exact Hc].
    rewrite status_set_status, Hc. now rewrite pass_status_sticky.
  - intros resp. rewrite update_status_pass_eq.
    destruct (update_deadline c) as [d|]; [|reflexivity].
    rewrite status_set_status, Hc. now apply pass_status_sticky.
  - intros valid now uuid8 sar_id e user_id db c0 H. cbv zeta. split.
    + intros N. apply escalation_forces_escalated; [exact H|].
      now apply reference_new_iff.
    + intros S. apply reference_stored_iff in S.
      pose proof (create_ico_escalation_db_cases valid now uuid8 sar_id e user_id db c0 H)
        as C.
      now rewrite S in C.
Qed.

Lemma sticky_status_except_response_witness :
  let c := case_with (Some (Date.ymd 2024 1 29)) None None Escalated false in
  let today := Date.ymd 2024 3 1 in
  let now := at_time (Date.ymd 2024 3 2) 10 in
  (Escalated = Escalated \/ Escalated = Complete)
  /\ SARCase.status c = Some Escalated
  /\ outcome (get_sar_case_db 1 7) complete_db
     = Ok (Some (case_with (Some (Date.ymd 2024 1 29)) None None Complete false))
  /\ SARCase.status (update_simple_status_pass today c) = Some Escalated
  /\ match update_status_pass (Some true) today c with
     | Ok c' => SARCase.status c' = Some Responded
     | Raise _ => update_deadline c = None
     end
  /\ outcome (get_sar_case_db 1 7)
       (exec (create_ico_escalation_db reminder_date_cannot_be_past now "9F8E7D6C" 1
                escalation_request 7) complete_db)
     = Ok (Some (SARCase.set_status (Some Escalated)
                   (case_with (Some (Date.ymd 2024 1 29)) None None Complete false)))
  /\ create_ico_escalation_db reminder_date_cannot_be_past now "9F8E7D6C" 1
       repeated_escalation 7 escalated_db
     = (escalated_db, Raise IntegrityError).
Proof.
  cbv zeta.
  pose proof (sticky_status_except_response Escalated (Date.ymd 2024 3 1)
                (case_with (Some (Date.ymd 2024 1 29)) None None Escalated false)
                (or_introl eq_refl) eq_refl) as [H1 [H2 H3]].
  split; [left; reflexivity|]. split; [reflexivity|]. split; [reflexivity|].
  split; [exact H1|]. split; [exact (H2 (Some true))|]. split.
  - apply (H3 reminder_date_cannot_be_past (at_time (Date.ymd 2024 3 2) 10) "9F8E7D6C" 1
              escalation_request 7 complete_db
              (case_with (Some (Date.ymd 2024 1 29)) None None Complete false) eq_refl).
    intros x [].
  - apply (H3 reminder_date_cannot_be_past (at_time (Date.ymd 2024 3 2) 10) "9F8E7D6C" 1
              repeated_escalation 7 escalated_db
              (case_with (Some (Date.ymd 2024 1 29)) None None Escalated false) eq_refl).
    eexists. split; [left; reflexivity|reflexivity].
Defined.

(** ** Response and lateness *)

Lemma attr_true {A} (f : field A) (v : A) : attr f = Some v -> f = Some (Some v).
Proof. destruct f as [[x|]|]; cbn; congruence. Qed.

Lemma apply_update_data_response (u : SARUpdate.t) (c : SARCase.t) (b : bool) :
  attr (SARUpdate.response_received u) = Some b ->
  SARCase.response_received (apply_update_data u c) = Some b.
Proof.
  intros H. apply attr_true in H.
  destruct u as [o r e cu st rr rd], c. cbn in H. subst rr.
  unfold apply_update_data, set_if; cbn.
  destruct o, r, e, cu, st, rd; reflexivity.
Qed.

Lemma response_received_set_status (s : option SARStatus) (c : SARCase.t) :
  SARCase.response_received (SARCase.set_status s c) = SARCase.response_received c.
Proof. reflexivity. Qed.

(** C4, as stated, fails: the status pass reads the flag of the update
    body, not the flag of the case.  A case answered on 2024-01-10 and put
    back to Pending by an update on 2024-01-11 is stored with
    [response_received = true] and status Pending, and further passes on
    either path leave it so. *)
Lemma stored_response_next_to_pending :
  let now := at_time (Date.ymd 2024 1 12) 10 in
  (stored_status 1 reopened_db, stored_response 1 reopened_db)
  = (Some (Some Pending), Some (Some true))
  /\ (let db := exec (update_sar_case_db now 1 SARUpdate.unset 7) reopened_db in
      (stored_status 1 db, stored_response 1 db) = (Some (Some Pending), Some (Some true)))
  /\ (let db := exec (update_sar_case_simple_db now 1 (SimpleUpdate.mk None None) 7)
                     reopened_db in
      (stored_status 1 db, stored_response 1 db) = (Some (Some Pending), Some (Some true))).
Proof. vm_compute. repeat split; reflexivity. Qed.

(** C4, amended.  After an update by [update_sar_case_db] whose body
    carries [response_received = true], the case has
    [response_received = true] and the status Responded, whatever its
    status and its deadline were: the response check comes before the
    overdue check, which then finds no Pending status.  (The pass fails
    only where the case has no deadline at all.) *)
Theorem response_in_body_sets_responded :
  forall (today : date) (u : SARUpdate.t) (c : SARCase.t),
    attr (SARUpdate.response_received u) = Some true ->
    match update_case today u c with
    | Ok c' =>
        SARCase.response_received c' = Some true
        /\ SARCase.status c' = Some Responded
    | Raise _ => update_deadline (apply_update_data u c) = None
    end.
Proof.
  intros today u c H. unfold update_case. rewrite update_status_pass_eq.
  destruct (update_deadline (apply_update_data u c)) as [d|]; [|reflexivity].
  rewrite response_received_set_status, status_set_status, H.
  split; [now apply apply_update_data_response|].
  unfold pass_status; cbn. now rewrite andb_false_r.
Qed.

Lemma response_in_body_sets_responded_witness :
  let late := case_with (Some (Date.ymd 2024 1 29)) None None Pending false in
  let u := response_update (Date.ymd 2024 3 2) in
  attr (SARUpdate.response_received u) = Some true
  /\ match update_case (Date.ymd 2024 3 2) u late with
     | Ok c' =>
         SARCase.response_received c' = Some true
         /\ SARCase.status c' = Some Responded
     | Raise _ => update_deadline (apply_update_data u late) = None
     end.
Proof.
  split; [reflexivity|].
  apply (response_in_body_sets_responded (Date.ymd 2024 3 2)
           (response_update (Date.ymd 2024 3 2))).
  reflexivity.
Defined.

(** ** Failures of the status pass *)

(** C5, as stated, fails on both paths.  For a pending case without any
    deadline, [update_sar_case_simple_db] skips the overdue check and
    returns the case as it is, and [update_sar_case_db] fails with a
    [TypeError]; it fails in the same way for a Complete case, where no
    decision depends on the deadline. *)
Lemma no_deadline_is_skipped_or_type_error :
  let today := Date.ymd 2024 3 1 in
  let db s := mkDB [no_deadline_case s] [] [] in
  update_deadline (no_deadline_case Pending) = None
  /\ update_simple_status_pass today (no_deadline_case Pending) = no_deadline_case Pending
  /\ outcome (update_sar_case_simple_db (at_time today 10) 1 (SimpleUpdate.mk None None) 7)
             (db Pending)
     = Ok (Some (no_deadline_case Pending))
  /\ update_status_pass None today (no_deadline_case Pending) = Raise TypeError
  /\ outcome (update_sar_case_db (at_time today 10) 1 SARUpdate.unset 7) (db Pending)
     = Raise TypeError
  /\ update_status_pass None today (no_deadline_case Complete) = Raise TypeError.
Proof. vm_compute. repeat split; reflexivity. Qed.

(** C5, amended.  No status pass raises [ConfigurationError].  The pass of
    [update_sar_case_simple_db] never fails, and where none of the three
    deadlines is set it skips the overdue check and leaves the case as it
    is.  The pass of [update_sar_case_db] does not fail for any response
    state and any status when one of the three deadlines is set. *)
Theorem status_pass_failures :
  forall (now : datetime) (sar_id user_id : Z) (u : SARUpdate.t) (su : SimpleUpdate.t)
         (db : DB) (c : SARCase.t),
    is_ok (outcome (update_sar_case_simple_db now sar_id su user_id) db) = true
    /\ outcome (update_sar_case_db now sar_id u user_id) db <> Raise ConfigurationError
    /\ (update_deadline c = None ->
        update_simple_status_pass (Datetime.date_of now) c = c)
    /\ (present (update_deadline c) = true ->
        forall resp, is_ok (update_status_pass resp (Datetime.date_of now) c) = true)
    /\ (present (update_deadline (apply_update_data u c)) = true ->
        outcome (get_sar_case_db sar_id user_id) db = Ok (Some c) ->
        is_ok (outcome (update_sar_case_db now sar_id u user_id) db) = true).
Proof.
  intros now sar_id user_id u su db c. repeat split.
  - unfold outcome. rewrite update_sar_case_simple_db_eq.
    destruct (find _ _); reflexivity.
  - unfold outcome. rewrite update_sar_case_db_eq.
    destruct (find _ _) as [c0|]; [|discriminate].
    unfold update_case. rewrite update_status_pass_eq.
    destruct (update_deadline _); discriminate.
  - intros H. now rewrite update_simple_status_pass_eq, H.
  - intros H resp. rewrite update_status_pass_eq.
    destruct (update_deadline c); [reflexivity|discriminate].
  - intros H F. unfold outcome in *. rewrite update_sar_case_db_eq.
    unfold get_sar_case_db in F; cbn [snd] in F. injection F as F. rewrite F.
    unfold update_case. rewrite update_status_pass_eq.
    destruct (update_deadline _); [reflexivity|discriminate].
Qed.

Lemma status_pass_failures_witness :
  let now := at_time (Date.ymd 2024 3 1) 10 in
  let c := case_with (Some (Date.ymd 2024 1 29)) None None Pending false in
  let db := mkDB [c] [] [] in
  update_deadline (no_deadline_case Pending) = None
  /\ present (update_deadline c) = true
  /\ present (update_deadline (apply_update_data (response_update (Date.ymd 2024 3 1)) c)) = true
  /\ outcome (get_sar_case_db 1 7) db = Ok (Some c)
  /\ update_simple_status_pass (Datetime.date_of now) (no_deadline_case Pending)
     = no_deadline_case Pending
  /\ is_ok (update_status_pass None (Datetime.date_of now) c) = true
  /\ is_ok (outcome (update_sar_case_db now 1 (response_update (Date.ymd 2024 3 1)) 7) db)
     = true.
Proof.
  cbv zeta.
  split; [reflexivity|]. split; [reflexivity|]. split; [reflexivity|].
  split; [reflexivity|].
  split.
  - apply (status_pass_failures (at_time (Date.ymd 2024 3 1) 10) 1 7 SARUpdate.unset
             (SimpleUpdate.mk None None) empty_db (no_deadline_case Pending)).
    reflexivity.
  - pose proof (status_pass_failures (at_time (Date.ymd 2024 3 1) 10) 1 7
                  (response_update (Date.ymd 2024 3 1)) (SimpleUpdate.mk None None)
                  (mkDB [case_with (Some (Date.ymd 2024 1 29)) None None Pending false] [] [])
                  (case_with (Some (Date.ymd 2024 1 29)) None None Pending false))
      as [_ [_ [_ [H4 H5]]]].
    split; [apply H4; reflexivity | apply H5; reflexivity].
Defined.

(** ** Reminder dates *)

Lemma deadline_tomorrow_reminder_today (today : date) :
  deadline_reminder_date today (today + 1) = Datetime.combine_min today.
Proof.
  unfold deadline_reminder_date, Datetime.sub_days, Datetime.combine_min.
  destruct (Z.leb_spec (today + 1) today); lia.
Qed.

Lemma combine_min_date_of_le (now : datetime) :
  Datetime.combine_min (Datetime.date_of now) <= now.
Proof.
  unfold Datetime.combine_min, Datetime.date_of, Datetime.us_per_day.
  rewrite Z.mul_comm. apply Z.mul_div_le. lia.
Qed.

(** C6.  The guard of [create_deadline_reminder] tests the deadline, not
    the reminder date, against today: for a deadline that falls tomorrow
    the reminder date is midnight of today, which is never after the
    scheduling moment; and [create_ico_deadline_reminder] has no guard at
    all.  On 2024-01-28 at 10:00, for the request filed on 2024-01-01
    (deadline 2024-01-29) and for an investigation deadline on 2024-02-01:
    a schema that does not check the date stores reminders dated
    2024-01-28 00:00 and 2024-01-25 00:00, both in the past; the schema of
    [app/schemas.py] rejects them, so that both operations fail with a
    [ValueError] after the case, respectively the escalation, was stored,
    and no reminder is stored. *)
Theorem reminder_not_after_scheduling_moment :
  (forall now : datetime,
      deadline_reminder_date (Datetime.date_of now) (Datetime.date_of now + 1) <= now)
  /\ (forall deadline_date : date,
        ico_deadline_reminder_date deadline_date
        = Datetime.combine_min (deadline_date - 7))
  /\ (let now := day_before_deadline in
      let unchecked := create_sar_case_db reminder_date_unchecked now "0A1B2C3D" acme_request 7 in
      let checked := create_sar_case_db reminder_date_cannot_be_past now "0A1B2C3D" acme_request 7 in
      reminder_dates (exec unchecked empty_db) = [Some (at_time (Date.ymd 2024 1 28) 0)]
      /\ at_time (Date.ymd 2024 1 28) 0 < now
      /\ outcome checked empty_db = Raise ValueError
      /\ reminder_dates (exec checked empty_db) = []
      /\ stored_status 1 (exec checked empty_db) = Some (Some Pending))
  /\ (let now := day_before_deadline in
      let db := mkDB [case_with (Some (Date.ymd 2024 1 29)) None None Pending false] [] [] in
      let unchecked :=
        create_ico_escalation_db reminder_date_unchecked now "9F8E7D6C" 1
                                 investigated_escalation 7 in
      let checked :=
        create_ico_escalation_db reminder_date_cannot_be_past now "9F8E7D6C" 1
                                 investigated_escalation 7 in
      reminder_dates (exec unchecked db) = [Some (at_time (Date.ymd 2024 1 25) 0)]
      /\ at_time (Date.ymd 2024 1 25) 0 < now
      /\ outcome checked db = Raise ValueError
      /\ reminder_dates (exec checked db) = []
      /\ stored_status 1 (exec checked db) = Some (Some Escalated)).
Proof.
  split; [|split; [|split]].
  - intros now. rewrite deadline_tomorrow_reminder_today. apply combine_min_date_of_le.
  - intros d. unfold ico_deadline_reminder_date, Datetime.sub_days, Datetime.combine_min. lia.
  - vm_compute. repeat split; reflexivity.
  - vm_compute. repeat split; reflexivity.
Qed.

(** ** Dashboard counts *)

Lemma or3_true (a b c : Sql.tv) :
  a = Some true \/ b = Some true \/ c = Some true ->
  Sql.or_ a (Sql.or_ b c) = Some true.
Proof.
  destruct a as [[]|], b as [[]|], c as [[]|]; intros [H | [H | H]];
    try reflexivity; discriminate.
Qed.

Lemma status_open_true (c : SARCase.t) :
  SARCase.status c = Some Pending \/ SARCase.status c = Some Overdue ->
  status_open c = Some true.
Proof. unfold status_open, status_eq. intros [-> | ->]; reflexivity. Qed.


Lemma query_count_cons {A} (f : A -> Sql.tv) (x : A) (l : list A) :
  query_count f (x :: l) = (if Sql.holds (f x) then 1 else 0) + query_count f l.
Proof.
  unfold query_count, query. cbn [filter].
  destruct (Sql.holds (f x)); cbn [List.length]; lia.
Qed.



(** ** Organisation performance *)

Lemma truediv_nonzero (a b : Z) : b <> 0 -> truediv a b = Ok (quotient a b).
Proof.
  intros H. unfold truediv. destruct (Z.eqb_spec b 0); [contradiction|reflexivity].
Qed.

Lemma query_count_nonneg {A} (f : A -> Sql.tv) (l : list A) : 0 <= query_count f l.
Proof. unfold query_count. lia. Qed.

Lemma rating_of_eq (on_time total : Z) :
  0 <= total ->
  rating_of on_time total
  = Ok (if total =? 0 then None else Some (percentage on_time total)).
Proof.
  intros H. unfold rating_of, percentage.
  destruct (Z.ltb_spec 0 total) as [L|L].
  - rewrite truediv_nonzero by lia. destruct (Z.eqb_spec total 0); [lia|reflexivity].
  - destruct (Z.eqb_spec total 0); [reflexivity|lia].
Qed.

Lemma average_of_eq (cs : list SARCase.t) :
  average_of (map response_days cs)
  = Ok (match cs with [] => None | _ :: _ => Some (mean_response_days cs) end).
Proof.
  destruct cs as [|c cs]; [reflexivity|].
  unfold average_of, mean_response_days. cbn [map].
  change (response_days c :: map response_days cs) with (map response_days (c :: cs)).
  rewrite length_map, truediv_nonzero; [reflexivity|cbn [List.length]; lia].
Qed.

Lemma and_true_r (a b : Sql.tv) : Sql.holds (Sql.and_ a b) = true -> Sql.holds b = true.
Proof. destruct a as [[]|], b as [[]|]; cbn; congruence. Qed.

Lemma and_true_l (a b : Sql.tv) : Sql.holds (Sql.and_ a b) = true -> Sql.holds a = true.
Proof. destruct a as [[]|], b as [[]|]; cbn; congruence. Qed.

Lemma organization_performance_eq (today : date) (user_id : Z) (db : DB)
    (org_name : string) :
  let cases := sar_cases db in
  let total := query_count (org_is user_id org_name) cases in
  let on_time := query_count (on_time_filter user_id org_name) cases in
  let responded := query (responded_filter user_id org_name) cases in
  organization_performance today user_id db org_name
  = Ok (mkPerformance org_name total on_time
          (query_count (late_filter user_id org_name) cases)
          (query_count (ignored_filter user_id org_name today) cases)
          (match responded with [] => None | _ :: _ => Some (mean_response_days responded) end)
          (if total =? 0 then None else Some (percentage on_time total))).
Proof.
  cbv zeta. unfold organization_performance.
  now rewrite average_of_eq, rating_of_eq by apply query_count_nonneg.
Qed.




Lemma filter_none {A} (p : A -> bool) (l : list A) :
  Forall (fun x => p x = false) l -> filter p l = [].
Proof.
  induction 1 as [|x l Hx F IH]; [reflexivity|]. cbn [filter]. now rewrite Hx.
Qed.







(** The scenario of the specification: two requests to Acme filed on
    2024-01-01, one answered after 10 days and one after 35 days, give a
    total of 2, 1 on time, 1 late and a rating of 50.0; the average is
    24.0, the day number of both cases, where the mean of the days between
    submission and response is 22.5.  An organisation without requests
    has neither rating nor average.  A quotient that is no binary64
    number is rounded: 1 of 3 on time is rated 33.33333333333333. *)
Example acme_performance :
  option_map (fun r => (total_sars r, responded_on_time r, responded_late r, ignored r,
                        option_map PyFloat.value (compliance_rating r),
                        option_map PyFloat.value (average_response_time r)))
    (match organization_performance (Date.ymd 2024 3 1) 7 acme_db "Acme" with
     | Ok r => Some r | Raise _ => None end)
  = Some (2, 1, 1, 0, Some 50%float, Some 24%float)
  /\ option_map (fun r => (total_sars r, compliance_rating r, average_response_time r))
       (match organization_performance (Date.ymd 2024 3 1) 7 acme_db "Nobody" with
        | Ok r => Some r | Raise _ => None end)
     = Some (0, None, None)
  /\ map response_days (sar_cases acme_db) = [Some 24; Some 24]
  /\ map (fun c => days_between (SARCase.response_date c) (SARCase.submission_date c))
         (sar_cases acme_db)
     = [Ok 10; Ok 35]
  /\ PyFloat.value (percentage 1 3) = 0x1.0aaaaaaaaaaaap+5%float.
Proof. vm_compute. repeat split; reflexivity. Qed.

(** ** Sorting *)

Section SortFacts.
Context {A : Type} (key : A -> Z).

Let le_key (a b : A) : Prop := key a <= key b.

Lemma insert_sorted_perm (x : A) (l : list A) :
  Permutation (x :: l) (insert_sorted Z.leb key x l).
Proof.
  induction l as [|y l IH]; cbn [insert_sorted]; [reflexivity|].
  destruct (key x <=? key y); [reflexivity|].
  rewrite perm_swap. now constructor.
Qed.

Lemma list_sort_perm (l : list A) : Permutation l (list_sort Z.leb key l).
Proof.
  induction l as [|x l IH]; cbn [list_sort fold_right]; [reflexivity|].
  rewrite <- insert_sorted_perm. now constructor.
Qed.

Lemma insert_sorted_sorted (x : A) (l : list A) :
  StronglySorted le_key l -> StronglySorted le_key (insert_sorted Z.leb key x l).
Proof.
  induction 1 as [|y l S IH F]; cbn [insert_sorted].
  - repeat constructor.
  - destruct (Z.leb_spec (key x) (key y)) as [L|L].
    + constructor; [now constructor|].
      constructor; [exact L|].
      eapply Forall_impl; [|exact F]. unfold le_key. intros z Hz. lia.
    + constructor; [exact IH|].
      eapply Permutation_Forall; [apply insert_sorted_perm|].
      constructor; [unfold le_key; lia|exact F].
Qed.

Lemma list_sort_sorted (l : list A) : StronglySorted le_key (list_sort Z.leb key l).
Proof.
  induction l as [|x l IH]; cbn [list_sort fold_right]; [constructor|].
  now apply insert_sorted_sorted.
Qed.
End SortFacts.

Lemma filter_length_perm {A} (p : A -> bool) (l l' : list A) :
  Permutation l l' -> List.length (filter p l) = List.length (filter p l').
Proof.
  induction 1 as [|x l l' P IH|x y l|l l' l'' P1 IH1 P2 IH2]; cbn [filter].
  - reflexivity.
  - destruct (p x); cbn [List.length]; congruence.
  - destruct (p x), (p y); reflexivity.
  - congruence.
Qed.

Lemma mapM_Forall2 {A B} (f : A -> result B) (l : list A) :
  (forall x, In x l -> exists y, f x = Ok y) ->
  exists ys, mapM f l = Ok ys /\ Forall2 (fun x y => f x = Ok y) l ys.
Proof.
  induction l as [|x l IH]; intros H.
  - exists []. split; [reflexivity|constructor].
  - destruct (H x (or_introl eq_refl)) as [y Ey].
    destruct IH as [ys [E F]]; [intros z Hz; apply H; now right|].
    exists (y :: ys). cbn [mapM]. rewrite Ey, E. split; [reflexivity|now constructor].
Qed.

Lemma Forall2_Forall_r {A B} (R : A -> B -> Prop) (P : B -> Prop) (l : list A) (ys : list B) :
  Forall2 R l ys -> (forall x y, R x y -> P y) -> Forall P ys.
Proof.
  induction 1 as [|x y l ys Rxy F IH]; intros HP; constructor; eauto.
Qed.

Lemma Forall2_filter_length {A B} (R : A -> B -> Prop) (p : A -> bool) (q : B -> bool)
    (l : list A) (ys : list B) :
  Forall2 R l ys -> (forall x y, R x y -> q y = p x) ->
  List.length (filter q ys) = List.length (filter p l).
Proof.
  induction 1 as [|x y l ys Rxy F IH]; intros H; [reflexivity|].
  cbn [filter]. rewrite (H x y Rxy).
  destruct (p x); cbn [List.length]; rewrite IH; auto.
Qed.

Lemma Forall2_In_l {A B} (R : A -> B -> Prop) (l : list A) (ys : list B) (x : A) :
  Forall2 R l ys -> In x l -> exists y, In y ys /\ R x y.
Proof.
  induction 1 as [|x0 y l ys Rxy F IH]; intros Hin; [destruct Hin|].
  destruct Hin as [-> | Hin].
  - exists y. split; [now left|assumption].
  - destruct (IH Hin) as [y' [Hy R']]. exists y'. split; [now right|assumption].
Qed.

Lemma query_unique_ids (flt : SARCase.t -> Sql.tv) (rows : list SARCase.t) :
  NoDup (map SARCase.id rows) -> NoDup (map SARCase.id (query flt rows)).
Proof.
  unfold query. induction rows as [|r rows IH]; cbn [map filter]; intros N.
  - constructor.
  - inversion N as [|? ? Hr Hrows]; subst.
    destruct (Sql.holds (flt r)); [|now apply IH].
    cbn [map]. constructor; [|now apply IH].
    intros Hin. apply Hr. apply in_map_iff in Hin. destruct Hin as [r' [E Hr']].
    apply filter_In in Hr'. apply in_map_iff. exists r'. tauto.
Qed.

Lemma unique_id_count (l : list SARCase.t) (c : SARCase.t) :
  NoDup (map SARCase.id l) -> In c l ->
  List.length (filter (fun r => SARCase.id r =? SARCase.id c) l) = 1%nat.
Proof.
  induction l as [|x l IH]; intros N Hin; [destruct Hin|].
  cbn [map] in N. inversion N as [|? ? Hx Hl]; subst.
  cbn [filter]. destruct Hin as [-> | Hin].
  - rewrite Z.eqb_refl. cbn [List.length]. f_equal.
    rewrite filter_none; [reflexivity|].
    apply Forall_forall. intros r Hr. apply Z.eqb_neq. intros E.
    apply Hx. rewrite <- E. now apply in_map.
  - destruct (Z.eqb_spec (SARCase.id x) (SARCase.id c)) as [E|E].
    + exfalso. apply Hx. rewrite E. now apply in_map.
    + now apply IH.
Qed.

(** ** Calendar events *)

Lemma within_true (d : option date) (s e : date) :
  Sql.holds (within d s e) = true ->
  exists x, d = Some x /\ s <= x <= e.
Proof.
  destruct d as [x|]; [|discriminate]. unfold within, Sql.ge, Sql.le, Sql.cmp.
  rewrite Z.geb_leb.
  destruct (Z.leb_spec s x), (Z.leb_spec x e); cbn; try discriminate.
  intros _. exists x. split; [reflexivity|lia].
Qed.

Lemma within_Some (x s e : date) : s <= x <= e -> within (Some x) s e = Some true.
Proof.
  intros [H1 H2]. unfold within, Sql.ge, Sql.le, Sql.cmp. rewrite Z.geb_leb.
  apply Z.leb_le in H1, H2. now rewrite H1, H2.
Qed.

Lemma or3_holds (a b c : Sql.tv) :
  Sql.holds (Sql.or_ a (Sql.or_ b c)) = true ->
  Sql.holds a = true \/ Sql.holds b = true \/ Sql.holds c = true.
Proof. destruct a as [[]|], b as [[]|], c as [[]|]; cbn; auto. Qed.

Lemma deadline_filter_has_deadline (user_id : Z) (s e : date) (c : SARCase.t) :
  Sql.holds (calendar_deadline_filter user_id s e c) = true ->
  exists d, actual_deadline c = Some d.
Proof.
  unfold calendar_deadline_filter. intros H.
  apply and_true_r, and_true_r, or3_holds in H.
  unfold actual_deadline, py_or.
  destruct H as [H | [H | H]]; apply within_true in H; destruct H as [x [E _]];
    rewrite E; destruct (SARCase.custom_deadline c), (SARCase.extended_deadline c);
    eauto.
Qed.

Lemma deadline_filter_holds (user_id : Z) (s e : date) (c : SARCase.t) (d : date) :
  SARCase.user_id c = user_id ->
  SARCase.status c = Some Pending \/ SARCase.status c = Some Overdue ->
  actual_deadline c = Some d ->
  s <= d <= e ->
  Sql.holds (calendar_deadline_filter user_id s e c) = true.
Proof.
  intros Hu Hs Hd Hw. unfold calendar_deadline_filter, user_is.
  rewrite Hu, Z.eqb_refl, status_open_true by assumption.
  rewrite or3_true; [reflexivity|].
  unfold actual_deadline, py_or in Hd.
  destruct (SARCase.custom_deadline c) as [x|].
  - injection Hd as ->. right; right. now apply within_Some.
  - destruct (SARCase.extended_deadline c) as [y|].
    + injection Hd as ->. right; left. now apply within_Some.
    + rewrite Hd. left. now apply within_Some.
Qed.

Lemma creation_filter_has_date (user_id : Z) (s e : date) (c : SARCase.t) :
  Sql.holds (calendar_creation_filter user_id s e c) = true ->
  exists d, SARCase.submission_date c = Some d.
Proof.
  unfold calendar_creation_filter. intros H. apply and_true_r, and_true_l in H.
  destruct (SARCase.submission_date c) as [d|]; [eauto|discriminate].
Qed.

Lemma reminder_filter_has_date (user_id : Z) (s e : date) (r : Reminder.t) :
  Sql.holds (calendar_reminder_filter user_id s e r) = true ->
  exists d, Reminder.reminder_date r = Some d.
Proof.
  unfold calendar_reminder_filter. intros H. apply and_true_r, and_true_l in H.
  destruct (Reminder.reminder_date r) as [d|]; [eauto|discriminate].
Qed.

Lemma deadline_event_shape (today : date) (c : SARCase.t) (e : CalendarEvent) :
  deadline_event today c = Ok e ->
  event_type e = "Deadline"
  /\ ev_id e = "deadline_" ++ str_of_Z (SARCase.id c)
  /\ ev_sar_case_id e = Some (SARCase.id c)
  /\ actual_deadline c = Some (event_date e / Datetime.us_per_day)
  /\ event_date e = Datetime.combine_min (event_date e / Datetime.us_per_day).
Proof.
  unfold deadline_event. destruct (actual_deadline c) as [d|]; [|discriminate].
  intros [= <-]. cbn. unfold Datetime.combine_min.
  rewrite Z.div_mul by (unfold Datetime.us_per_day; lia). auto.
Qed.

Lemma creation_event_shape (c : SARCase.t) (e : CalendarEvent) :
  creation_event c = Ok e ->
  event_type e = "Case Creation" /\ ev_id e = "creation_" ++ str_of_Z (SARCase.id c).
Proof.
  unfold creation_event. destruct (SARCase.submission_date c); [|discriminate].
  intros [= <-]. auto.
Qed.

Lemma reminder_event_shape (now : datetime) (r : Reminder.t) (e : CalendarEvent) :
  reminder_event now r = Ok e ->
  event_type e = "Reminder" /\ ev_id e = "reminder_" ++ str_of_Z (Reminder.id r).
Proof.
  unfold reminder_event. destruct (Reminder.reminder_date r); [|discriminate].
  intros [= <-]. auto.
Qed.

Lemma prefix_append (p s : string) : String.prefix p (p ++ s) = true.
Proof.
  induction p as [|a p IH]; cbn.
  - now destruct s.
  - destruct (ascii_dec a a); [exact IH|contradiction].
Qed.

Lemma prefix_head (a : ascii) (p t : string) :
  String.prefix (String a p) t = true -> exists t', t = String a t'.
Proof.
  destruct t as [|b t]; cbn; [discriminate|].
  destruct (ascii_dec a b) as [->|]; [eauto|discriminate].
Qed.

Lemma namespaced_distinct (e1 e2 : CalendarEvent) :
  namespaced e1 -> namespaced e2 ->
  event_type e1 <> event_type e2 -> ev_id e1 <> ev_id e2.
Proof.
  unfold namespaced, source_prefix. intros [T1 P1] [T2 P2] N E. rewrite E in P1.
  cbn [In] in T1, T2.
  destruct T1 as [T1 | [T1 | [T1 | []]]], T2 as [T2 | [T2 | [T2 | []]]];
    rewrite <- T1 in P1; rewrite <- T2 in P2; cbn in P1, P2;
    try (apply N; congruence);
    apply prefix_head in P1; apply prefix_head in P2;
    destruct P1 as [t1 E1], P2 as [t2 E2]; rewrite E1 in E2; discriminate.
Qed.

Lemma one_element (A : Type) (l : list A) (x : A) :
  List.length l = 1%nat -> In x l -> l = [x].
Proof.
  destruct l as [|y [|z l]]; cbn; try discriminate.
  intros _ [-> | []]. reflexivity.
Qed.

(** C9, as stated, fails: a deadline entry is made for Pending and Overdue
    cases only.  The answered case whose deadline 2024-01-29 lies in the
    window from 2024-01-15 to 2024-02-15 has no entry at all. *)
Lemma answered_case_has_no_deadline_entry :
  let c := answered_case 1 10 in
  actual_deadline c = Some (Date.ymd 2024 1 29)
  /\ Date.ymd 2024 1 15 <= Date.ymd 2024 1 29 <= Date.ymd 2024 2 15
  /\ In c (sar_cases answered_db)
  /\ get_calendar_events_data (at_time (Date.ymd 2024 1 20) 10) 7
       (Some (Date.ymd 2024 1 15)) (Some (Date.ymd 2024 2 15)) answered_db
     = Ok [].
Proof.
  cbv zeta. split; [reflexivity|]. split; [vm_compute; split; discriminate|].
  split; [now left|]. vm_compute. reflexivity.
Qed.

(** C9, amended.  For every window the calendar is produced, sorted
    ascending by [event_date] (equal dates allowed); every identifier
    carries the prefix of its source (deadline, creation, reminder), so
    that events of different sources have different identifiers; and, the
    case identifiers being unique, it holds exactly one deadline entry for
    every Pending or Overdue case of the owner whose deadline (custom, else
    extended, else statutory) falls inside the window, dated at that
    deadline. *)
Theorem calendar_events_sorted_namespaced :
  forall (now : datetime) (user_id : Z) (start_date end_date : option date) (db : DB),
    let today := Datetime.date_of now in
    let w := calendar_window today start_date end_date in
    exists events,
      get_calendar_events_data now user_id start_date end_date db = Ok events
      /\ sorted_by_event_date events
      /\ Forall namespaced events
      /\ (forall e1 e2, In e1 events -> In e2 events ->
            event_type e1 <> event_type e2 -> ev_id e1 <> ev_id e2)
      /\ (forall (c : SARCase.t) (d : date),
            NoDup (map SARCase.id (sar_cases db)) ->
            In c (sar_cases db) ->
            SARCase.user_id c = user_id ->
            SARCase.status c = Some Pending \/ SARCase.status c = Some Overdue ->
            actual_deadline c = Some d ->
            fst w <= d <= snd w ->
            exists e,
              deadline_entries_for (SARCase.id c) events = [e]
              /\ deadline_event today c = Ok e
              /\ event_date e = Datetime.combine_min d).
Proof.
  intros now user_id start_date end_date db. cbv zeta.
  unfold get_calendar_events_data.
  destruct (calendar_window (Datetime.date_of now) start_date end_date) as [s e] eqn:W.
  cbn [fst snd].
  set (today := Datetime.date_of now).
  set (cases := query (calendar_deadline_filter user_id s e) (sar_cases db)).
  set (created := query (calendar_creation_filter user_id s e) (sar_cases db)).
  set (rems := query (calendar_reminder_filter user_id s e) (reminders db)).
  destruct (mapM_Forall2 (deadline_event today) cases) as [D [ED FD]].
  { intros c Hc. apply filter_In in Hc. destruct Hc as [_ Hc].
    apply deadline_filter_has_deadline in Hc. destruct Hc as [d Hd].
    unfold deadline_event. rewrite Hd. eauto. }
  destruct (mapM_Forall2 creation_event created) as [C [EC FC]].
  { intros c Hc. apply filter_In in Hc. destruct Hc as [_ Hc].
    apply creation_filter_has_date in Hc. destruct Hc as [d Hd].
    unfold creation_event. rewrite Hd. eauto. }
  destruct (mapM_Forall2 (reminder_event now) rems) as [R [ER FR]].
  { intros r Hr. apply filter_In in Hr. destruct Hr as [_ Hr].
    apply reminder_filter_has_date in Hr. destruct Hr as [d Hd].
    unfold reminder_event. rewrite Hd. eauto. }
  rewrite ED, EC, ER.
  set (events := list_sort Z.leb event_date (D ++ C ++ R)%list).
  assert (P : Permutation (D ++ C ++ R)%list events) by apply list_sort_perm.
  assert (ND : Forall namespaced D).
  { apply (Forall2_Forall_r _ _ _ _ FD). intros c x Hx.
    apply deadline_event_shape in Hx. destruct Hx as [T [I _]].
    unfold namespaced, source_prefix. rewrite T, I. split; [now left|apply prefix_append]. }
  assert (NC : Forall namespaced C).
  { apply (Forall2_Forall_r _ _ _ _ FC). intros c x Hx.
    apply creation_event_shape in Hx. destruct Hx as [T I].
    unfold namespaced, source_prefix. rewrite T, I.
    split; [right; now left|apply prefix_append]. }
  assert (NR : Forall namespaced R).
  { apply (Forall2_Forall_r _ _ _ _ FR). intros r x Hx.
    apply reminder_event_shape in Hx. destruct Hx as [T I].
    unfold namespaced, source_prefix. rewrite T, I.
    split; [right; right; now left|apply prefix_append]. }
  assert (N : Forall namespaced events).
  { eapply Permutation_Forall; [exact P|]. repeat (apply Forall_app; split); assumption. }
  exists events. split; [reflexivity|]. split; [apply list_sort_sorted|].
  split; [exact N|]. split.
  - intros e1 e2 H1 H2. rewrite Forall_forall in N. apply namespaced_distinct; auto.
  - intros c d Hnd Hin Hu Hs Hd Hw.
    assert (Hc : In c cases).
    { apply filter_In. split; [exact Hin|]. now apply (deadline_filter_holds _ _ _ _ d). }
    destruct (Forall2_In_l _ _ _ _ FD Hc) as [x [Hx Ex]].
    exists x. pose proof (deadline_event_shape _ _ _ Ex) as [T [_ [I [A Dt]]]].
    split; [|split; [exact Ex|]].
    + apply one_element.
      * unfold deadline_entries_for. rewrite <- (filter_length_perm _ _ _ P).
        rewrite !filter_app, !length_app.
        rewrite (filter_none _ C), (filter_none _ R); cbn [List.length].
        -- rewrite !Nat.add_0_r.
           rewrite (Forall2_filter_length _ (fun r => SARCase.id r =? SARCase.id c) _ _ _ FD).
           ++ apply unique_id_count; [|exact Hc]. now apply query_unique_ids.
           ++ intros c' x' Ex'. apply deadline_event_shape in Ex'.
              destruct Ex' as [T' [_ [I' _]]].
              unfold is_deadline_entry_for. now rewrite T', I'.
        -- apply (Forall2_Forall_r _ _ _ _ FR). intros r x' Ex'.
           apply reminder_event_shape in Ex'. destruct Ex' as [T' _].
           unfold is_deadline_entry_for. now rewrite T'.
        -- apply (Forall2_Forall_r _ _ _ _ FC). intros c' x' Ex'.
           apply creation_event_shape in Ex'. destruct Ex' as [T' _].
           unfold is_deadline_entry_for. now rewrite T'.
      * unfold deadline_entries_for. apply filter_In. split.
        -- apply (Permutation_in _ P). apply in_or_app. now left.
        -- unfold is_deadline_entry_for. now rewrite T, I, Z.eqb_refl.
    + rewrite Hd in A. injection A as A. rewrite Dt, <- A. reflexivity.
Qed.

Lemma calendar_events_sorted_namespaced_witness :
  let now := at_time (Date.ymd 2024 1 20) 10 in
  let c := case_with (Some (Date.ymd 2024 1 29)) None None Pending false in
  let d := Date.ymd 2024 1 29 in
  NoDup (map SARCase.id (sar_cases pending_db))
  /\ In c (sar_cases pending_db)
  /\ SARCase.user_id c = 7
  /\ (SARCase.status c = Some Pending \/ SARCase.status c = Some Overdue)
  /\ actual_deadline c = Some d
  /\ Date.ymd 2024 1 15 <= d <= Date.ymd 2024 2 15
  /\ exists events,
      get_calendar_events_data now 7 (Some (Date.ymd 2024 1 15)) (Some (Date.ymd 2024 2 15))
                               pending_db = Ok events
      /\ sorted_by_event_date events
      /\ exists e,
          deadline_entries_for 1 events = [e]
          /\ event_date e = Datetime.combine_min d.
Proof.
  cbv zeta.
  assert (ND : NoDup (map SARCase.id (sar_cases pending_db)))
    by (constructor; [intros []|constructor]).
  assert (Hin : In (case_with (Some (Date.ymd 2024 1 29)) None None Pending false)
                   (sar_cases pending_db)) by (left; reflexivity).
  assert (Hw : Date.ymd 2024 1 15 <= Date.ymd 2024 1 29 <= Date.ymd 2024 2 15)
    by (vm_compute; split; discriminate).
  repeat (split; [first [exact ND | exact Hin | exact Hw | reflexivity
                        | left; reflexivity]|]).
  destruct (calendar_events_sorted_namespaced (at_time (Date.ymd 2024 1 20) 10) 7
              (Some (Date.ymd 2024 1 15)) (Some (Date.ymd 2024 2 15)) pending_db)
    as [events [E [S [_ [_ H]]]]].
  destruct (H (case_with (Some (Date.ymd 2024 1 29)) None None Pending false)
              (Date.ymd 2024 1 29) ND Hin eq_refl (or_introl eq_refl) eq_refl Hw)
    as [e [He [_ Hd]]].
  exists events. split; [exact E|]. split; [exact S|].
  exists e. split; [exact He|exact Hd].
Defined.

(** ** The life cycle of the specification's scenario *)

(** A request of classification Other filed on 2024-01-01 has its
    statutory deadline on 2024-01-29; an update on 2024-02-01 without a
    response finds it overdue; the escalation of 2024-02-05 makes it
    Escalated, and it is still Escalated after an update on 2024-03-01.  A
    FOIA request filed on 2024-03-01 has its deadline on 2024-03-21. *)
Example lifecycle_scenario :
  let created :=
    exec (create_sar_case_db reminder_date_cannot_be_past
            (at_time (Date.ymd 2024 1 1) 10) "0A1B2C3D" acme_request 7) empty_db in
  let late :=
    exec (update_sar_case_db (at_time (Date.ymd 2024 2 1) 10) 1 SARUpdate.unset 7) created in
  map SARCase.statutory_deadline (sar_cases created) = [Some (Date.ymd 2024 1 29)]
  /\ map actual_deadline (sar_cases created) = [Some (Date.ymd 2024 1 29)]
  /\ stored_status 1 created = Some (Some Pending)
  /\ stored_status 1 late = Some (Some Overdue)
  /\ stored_status 1 escalated_db = Some (Some Escalated)
  /\ stored_status 1
       (exec (update_sar_case_db (at_time (Date.ymd 2024 3 1) 10) 1 SARUpdate.unset 7)
             escalated_db)
     = Some (Some Escalated)
  /\ statutory_deadline_for "FOIA" (Date.ymd 2024 3 1) = Date.ymd 2024 3 21.
Proof. vm_compute. repeat split; reflexivity. Qed.

(* ================================================================== *)
(** * Further properties of the code *)

(** ** Transitions of the status *)

Lemma pass_status_cases (resp : option bool) (late : bool) (s : option SARStatus) :
  pass_status resp late s = s
  \/ (truthy resp = true /\ pass_status resp late s = Some Responded)
  \/ (truthy resp = false /\ late = true /\ s = Some Pending
      /\ pass_status resp late s = Some Overdue).
Proof.
  unfold pass_status. destruct (truthy resp).
  - right; left. now rewrite andb_false_r.
  - destruct late; [|now left].
    destruct s as [[]|]; cbn; auto. right; right. auto.
Qed.

(** X1.  A status pass of [update_sar_case_db] that succeeds changes
    nothing but the status, and the status either stays, or becomes
    Responded because the body carries a response, or goes from Pending to
    Overdue because the body carries none and the deadline is before
    today.  It never produces Pending, Complete or Escalated. *)
Theorem status_pass_transitions :
  forall (resp : option bool) (today : date) (c c' : SARCase.t),
    update_status_pass resp today c = Ok c' ->
    c' = SARCase.set_status (SARCase.status c') c
    /\ (SARCase.status c' = SARCase.status c
        \/ (truthy resp = true /\ SARCase.status c' = Some Responded)
        \/ (truthy resp = false /\ SARCase.status c = Some Pending
            /\ SARCase.status c' = Some Overdue
            /\ exists d, update_deadline c = Some d /\ d < today)).
Proof.
  intros resp today c c'. rewrite update_status_pass_eq.
  destruct (update_deadline c) as [d|] eqn:E; [|discriminate].
  intros [= <-]. rewrite status_set_status. split; [reflexivity|].
  destruct (pass_status_cases resp (d <? today) (SARCase.status c))
    as [H | [[H1 H2] | [H1 [H2 [H3 H4]]]]].
  - now left.
  - right; left. auto.
  - right; right. repeat split; auto. exists d. split; [reflexivity|].
    now apply Z.ltb_lt.
Qed.

Lemma status_pass_transitions_witness :
  let c := case_with (Some (Date.ymd 2024 1 29)) None None Pending false in
  let c' := SARCase.set_status (Some Overdue) c in
  update_status_pass None (Date.ymd 2024 2 1) c = Ok c'
  /\ c' = SARCase.set_status (SARCase.status c') c
  /\ (SARCase.status c' = SARCase.status c
      \/ (truthy None = true /\ SARCase.status c' = Some Responded)
      \/ (truthy None = false /\ SARCase.status c = Some Pending
          /\ SARCase.status c' = Some Overdue
          /\ exists d, update_deadline c = Some d /\ d < Date.ymd 2024 2 1)).
Proof.
  cbv zeta. split; [reflexivity|].
  apply (status_pass_transitions None (Date.ymd 2024 2 1)). reflexivity.
Defined.

Lemma apply_update_data_status_unset (u : SARUpdate.t) (c : SARCase.t) :
  SARUpdate.status u = None ->
  SARCase.status (apply_update_data u c) = SARCase.status c.
Proof.
  destruct u as [o r e cu st rr rd], c. cbn. intros ->.
  unfold apply_update_data, set_if; cbn.
  destruct o, r, e, cu, rr, rd; reflexivity.
Qed.

Lemma apply_simple_update_status (u : SimpleUpdate.t) (c : SARCase.t) :
  SARCase.status (apply_simple_update u c) = SARCase.status c.
Proof.
  destruct u as [o cu], c. unfold apply_simple_update, set_if; cbn.
  destruct o, cu; reflexivity.
Qed.

(** X2.  Overdue is not taken back: an update of an Overdue case whose
    body sets neither the status nor a response leaves it Overdue on both
    paths, whatever deadlines the body sets, also when the new deadline is
    in the future. *)
Theorem overdue_is_not_taken_back :
  forall (today : date) (u : SARUpdate.t) (su : SimpleUpdate.t) (c c' : SARCase.t),
    SARCase.status c = Some Overdue ->
    SARUpdate.status u = None ->
    truthy (attr (SARUpdate.response_received u)) = false ->
    update_case today u c = Ok c' ->
    SARCase.status c' = Some Overdue
    /\ SARCase.status (update_case_simple today su c) = Some Overdue.
Proof.
  intros today u su c c' Hc Hu Hr H. split.
  - unfold update_case in H. rewrite update_status_pass_eq in H.
    destruct (update_deadline _) as [d|]; [|discriminate].
    injection H as <-. rewrite status_set_status.
    rewrite apply_update_data_status_unset, Hc by assumption.
    unfold pass_status. rewrite Hr. cbn. now rewrite andb_false_r.
  - unfold update_case_simple. rewrite update_simple_status_pass_eq.
    destruct (update_deadline _) as [d|].
    + rewrite status_set_status, apply_simple_update_status, Hc.
      unfold pass_status; cbn. now rewrite andb_false_r.
    + now rewrite apply_simple_update_status.
Qed.

Lemma overdue_is_not_taken_back_witness :
  let c := case_with (Some (Date.ymd 2024 1 29)) None None Overdue false in
  let u := SARUpdate.mk None None (Some (Some (Date.ymd 2024 6 1))) None None None None in
  let su := SimpleUpdate.mk None (Some (Some (Date.ymd 2024 6 1))) in
  let c' := SARCase.set_extended_deadline (Some (Date.ymd 2024 6 1)) c in
  SARCase.status c = Some Overdue
  /\ SARUpdate.status u = None
  /\ truthy (attr (SARUpdate.response_received u)) = false
  /\ update_case (Date.ymd 2024 2 1) u c = Ok c'
  /\ SARCase.status c' = Some Overdue
  /\ SARCase.status (update_case_simple (Date.ymd 2024 2 1) su c) = Some Overdue.
Proof.
  cbv zeta. do 4 (split; [reflexivity|]).
  apply (overdue_is_not_taken_back (Date.ymd 2024 2 1)
           (SARUpdate.mk None None (Some (Some (Date.ymd 2024 6 1))) None None None None));
    reflexivity.
Defined.

(** ** Cases of other owners, and cases that do not exist *)

Lemma find_case_None_iff (sar_id user_id : Z) (rows : list SARCase.t) :
  find_case sar_id user_id rows = None <->
  (forall c, In c rows -> SARCase.id c = sar_id -> SARCase.user_id c <> user_id).
Proof.
  unfold find_case. split.
  - intros H c Hin Hid Hu. pose proof (find_none _ _ H c Hin) as F. cbn in F.
    rewrite Hid, Hu, !Z.eqb_refl in F. discriminate.
  - intros H. induction rows as [|r rows IH]; [reflexivity|]. cbn [find].
    destruct ((SARCase.id r =? sar_id) && (SARCase.user_id r =? user_id)) eqn:E.
    + apply andb_true_iff in E. destruct E as [E1 E2]. apply Z.eqb_eq in E1, E2.
      exfalso. apply (H r); auto. now left.
    + apply IH. intros c Hc. apply H. now right.
Qed.

(** X3.  When no case of the store has the given identifier together with
    the given owner (the case does not exist, or it belongs to someone
    else), every operation on it leaves the store as it is: the two updates
    return nothing, the escalation and the case update fail with a
    [ValueError], the deletion returns [False], and the lists of updates
    and of files are empty. *)
Theorem foreign_case_is_left_alone :
  forall (valid : datetime -> datetime -> bool) (now : datetime) (uuid8 : string)
         (sar_id user_id : Z) (u : SARUpdate.t) (su : SimpleUpdate.t)
         (e : ICOEscalationCreate.t) (cu : CaseUpdateCreate.t) (st : Store),
    (forall c, In c (sar_cases (core st)) ->
               SARCase.id c = sar_id -> SARCase.user_id c <> user_id) ->
    update_sar_case_db now sar_id u user_id (core st) = (core st, Ok None)
    /\ update_sar_case_simple_db now sar_id su user_id (core st) = (core st, Ok None)
    /\ create_ico_escalation_db valid now uuid8 sar_id e user_id (core st)
       = (core st, Raise ValueError)
    /\ delete_sar_case_db sar_id user_id st = (st, false)
    /\ create_case_update now sar_id cu user_id st = (st, Raise ValueError)
    /\ get_case_updates_db sar_id user_id st = []
    /\ get_case_files_db sar_id user_id st = [].
Proof.
  intros valid now uuid8 sar_id user_id u su e cu st H.
  apply find_case_None_iff in H. pose proof H as F. unfold find_case in F.
  repeat split.
  - now rewrite update_sar_case_db_eq, F.
  - now rewrite update_sar_case_simple_db_eq, F.
  - unfold create_ico_escalation_db, bind, get_sar_case_db, raise. now rewrite F.
  - unfold delete_sar_case_db. now rewrite H.
  - unfold create_case_update. now rewrite H.
  - unfold get_case_updates_db. now rewrite H.
  - unfold get_case_files_db. now rewrite H.
Qed.

Lemma foreign_case_is_left_alone_witness :
  let now := at_time (Date.ymd 2024 2 1) 10 in
  (forall c, In c (sar_cases (core small_store)) ->
             SARCase.id c = 1 -> SARCase.user_id c <> 8)
  /\ update_sar_case_db now 1 (response_update (Date.ymd 2024 2 1)) 8 (core small_store)
     = (core small_store, Ok None)
  /\ delete_sar_case_db 1 8 small_store = (small_store, false)
  /\ get_case_updates_db 1 8 small_store = [].
Proof.
  cbv zeta.
  assert (H : forall c, In c (sar_cases (core small_store)) ->
                        SARCase.id c = 1 -> SARCase.user_id c <> 8).
  { intros c [<- | []] _. discriminate. }
  split; [exact H|].
  destruct (foreign_case_is_left_alone reminder_date_cannot_be_past
              (at_time (Date.ymd 2024 2 1) 10) "9F8E7D6C" 1 8
              (response_update (Date.ymd 2024 2 1)) (SimpleUpdate.mk None None)
              escalation_request (CaseUpdateCreate.mk NOTE "t" "c") small_store H)
    as [H1 [_ [_ [H4 [_ [H6 _]]]]]].
  split; [exact H1|]. split; [exact H4|exact H6].
Defined.

(** ** An operation on a case touches that case only *)

Lemma other_cases_commit (sar_id : Z) (c : SARCase.t) (db : DB) :
  SARCase.id c = sar_id ->
  other_cases sar_id (exec (commit_sar_case c) db) = other_cases sar_id db.
Proof.
  intros Hid. unfold other_cases, exec, commit_sar_case; cbn [fst sar_cases].
  rewrite Hid.
  induction (sar_cases db) as [|r rows IH]; [reflexivity|].
  cbn [map filter].
  destruct (SARCase.id r =? sar_id) eqn:E.
  - rewrite Hid, Z.eqb_refl. cbn [negb]. exact IH.
  - rewrite E. cbn [negb]. now rewrite IH.
Qed.

(** X4.  An update, on either path, changes no case but the one it is
    called for, and no reminder and no escalation; the creation of an
    escalation changes no other case either. *)
Theorem operations_touch_one_case :
  forall (valid : datetime -> datetime -> bool) (now : datetime) (uuid8 : string)
         (sar_id user_id : Z) (u : SARUpdate.t) (su : SimpleUpdate.t)
         (e : ICOEscalationCreate.t) (db : DB),
    let db1 := exec (update_sar_case_db now sar_id u user_id) db in
    let db2 := exec (update_sar_case_simple_db now sar_id su user_id) db in
    let db3 := exec (create_ico_escalation_db valid now uuid8 sar_id e user_id) db in
    (other_cases sar_id db1 = other_cases sar_id db
     /\ reminders db1 = reminders db /\ ico_escalations db1 = ico_escalations db)
    /\ (other_cases sar_id db2 = other_cases sar_id db
        /\ reminders db2 = reminders db /\ ico_escalations db2 = ico_escalations db)
    /\ other_cases sar_id db3 = other_cases sar_id db.
Proof.
  intros valid now uuid8 sar_id user_id u su e db. cbv zeta. split; [|split].
  - unfold exec. rewrite update_sar_case_db_eq.
    destruct (find _ (sar_cases db)) as [c|] eqn:F; [|auto].
    apply get_sar_case_db_In in F. destruct F as [_ [Hid _]].
    destruct (update_case _ u c) as [c'|] eqn:U; [|auto]. cbn [fst].
    apply update_case_ids in U. destruct U as [Hid' _].
    split; [apply other_cases_commit; congruence|]. split; reflexivity.
  - unfold exec. rewrite update_sar_case_simple_db_eq.
    destruct (find _ (sar_cases db)) as [c|] eqn:F; [|auto].
    apply get_sar_case_db_In in F. destruct F as [_ [Hid _]]. cbv zeta. cbn [fst].
    split; [|split; reflexivity]. apply other_cases_commit.
    unfold update_case_simple. rewrite update_simple_status_pass_eq.
    destruct (update_deadline _); cbn; rewrite (proj1 (apply_simple_update_keeps su c));
      exact Hid.
  - destruct (find (fun c => (SARCase.id c =? sar_id) && (SARCase.user_id c =? user_id))
                   (sar_cases db)) as [c|] eqn:F.
    + assert (H : outcome (get_sar_case_db sar_id user_id) db = Ok (Some c))
        by (unfold outcome, get_sar_case_db; cbn [snd]; now rewrite F).
      pose proof (create_ico_escalation_db_cases valid now uuid8 sar_id e user_id db c H)
        as C.
      destruct (reference_stored (escalation_reference now uuid8 e) db).
      * unfold exec. now rewrite C.
      * unfold other_cases at 1. rewrite C.
        apply get_sar_case_db_In in F. destruct F as [_ [Hid _]].
        now apply other_cases_commit.
    + unfold exec, create_ico_escalation_db, bind, get_sar_case_db, raise.
      now rewrite F.
Qed.

(** ** Sorting with any total order on the keys *)

Section SortAny.
Context {A K : Type} (leb : K -> K -> bool) (key : A -> K).
Hypothesis leb_total : forall a b, leb a b = true \/ leb b a = true.
Hypothesis leb_trans : forall a b c, leb a b = true -> leb b c = true -> leb a c = true.

Lemma insert_keeps_elements (x : A) (l : list A) :
  Permutation (x :: l) (insert_sorted leb key x l).
Proof.
  induction l as [|y l IH]; cbn [insert_sorted]; [reflexivity|].
  destruct (leb (key x) (key y)); [reflexivity|].
  rewrite perm_swap. now constructor.
Qed.

Lemma sort_keeps_elements (l : list A) : Permutation l (list_sort leb key l).
Proof.
  induction l as [|x l IH]; cbn [list_sort fold_right]; [reflexivity|].
  rewrite <- insert_keeps_elements. now constructor.
Qed.

Lemma insert_keeps_order (x : A) (l : list A) :
  StronglySorted (fun a b => leb (key a) (key b) = true) l ->
  StronglySorted (fun a b => leb (key a) (key b) = true) (insert_sorted leb key x l).
Proof.
  induction 1 as [|y l S IH F]; cbn [insert_sorted].
  - repeat constructor.
  - destruct (leb (key x) (key y)) eqn:L.
    + constructor; [now constructor|].
      constructor; [exact L|].
      eapply Forall_impl; [|exact F]. cbn. intros z Hz. now apply (leb_trans _ (key y)).
    + constructor; [exact IH|].
      eapply Permutation_Forall; [apply insert_keeps_elements|].
      constructor; [|exact F].
      destruct (leb_total (key x) (key y)) as [T|T]; [congruence|exact T].
Qed.

Lemma sort_orders (l : list A) :
  StronglySorted (fun a b => leb (key a) (key b) = true) (list_sort leb key l).
Proof.
  induction l as [|x l IH]; cbn [list_sort fold_right]; [constructor|].
  now apply insert_keeps_order.
Qed.
End SortAny.

Lemma desc_total (a b : Z) : desc a b = true \/ desc b a = true.
Proof. unfold desc. destruct (Z.leb_spec b a); [now left|right; apply Z.leb_le; lia]. Qed.

Lemma desc_trans (a b c : Z) : desc a b = true -> desc b c = true -> desc a c = true.
Proof. unfold desc. rewrite !Z.leb_le. lia. Qed.

Lemma sorted_weaken {A} (R R' : A -> A -> Prop) (l : list A) :
  (forall a b, R a b -> R' a b) -> StronglySorted R l -> StronglySorted R' l.
Proof.
  intros W. induction 1 as [|x l S IH F]; constructor; [exact IH|].
  eapply Forall_impl; [|exact F]. intros b. apply W.
Qed.

Lemma sort_desc_newest_first {A} (stamp : A -> datetime) (l : list A) :
  newest_first stamp (list_sort desc stamp l).
Proof.
  unfold newest_first.
  eapply sorted_weaken; [|apply (sort_orders desc stamp desc_total desc_trans)].
  unfold desc. intros a b H. now apply Z.leb_le.
Qed.

(** ** Deletion *)

Lemma find_case_found (sar_id user_id : Z) (rows : list SARCase.t) (c : SARCase.t) :
  find_case sar_id user_id rows = Some c ->
  In c rows /\ SARCase.id c = sar_id /\ SARCase.user_id c = user_id.
Proof.
  unfold find_case. intros H. apply find_some in H. destruct H as [Hin Hb].
  apply andb_true_iff in Hb. destruct Hb as [H1 H2]. apply Z.eqb_eq in H1, H2. auto.
Qed.

(** X5.  The deletion of a case of the owner returns [True] and removes
    the case together with every reminder, escalation, update and file
    that points to it; the other cases and the rows that point to them
    stay.  Afterwards the case is gone for every owner: a second deletion
    returns [False] and its list of updates is empty. *)
Theorem delete_removes_case_and_children :
  forall (sar_id user_id : Z) (st : Store) (c : SARCase.t),
    find_case sar_id user_id (sar_cases (core st)) = Some c ->
    let st' := fst (delete_sar_case_db sar_id user_id st) in
    snd (delete_sar_case_db sar_id user_id st) = true
    /\ ~ In sar_id (map SARCase.id (sar_cases (core st')))
    /\ Forall (fun r => Reminder.sar_case_id r <> Some sar_id) (reminders (core st'))
    /\ Forall (fun e => ICOEscalation.sar_case_id e <> sar_id) (ico_escalations (core st'))
    /\ Forall (fun u => CaseUpdate.sar_case_id u <> sar_id) (case_updates st')
    /\ Forall (fun f => CaseFile.sar_case_id f <> sar_id) (case_files st')
    /\ sar_cases (core st') = other_cases sar_id (core st)
    /\ (forall r, In r (reminders (core st)) ->
                  Reminder.sar_case_id r <> Some sar_id -> In r (reminders (core st')))
    /\ (forall e, In e (ico_escalations (core st)) ->
                  ICOEscalation.sar_case_id e <> sar_id -> In e (ico_escalations (core st')))
    /\ (forall u, In u (case_updates st) ->
                  CaseUpdate.sar_case_id u <> sar_id -> In u (case_updates st'))
    /\ (forall f, In f (case_files st) ->
                  CaseFile.sar_case_id f <> sar_id -> In f (case_files st'))
    /\ (forall uid, delete_sar_case_db sar_id uid st' = (st', false))
    /\ (forall uid, get_case_updates_db sar_id uid st' = []).
Proof.
  intros sar_id user_id st c F. cbv zeta.
  destruct (find_case_found _ _ _ _ F) as [_ [Hid _]].
  assert (D : delete_sar_case_db sar_id user_id st
              = (mkStore
                   (mkDB (filter (fun r => negb (SARCase.id r =? sar_id))
                                 (sar_cases (core st)))
                         (filter (fun r => negb (is_child sar_id (Reminder.sar_case_id r)))
                                 (reminders (core st)))
                         (filter (fun e => negb (ICOEscalation.sar_case_id e =? sar_id))
                                 (ico_escalations (core st))))
                   (filter (fun u => negb (CaseUpdate.sar_case_id u =? sar_id))
                           (case_updates st))
                   (filter (fun f => negb (CaseFile.sar_case_id f =? sar_id))
                           (case_files st)), true)).
  { unfold delete_sar_case_db. now rewrite F, Hid. }
  rewrite D.
  cbn [fst snd core sar_cases reminders ico_escalations case_updates case_files].
  assert (G : forall uid,
             find_case sar_id uid
               (filter (fun r => negb (SARCase.id r =? sar_id)) (sar_cases (core st)))
             = None).
  { intros uid. apply find_case_None_iff. intros x Hx Hxid.
    apply filter_In in Hx. destruct Hx as [_ Hx]. rewrite Hxid, Z.eqb_refl in Hx.
    discriminate. }
  split; [reflexivity|]. split.
  { intros Hin. apply in_map_iff in Hin. destruct Hin as [x [Hx Hin]].
    apply filter_In in Hin. destruct Hin as [_ Hin]. rewrite Hx, Z.eqb_refl in Hin.
    discriminate. }
  split.
  { apply Forall_forall. intros r Hr. apply filter_In in Hr. destruct Hr as [_ Hr].
    intros E. rewrite E in Hr. cbn in Hr. rewrite Z.eqb_refl in Hr. discriminate. }
  split.
  { apply Forall_forall. intros r Hr. apply filter_In in Hr. destruct Hr as [_ Hr].
    intros E. rewrite E, Z.eqb_refl in Hr. discriminate. }
  split.
  { apply Forall_forall. intros r Hr. apply filter_In in Hr. destruct Hr as [_ Hr].
    intros E. rewrite E, Z.eqb_refl in Hr. discriminate. }
  split.
  { apply Forall_forall. intros r Hr. apply filter_In in Hr. destruct Hr as [_ Hr].
    intros E. rewrite E, Z.eqb_refl in Hr. discriminate. }
  split; [reflexivity|]. split.
  { intros r Hr N. apply filter_In. split; [exact Hr|].
    destruct (Reminder.sar_case_id r) as [i|]; [|reflexivity]. cbn.
    destruct (Z.eqb_spec i sar_id); [subst; contradiction|reflexivity]. }
  split.
  { intros r Hr N. apply filter_In. split; [exact Hr|].
    destruct (Z.eqb_spec (ICOEscalation.sar_case_id r) sar_id); [contradiction|reflexivity]. }
  split.
  { intros r Hr N. apply filter_In. split; [exact Hr|].
    destruct (Z.eqb_spec (CaseUpdate.sar_case_id r) sar_id); [contradiction|reflexivity]. }
  split.
  { intros r Hr N. apply filter_In. split; [exact Hr|].
    destruct (Z.eqb_spec (CaseFile.sar_case_id r) sar_id); [contradiction|reflexivity]. }
  split.
  - intros uid. unfold delete_sar_case_db. cbn [core sar_cases]. now rewrite G.
  - intros uid. unfold get_case_updates_db. cbn [core sar_cases]. now rewrite G.
Qed.

Lemma delete_removes_case_and_children_witness :
  let st' := fst (delete_sar_case_db 1 7 small_store) in
  find_case 1 7 (sar_cases (core small_store))
  = Some (case_with (Some (Date.ymd 2024 1 29)) None None Pending false)
  /\ snd (delete_sar_case_db 1 7 small_store) = true
  /\ ~ In 1 (map SARCase.id (sar_cases (core st')))
  /\ Forall (fun r => Reminder.sar_case_id r <> Some 1) (reminders (core st'))
  /\ Forall (fun u => CaseUpdate.sar_case_id u <> 1) (case_updates st').
Proof.
  cbv zeta. split; [reflexivity|].
  destruct (delete_removes_case_and_children 1 7 small_store
              (case_with (Some (Date.ymd 2024 1 29)) None None Pending false) eq_refl)
    as [H1 [H2 [H3 [_ [H5 _]]]]].
  split; [exact H1|]. split; [exact H2|]. split; [exact H3|exact H5].
Defined.

(** ** Case updates *)

(** X6.  A case update written for a case of the owner is returned, is
    stamped with the clock, carries the text of the request, is listed
    among the updates of the case, which gain exactly this one entry, and
    leaves the lists of every other case as they were. *)
Theorem case_update_is_listed :
  forall (now : datetime) (sar_id user_id : Z) (cu : CaseUpdateCreate.t) (st : Store)
         (c : SARCase.t),
    find_case sar_id user_id (sar_cases (core st)) = Some c ->
    let out := create_case_update now sar_id cu user_id st in
    exists upd,
      snd out = Ok upd
      /\ core (fst out) = core st
      /\ CaseUpdate.sar_case_id upd = sar_id
      /\ CaseUpdate.created_at upd = now
      /\ CaseUpdate.title upd = CaseUpdateCreate.title cu
      /\ CaseUpdate.content upd = CaseUpdateCreate.content cu
      /\ In upd (get_case_updates_db sar_id user_id (fst out))
      /\ Permutation (upd :: get_case_updates_db sar_id user_id st)
                     (get_case_updates_db sar_id user_id (fst out))
      /\ (forall other uid, other <> sar_id ->
            get_case_updates_db other uid (fst out) = get_case_updates_db other uid st).
Proof.
  intros now sar_id user_id cu st c F. cbv zeta.
  unfold create_case_update. rewrite F. cbn [fst snd].
  eexists. split; [reflexivity|]. cbn [core CaseUpdate.sar_case_id CaseUpdate.created_at
    CaseUpdate.title CaseUpdate.content]. do 5 (split; [reflexivity|]).
  assert (P : Permutation
                (CaseUpdate.mk (next_id (map CaseUpdate.id (case_updates st))) sar_id user_id
                   (UpdateType_value (CaseUpdateCreate.update_type cu))
                   (CaseUpdateCreate.title cu) (CaseUpdateCreate.content cu) now
                 :: get_case_updates_db sar_id user_id st)
                (get_case_updates_db sar_id user_id
                   (mkStore (core st)
                      (case_updates st ++
                       [CaseUpdate.mk (next_id (map CaseUpdate.id (case_updates st))) sar_id
                          user_id (UpdateType_value (CaseUpdateCreate.update_type cu))
                          (CaseUpdateCreate.title cu) (CaseUpdateCreate.content cu) now])%list
                      (case_files st)))).
  { unfold get_case_updates_db. cbn [core case_updates]. rewrite F.
    rewrite <- !sort_keeps_elements. rewrite filter_app. cbn [filter CaseUpdate.sar_case_id].
    rewrite Z.eqb_refl. rewrite Permutation_app_comm. reflexivity. }
  split; [|split; [exact P|]].
  - apply (Permutation_in _ P). now left.
  - intros other uid N. unfold get_case_updates_db. cbn [core case_updates].
    destruct (find_case other uid (sar_cases (core st))); [|reflexivity].
    rewrite filter_app. cbn [filter CaseUpdate.sar_case_id].
    destruct (Z.eqb_spec sar_id other); [congruence|]. now rewrite app_nil_r.
Qed.

Lemma case_update_is_listed_witness :
  let now := at_time (Date.ymd 2024 2 1) 10 in
  let cu := CaseUpdateCreate.mk PHONE_CALL "Call" "Spoke to the data protection officer" in
  let out := create_case_update now 1 cu 7 small_store in
  find_case 1 7 (sar_cases (core small_store))
  = Some (case_with (Some (Date.ymd 2024 1 29)) None None Pending false)
  /\ exists upd,
      snd out = Ok upd
      /\ CaseUpdate.created_at upd = now
      /\ In upd (get_case_updates_db 1 7 (fst out)).
Proof.
  cbv zeta. split; [reflexivity|].
  destruct (case_update_is_listed (at_time (Date.ymd 2024 2 1) 10) 1 7
              (CaseUpdateCreate.mk PHONE_CALL "Call" "Spoke to the data protection officer")
              small_store
              (case_with (Some (Date.ymd 2024 1 29)) None None Pending false) eq_refl)
    as [upd [H1 [_ [_ [H4 [_ [_ [H7 _]]]]]]]].
  exists upd. split; [exact H1|]. split; [exact H4|exact H7].
Defined.

(** X7.  The list of the updates of a case, and the list of its files, is
    ordered newest first and holds the rows of that case, all of them when
    the case is the owner's. *)
Theorem case_lists_newest_first :
  forall (sar_id user_id : Z) (st : Store),
    newest_first CaseUpdate.created_at (get_case_updates_db sar_id user_id st)
    /\ Forall (fun u => CaseUpdate.sar_case_id u = sar_id /\ In u (case_updates st))
              (get_case_updates_db sar_id user_id st)
    /\ newest_first CaseFile.uploaded_at (get_case_files_db sar_id user_id st)
    /\ Forall (fun f => CaseFile.sar_case_id f = sar_id /\ In f (case_files st))
              (get_case_files_db sar_id user_id st)
    /\ (if present (find_case sar_id user_id (sar_cases (core st)))
        then Permutation (filter (fun u => CaseUpdate.sar_case_id u =? sar_id)
                                 (case_updates st))
                         (get_case_updates_db sar_id user_id st)
             /\ Permutation (filter (fun f => CaseFile.sar_case_id f =? sar_id)
                                    (case_files st))
                            (get_case_files_db sar_id user_id st)
        else get_case_updates_db sar_id user_id st = []
             /\ get_case_files_db sar_id user_id st = []).
Proof.
  intros sar_id user_id st. unfold get_case_updates_db, get_case_files_db.
  destruct (find_case sar_id user_id (sar_cases (core st))); cbn [present].
  - split; [apply sort_desc_newest_first|]. split.
    { eapply Permutation_Forall; [apply sort_keeps_elements|].
      apply Forall_forall. intros u Hu. apply filter_In in Hu.
      destruct Hu as [Hin E]. apply Z.eqb_eq in E. auto. }
    split; [apply sort_desc_newest_first|]. split.
    { eapply Permutation_Forall; [apply sort_keeps_elements|].
      apply Forall_forall. intros u Hu. apply filter_In in Hu.
      destruct Hu as [Hin E]. apply Z.eqb_eq in E. auto. }
    split; apply sort_keeps_elements.
  - repeat split; constructor.
Qed.

(** ** Reminder dates that are in the future *)

Lemma now_before_tomorrow (now : datetime) :
  now < Datetime.combine_min (Datetime.date_of now + 1).
Proof.
  unfold Datetime.combine_min, Datetime.date_of.
  pose proof (Z.mul_succ_div_gt now Datetime.us_per_day) as H.
  unfold Datetime.us_per_day in *. lia.
Qed.

Lemma combine_min_mono (a b : date) :
  a <= b -> Datetime.combine_min a <= Datetime.combine_min b.
Proof. unfold Datetime.combine_min, Datetime.us_per_day. lia. Qed.

Lemma deadline_reminder_date_future (now : datetime) (deadline : date) :
  deadline <> Datetime.date_of now + 1 ->
  now < deadline_reminder_date (Datetime.date_of now) deadline.
Proof.
  intros N. unfold deadline_reminder_date, Date.add_days, Datetime.sub_days.
  pose proof (now_before_tomorrow now) as T.
  destruct (Z.leb_spec deadline (Datetime.date_of now)) as [L|L]; [exact T|].
  pose proof (combine_min_mono (Datetime.date_of now + 1) (deadline - 1)) as M.
  unfold Datetime.combine_min, Datetime.us_per_day in *. lia.
Qed.

(** X8.  Unless the deadline falls tomorrow, the reminder of a deadline is
    dated strictly after the scheduling moment (at midnight of tomorrow for
    a deadline of today or earlier, one day before the deadline
    otherwise); the schema of app/schemas.py then accepts it, and exactly
    one reminder is stored, open, of type Deadline, for the case and the
    owner. *)
Theorem deadline_reminder_in_future :
  forall (now : datetime) (sar_id user_id : Z) (deadline : date) (db : DB),
    deadline <> Datetime.date_of now + 1 ->
    let today := Datetime.date_of now in
    let out := create_deadline_reminder reminder_date_cannot_be_past now sar_id user_id
                                        deadline db in
    now < deadline_reminder_date today deadline
    /\ deadline_reminder_date today deadline
       = Datetime.combine_min (if deadline <=? today then today + 1 else deadline - 1)
    /\ exists r,
        snd out = Ok r
        /\ reminders (fst out) = (reminders db ++ [r])%list
        /\ sar_cases (fst out) = sar_cases db
        /\ Reminder.reminder_date r = Some (deadline_reminder_date today deadline)
        /\ Reminder.sar_case_id r = Some sar_id
        /\ Reminder.user_id r = user_id
        /\ Reminder.reminder_type r = "Deadline"
        /\ Reminder.is_completed r = Some false.
Proof.
  intros now sar_id user_id deadline db N. cbv zeta.
  pose proof (deadline_reminder_date_future now deadline N) as F.
  split; [exact F|]. split.
  - unfold deadline_reminder_date, Date.add_days, Datetime.sub_days, Datetime.combine_min.
    destruct (deadline <=? Datetime.date_of now); lia.
  - unfold create_deadline_reminder, bind, lift, new_ReminderCreate,
      reminder_date_cannot_be_past.
    destruct (Z.ltb_spec (deadline_reminder_date (Datetime.date_of now) deadline) now)
      as [L|L]; [lia|].
    cbn [negb]. unfold create_reminder, add_reminder. cbn.
    eexists. repeat split.
Qed.

Lemma deadline_reminder_in_future_witness :
  let now := at_time (Date.ymd 2024 1 5) 10 in
  let out := create_deadline_reminder reminder_date_cannot_be_past now 1 7
                                      (Date.ymd 2024 1 29) empty_db in
  Date.ymd 2024 1 29 <> Datetime.date_of now + 1
  /\ now < deadline_reminder_date (Datetime.date_of now) (Date.ymd 2024 1 29)
  /\ exists r,
      snd out = Ok r
      /\ Reminder.reminder_date r = Some (at_time (Date.ymd 2024 1 28) 0).
Proof.
  cbv zeta.
  assert (N' : Date.ymd 2024 1 29 <> Datetime.date_of (at_time (Date.ymd 2024 1 5) 10) + 1)
    by (vm_compute; discriminate).
  split; [exact N'|].
  destruct (deadline_reminder_in_future (at_time (Date.ymd 2024 1 5) 10) 1 7
              (Date.ymd 2024 1 29) empty_db N') as [H1 [_ [r [H3 [_ [_ [H6 _]]]]]]].
  split; [exact H1|]. exists r. split; [exact H3|exact H6].
Defined.

(** X9.  The reminder of an investigation deadline is dated at midnight
    seven days before the deadline, whatever the scheduling moment: it is
    strictly after that moment exactly when the deadline is at least eight
    days after today, and the schema of app/schemas.py accepts it exactly
    when it is not before that moment. *)
Theorem ico_reminder_future_iff :
  forall (now : datetime) (deadline : date),
    (now < ico_deadline_reminder_date deadline <-> Datetime.date_of now + 8 <= deadline)
    /\ (reminder_date_cannot_be_past now (ico_deadline_reminder_date deadline) = true
        <-> now <= Datetime.combine_min (deadline - 7)).
Proof.
  intros now deadline.
  assert (E : ico_deadline_reminder_date deadline = Datetime.combine_min (deadline - 7)).
  { unfold ico_deadline_reminder_date, Datetime.sub_days, Datetime.combine_min. lia. }
  rewrite E. split.
  - split.
    + intros H. pose proof (combine_min_date_of_le now) as L.
      destruct (Z.le_gt_cases (Datetime.date_of now + 8) deadline) as [G|G]; [exact G|].
      pose proof (combine_min_mono (deadline - 7) (Datetime.date_of now)) as M. lia.
    + intros H. pose proof (now_before_tomorrow now) as T.
      pose proof (combine_min_mono (Datetime.date_of now + 1) (deadline - 7)) as M. lia.
  - unfold reminder_date_cannot_be_past. rewrite negb_true_iff, Z.ltb_ge. reflexivity.
Qed.

(** X10.  The reminder made at the creation of a case is dated from the
    statutory deadline alone: two requests that differ in their custom
    deadline only store the same reminders and succeed or fail alike. *)
Theorem creation_reminder_ignores_custom_deadline :
  forall (valid : datetime -> datetime -> bool) (now : datetime) (uuid8 : string)
         (r : SARCreate.t) (user_id : Z) (k k' : option date) (db : DB),
    let a := create_sar_case_db valid now uuid8 (replace_custom k r) user_id in
    let b := create_sar_case_db valid now uuid8 (replace_custom k' r) user_id in
    reminders (exec a db) = reminders (exec b db)
    /\ is_ok (outcome a db) = is_ok (outcome b db)
    /\ map SARCase.statutory_deadline (sar_cases (exec a db))
       = map SARCase.statutory_deadline (sar_cases (exec b db)).
Proof.
  intros valid now uuid8 r user_id k k' db. cbv zeta.
  unfold exec, outcome, create_sar_case_db, bind, add_sar_case, ret.
  unfold create_deadline_reminder, bind, lift, new_ReminderCreate. cbn.
  destruct (valid now _); cbn; repeat split; try reflexivity;
    rewrite !map_app; reflexivity.
Qed.

(** ** Dashboard counts *)

Lemma holds_and (a b : Sql.tv) :
  Sql.holds (Sql.and_ a b) = Sql.holds a && Sql.holds b.
Proof. destruct a as [[]|], b as [[]|]; reflexivity. Qed.

Lemma holds_or (a b : Sql.tv) :
  Sql.holds (Sql.or_ a b) = Sql.holds a || Sql.holds b.
Proof. destruct a as [[]|], b as [[]|]; reflexivity. Qed.

Lemma holds_status_open (c : SARCase.t) : Sql.holds (status_open c) = is_open c.
Proof.
  unfold status_open, status_eq, is_open, status_is.
  destruct (SARCase.status c) as [[]|]; reflexivity.
Qed.

Lemma holds_status_eq (s : SARStatus) (c : SARCase.t) :
  Sql.holds (status_eq s c) = status_is (SARCase.status c) s.
Proof.
  unfold status_eq, status_is. destruct (SARCase.status c) as [x|]; [|reflexivity].
  cbn. now destruct (SARStatus_eqb x s).
Qed.

Lemma query_count_ind {A} (f : A -> Sql.tv) (x : A) (l : list A) :
  query_count f (x :: l) = ind (Sql.holds (f x)) + query_count f l.
Proof. apply query_count_cons. Qed.

(** X11.  In the dashboard of an owner every count is non-negative, the
    four counts by status together never exceed the total (Responded
    cases are in the total only), and each of the two deadline counts is
    at most the number of Pending and Overdue cases. *)
Theorem dashboard_counts_bounded :
  forall (today : date) (user_id : Z) (db : DB),
    let d := get_dashboard_data today user_id db in
    0 <= pending_cases d /\ 0 <= overdue_cases d /\ 0 <= completed_cases d
    /\ 0 <= escalated_cases d /\ 0 <= upcoming_deadlines d /\ 0 <= overdue_deadlines d
    /\ pending_cases d + overdue_cases d + completed_cases d + escalated_cases d
       <= total_cases d
    /\ upcoming_deadlines d <= pending_cases d + overdue_cases d
    /\ overdue_deadlines d <= pending_cases d + overdue_cases d.
Proof.
  intros today user_id [rows rems escs]. cbv zeta.
  unfold get_dashboard_data.
  cbn [sar_cases total_cases pending_cases overdue_cases completed_cases escalated_cases
       upcoming_deadlines overdue_deadlines].
  repeat (split; [apply query_count_nonneg|]).
  induction rows as [|c rows IH]; [cbn; lia|].
  rewrite !query_count_ind.
  destruct IH as [I1 [I2 I3]].
  revert I1 I2 I3.
  generalize (query_count (user_is user_id) rows)
             (query_count (upcoming_filter user_id today) rows)
             (query_count (overdue_filter user_id today) rows)
             (query_count (fun c => Sql.and_ (user_is user_id c) (status_eq Pending c)) rows)
             (query_count (fun c => Sql.and_ (user_is user_id c) (status_eq Overdue c)) rows)
             (query_count (fun c => Sql.and_ (user_is user_id c) (status_eq Complete c)) rows)
             (query_count (fun c => Sql.and_ (user_is user_id c) (status_eq Escalated c)) rows).
  intros nt nu no np nv nc ne I1 I2 I3.
  unfold upcoming_filter, overdue_filter.
  rewrite !holds_and, !holds_status_open, !holds_status_eq.
  unfold user_is, is_open, status_is. cbn [Sql.holds].
  destruct (SARCase.user_id c =? user_id);
    destruct (SARCase.status c) as [[]|];
    destruct (Sql.holds (Sql.or_ (Sql.ge _ _) _));
    destruct (Sql.holds (Sql.or_ (Sql.lt _ _) _));
    cbn [ind andb orb SARStatus_eqb]; lia.
Qed.

(** ** The read side is scoped to the owner *)

Lemma query_own {A} (f : A -> Sql.tv) (p : A -> bool) (l : list A) :
  (forall x, Sql.holds (f x) = true -> p x = true) ->
  query f (filter p l) = query f l.
Proof.
  intros H. unfold query. induction l as [|x l IH]; [reflexivity|].
  cbn [filter]. destruct (p x) eqn:P.
  - cbn [filter]. now rewrite IH.
  - destruct (Sql.holds (f x)) eqn:F; [|exact IH].
    apply H in F. congruence.
Qed.

Lemma mapM_ext {A B} (f g : A -> result B) (l : list A) :
  (forall x, f x = g x) -> mapM f l = mapM g l.
Proof.
  intros H. induction l as [|x l IH]; [reflexivity|].
  cbn [mapM]. now rewrite H, IH.
Qed.

Ltac owner_side :=
  let x := fresh "x" in
  let H := fresh "H" in
  intros x H;
  unfold upcoming_filter, overdue_filter, on_time_filter, late_filter, ignored_filter,
    responded_filter, org_is, calendar_deadline_filter, calendar_creation_filter,
    calendar_reminder_filter, user_is in H;
  repeat (rewrite holds_and in H; apply andb_true_iff in H; destruct H as [H _]);
  cbn in H;
  match type of H with
  | (if ?b then _ else _) = true => destruct b; [reflexivity|discriminate]
  | ?b = true => exact H
  end.

Lemma dashboard_own (today : date) (user_id : Z) (db : DB) :
  get_dashboard_data today user_id (own user_id db) = get_dashboard_data today user_id db.
Proof.
  unfold get_dashboard_data, own, query_count. cbn [sar_cases].
  rewrite !query_own by owner_side. reflexivity.
Qed.

Lemma upcoming_own (today : date) (user_id days : Z) (db : DB) :
  get_upcoming_deadlines_data today user_id days (own user_id db)
  = get_upcoming_deadlines_data today user_id days db.
Proof.
  unfold get_upcoming_deadlines_data, own. cbn [sar_cases].
  rewrite query_own by owner_side. reflexivity.
Qed.

Lemma performance_own (today : date) (user_id : Z) (db : DB) :
  get_organization_performance_data today user_id (own user_id db)
  = get_organization_performance_data today user_id db.
Proof.
  unfold get_organization_performance_data.
  assert (E : organizations user_id (own user_id db) = organizations user_id db).
  { unfold organizations, own. cbn [sar_cases]. now rewrite query_own by owner_side. }
  rewrite E. apply mapM_ext. intros org.
  unfold organization_performance, own, query_count. cbn [sar_cases].
  rewrite !query_own by owner_side. reflexivity.
Qed.

Lemma calendar_own (now : datetime) (user_id : Z) (s e : option date) (db : DB) :
  get_calendar_events_data now user_id s e (own user_id db)
  = get_calendar_events_data now user_id s e db.
Proof.
  unfold get_calendar_events_data.
  destruct (calendar_window (Datetime.date_of now) s e) as [s' e'].
  unfold own. cbn [sar_cases reminders].
  rewrite !query_own by owner_side. reflexivity.
Qed.

(** X12.  The dashboard, the organisation performance, the upcoming
    deadlines and the calendar of an owner depend on the cases and the
    reminders of that owner only: the rows of every other owner can be
    taken out of the store without changing any of the four. *)
Theorem read_side_is_owner_scoped :
  forall (now : datetime) (user_id days : Z) (s e : option date) (db : DB),
    let today := Datetime.date_of now in
    get_dashboard_data today user_id (own user_id db)
    = get_dashboard_data today user_id db
    /\ get_organization_performance_data today user_id (own user_id db)
       = get_organization_performance_data today user_id db
    /\ get_upcoming_deadlines_data today user_id days (own user_id db)
       = get_upcoming_deadlines_data today user_id days db
    /\ get_calendar_events_data now user_id s e (own user_id db)
       = get_calendar_events_data now user_id s e db.
Proof.
  intros now user_id days s e db. cbv zeta. repeat split.
  - apply dashboard_own.
  - apply performance_own.
  - apply upcoming_own.
  - apply calendar_own.
Qed.

(** ** Cases without a deadline *)

Lemma holds_cmp_present (op : Z -> Z -> bool) (a : option Z) (b : Z) :
  Sql.holds (Sql.cmp op a (Some b)) = match a with Some x => op x b | None => false end.
Proof. destruct a as [x|]; [|reflexivity]. cbn. now destruct (op x b). Qed.

(** X13.  A case is counted by at least one of the two deadline counts of
    the dashboard exactly when it is the owner's, Pending or Overdue, and
    has at least one deadline column set.  A case without any deadline is
    counted by neither, gives no row of upcoming deadlines and is not
    selected for a calendar deadline entry; every other case gives at most
    one row. *)
Theorem deadline_views_need_a_deadline :
  forall (today : date) (user_id days : Z) (s e : date) (c : SARCase.t),
    Sql.holds (upcoming_filter user_id today c) || Sql.holds (overdue_filter user_id today c)
    = (SARCase.user_id c =? user_id) && is_open c && has_deadline c
    /\ present (actual_deadline c) = has_deadline c
    /\ (List.length (deadline_row today days c) <= 1)%nat
    /\ (if has_deadline c then True
        else deadline_row today days c = []
             /\ Sql.holds (calendar_deadline_filter user_id s e c) = false).
Proof.
  intros today user_id days s e c.
  unfold upcoming_filter, overdue_filter, calendar_deadline_filter, within, has_deadline,
    deadline_fields, deadline_row, actual_deadline, py_or, user_is.
  rewrite !holds_and, !holds_or, !holds_status_open.
  unfold Sql.ge, Sql.lt, Sql.le. rewrite !holds_and, !holds_cmp_present.
  cbn [existsb Sql.holds].
  destruct (SARCase.user_id c =? user_id), (is_open c),
    (SARCase.statutory_deadline c) as [a|], (SARCase.extended_deadline c) as [b|],
    (SARCase.custom_deadline c) as [k|]; cbn [present andb orb];
    repeat split;
    try (match goal with
         | |- context [Z.geb ?x ?y] =>
             rewrite (Z.geb_leb x y); destruct (Z.leb_spec y x), (Z.ltb_spec x y)
         end);
    try reflexivity; try lia; try discriminate;
    try (match goal with |- context [if ?b then _ else _] => destruct b end;
         cbn [List.length]; lia);
    cbn [List.length]; try lia; auto.
Qed.

(** ** Organisation performance: bounds and the rows of the report *)




Lemma mapM_map_ok {A B} (f : A -> result B) (g : A -> B) (l : list A) :
  (forall x, f x = Ok (g x)) -> mapM f l = Ok (map g l).
Proof.
  intros H. induction l as [|x l IH]; [reflexivity|].
  cbn [mapM map]. now rewrite H, IH.
Qed.

Lemma query_count_pos {A} (f : A -> Sql.tv) (x : A) (l : list A) :
  In x l -> Sql.holds (f x) = true -> 1 <= query_count f l.
Proof.
  intros Hin H. induction l as [|y l IH]; [destruct Hin|].
  rewrite query_count_ind. pose proof (query_count_nonneg f l).
  destruct Hin as [-> | Hin].
  - rewrite H. cbn [ind]. lia.
  - specialize (IH Hin). destruct (Sql.holds (f y)); cbn [ind]; lia.
Qed.

Lemma organizations_spec (user_id : Z) (db : DB) (name : string) :
  In name (organizations user_id db) <->
  exists c, In c (sar_cases db) /\ SARCase.user_id c = user_id
            /\ SARCase.organization_name c = name.
Proof.
  unfold organizations, query. rewrite nodup_In, in_map_iff. split.
  - intros [c [E Hc]]. apply filter_In in Hc. destruct Hc as [Hin H].
    exists c. split; [exact Hin|]. split; [|exact E].
    unfold user_is in H. cbn in H. apply Z.eqb_eq.
    destruct (SARCase.user_id c =? user_id); [reflexivity|discriminate].
  - intros [c [Hin [Hu E]]]. exists c. split; [exact E|].
    apply filter_In. split; [exact Hin|]. unfold user_is. cbn.
    now rewrite Hu, Z.eqb_refl.
Qed.

(** X15.  The performance report of an owner has exactly one row for each
    organisation name that occurs among the owner's cases, and none for
    any other name; every row has a total of at least one request, so that
    in the report the compliance rating is never absent. *)
Theorem performance_report_rows :
  forall (today : date) (user_id : Z) (db : DB),
    exists rows,
      get_organization_performance_data today user_id db = Ok rows
      /\ NoDup (map perf_organization_name rows)
      /\ (forall name,
            In name (map perf_organization_name rows) <->
            exists c, In c (sar_cases db) /\ SARCase.user_id c = user_id
                      /\ SARCase.organization_name c = name)
      /\ Forall (fun r => 1 <= total_sars r /\ compliance_rating r <> None) rows.
Proof.
  intros today user_id db.
  exists (map (performance_row today user_id db) (organizations user_id db)).
  assert (N : map perf_organization_name
                (map (performance_row today user_id db) (organizations user_id db))
              = organizations user_id db).
  { rewrite map_map. cbn [performance_row perf_organization_name]. apply map_id. }
  split; [|split; [|split]].
  - unfold get_organization_performance_data. apply mapM_map_ok.
    intros org. apply organization_performance_eq.
  - rewrite N. apply NoDup_nodup.
  - intros name. rewrite N. apply organizations_spec.
  - apply Forall_forall. intros r Hr. apply in_map_iff in Hr.
    destruct Hr as [org [<- Horg]]. apply organizations_spec in Horg.
    destruct Horg as [c [Hin [Hu Ho]]].
    assert (T : 1 <= query_count (org_is user_id org) (sar_cases db)).
    { apply (query_count_pos _ c); [exact Hin|]. unfold org_is, user_is.
      rewrite Hu, Ho, Z.eqb_refl, String.eqb_refl. reflexivity. }
    unfold performance_row. cbn [total_sars compliance_rating]. split; [exact T|].
    destruct (Z.eqb_spec (query_count (org_is user_id org) (sar_cases db)) 0);
      [lia|discriminate].
Qed.

(** ** Upcoming deadlines *)

Lemma string_leb_trans (a b c : string) :
  String.leb a b = true -> String.leb b c = true -> String.leb a c = true.
Proof.
  unfold String.leb. revert b c.
  induction a as [|x a IH]; intros [|y b] [|z c]; cbn; try congruence.
  unfold Ascii.compare.
  destruct (N.compare_spec (N_of_ascii x) (N_of_ascii y)) as [E1|L1|G1];
    destruct (N.compare_spec (N_of_ascii y) (N_of_ascii z)) as [E2|L2|G2];
    destruct (N.compare_spec (N_of_ascii x) (N_of_ascii z)) as [E3|L3|G3];
    try congruence; try lia; try (apply IH).
Qed.

Lemma deadline_row_spec (today : date) (days : Z) (c : SARCase.t) (row : DeadlineInfo) :
  In row (deadline_row today days c) <->
  exists d, actual_deadline c = Some d
            /\ (d - today <= days \/ d < today)
            /\ row = deadline_info today c d.
Proof.
  unfold deadline_row, deadline_info, Date.diff_days.
  destruct (actual_deadline c) as [d|].
  - assert (B : (d - today <=? days) || (d - today <? 0) = true
                <-> (d - today <= days \/ d < today)).
    { rewrite orb_true_iff, Z.leb_le, Z.ltb_lt. lia. }
    destruct ((d - today <=? days) || (d - today <? 0)); cbn [In]; split.
    + intros [<- | []]. exists d. split; [reflexivity|]. split; [now apply B|reflexivity].
    + intros [d' [[= <-] [_ ->]]]. now left.
    + intros [].
    + intros [d' [[= <-] [H _]]]. apply B in H. discriminate.
  - split; [intros []|intros [d [E _]]; discriminate].
Qed.

Lemma upcoming_row_origin (today : date) (user_id days : Z) (db : DB) (row : DeadlineInfo) :
  In row (get_upcoming_deadlines_data today user_id days db) ->
  exists c d,
    In c (sar_cases db)
    /\ SARCase.user_id c = user_id
    /\ is_open c = true
    /\ actual_deadline c = Some d
    /\ (d - today <= days \/ d < today)
    /\ row = deadline_info today c d.
Proof.
  unfold get_upcoming_deadlines_data. set (l := flat_map _ _).
  intros H.
  apply (Permutation_in _ (Permutation_sym (sort_keeps_elements String.leb _ l))) in H.
  apply in_flat_map in H. destruct H as [c [Hc Hrow]].
  apply filter_In in Hc. destruct Hc as [Hin Hf].
  rewrite holds_and, holds_status_open in Hf. apply andb_true_iff in Hf.
  destruct Hf as [Hu Ho]. unfold user_is in Hu. cbn in Hu.
  apply deadline_row_spec in Hrow. destruct Hrow as [d [Hd [Hh ->]]].
  exists c, d. repeat split; auto. apply Z.eqb_eq.
  destruct (SARCase.user_id c =? user_id); [reflexivity|discriminate].
Qed.

(** X16.  The upcoming deadlines of an owner hold a row for a case exactly
    when the case is the owner's, is Pending or Overdue, has a deadline
    (custom, else extended, else statutory) and that deadline is within
    the horizon or already past; the row reports that deadline, the signed
    number of days to it, whether it is past, and which column gave it. *)
Theorem upcoming_rows_characterised :
  forall (today : date) (user_id days : Z) (db : DB) (row : DeadlineInfo),
    In row (get_upcoming_deadlines_data today user_id days db) <->
    exists c d,
      In c (sar_cases db)
      /\ SARCase.user_id c = user_id
      /\ is_open c = true
      /\ actual_deadline c = Some d
      /\ (d - today <= days \/ d < today)
      /\ row = deadline_info today c d.
Proof.
  intros today user_id days db row. unfold get_upcoming_deadlines_data.
  set (l := flat_map _ _).
  assert (P : Permutation l (list_sort String.leb di_deadline_date l))
    by apply sort_keeps_elements.
  split.
  - intros H. now apply upcoming_row_origin.
  - intros [c [d [Hin [Hu [Ho [Hd [Hh ->]]]]]]].
    apply (Permutation_in _ P). apply in_flat_map. exists c. split.
    + apply filter_In. split; [exact Hin|].
      rewrite holds_and, holds_status_open, Ho. unfold user_is.
      now rewrite Hu, Z.eqb_refl.
    + apply deadline_row_spec. exists d. auto.
Qed.

(** X17.  The upcoming deadlines are returned in ascending order of the
    ISO text of the deadline date; every row is marked overdue exactly
    when its number of remaining days is negative; and for a horizon that
    is not negative no row lies beyond the horizon. *)
Theorem upcoming_rows_ordered :
  forall (today : date) (user_id days : Z) (db : DB),
    let rows := get_upcoming_deadlines_data today user_id days db in
    StronglySorted
      (fun a b => String.leb (di_deadline_date a) (di_deadline_date b) = true) rows
    /\ Forall (fun r => di_is_overdue r = (di_days_remaining r <? 0)) rows
    /\ (if 0 <=? days then Forall (fun r => di_days_remaining r <= days) rows else True).
Proof.
  intros today user_id days db. cbv zeta. split; [|split].
  - unfold get_upcoming_deadlines_data.
    apply (sort_orders String.leb di_deadline_date String.leb_total string_leb_trans).
  - apply Forall_forall. intros r Hr. apply upcoming_row_origin in Hr.
    destruct Hr as [c [d [_ [_ [_ [_ [_ ->]]]]]]]. reflexivity.
  - destruct (Z.leb_spec 0 days) as [L|L]; [|exact I].
    apply Forall_forall. intros r Hr. apply upcoming_row_origin in Hr.
    destruct Hr as [c [d [_ [_ [_ [_ [H ->]]]]]]]. cbn [deadline_info di_days_remaining].
    lia.
Qed.

(** ** Calendar events: where they come from *)

Lemma calendar_decompose (now : datetime) (user_id : Z) (start_date end_date : option date)
    (db : DB) :
  let today := Datetime.date_of now in
  let s := fst (calendar_window today start_date end_date) in
  let e := snd (calendar_window today start_date end_date) in
  exists D C R,
    Forall2 (fun c x => deadline_event today c = Ok x)
            (query (calendar_deadline_filter user_id s e) (sar_cases db)) D
    /\ Forall2 (fun c x => creation_event c = Ok x)
               (query (calendar_creation_filter user_id s e) (sar_cases db)) C
    /\ Forall2 (fun r x => reminder_event now r = Ok x)
               (query (calendar_reminder_filter user_id s e) (reminders db)) R
    /\ get_calendar_events_data now user_id start_date end_date db
       = Ok (list_sort Z.leb event_date (D ++ C ++ R)%list).
Proof.
  cbv zeta. unfold get_calendar_events_data.
  destruct (calendar_window (Datetime.date_of now) start_date end_date) as [s e].
  cbn [fst snd].
  destruct (mapM_Forall2 (deadline_event (Datetime.date_of now))
              (query (calendar_deadline_filter user_id s e) (sar_cases db))) as [D [ED FD]].
  { intros c Hc. apply filter_In in Hc. destruct Hc as [_ Hc].
    apply deadline_filter_has_deadline in Hc. destruct Hc as [d Hd].
    unfold deadline_event. rewrite Hd. eauto. }
  destruct (mapM_Forall2 creation_event
              (query (calendar_creation_filter user_id s e) (sar_cases db))) as [C [EC FC]].
  { intros c Hc. apply filter_In in Hc. destruct Hc as [_ Hc].
    apply creation_filter_has_date in Hc. destruct Hc as [d Hd].
    unfold creation_event. rewrite Hd. eauto. }
  destruct (mapM_Forall2 (reminder_event now)
              (query (calendar_reminder_filter user_id s e) (reminders db))) as [R [ER FR]].
  { intros r Hr. apply filter_In in Hr. destruct Hr as [_ Hr].
    apply reminder_filter_has_date in Hr. destruct Hr as [d Hd].
    unfold reminder_event. rewrite Hd. eauto. }
  exists D, C, R. rewrite ED, EC, ER. auto.
Qed.

Lemma Forall2_In_r {A B} (R : A -> B -> Prop) (l : list A) (ys : list B) (y : B) :
  Forall2 R l ys -> In y ys -> exists x, In x l /\ R x y.
Proof.
  induction 1 as [|x0 y0 l ys Rxy F IH]; intros Hin; [destruct Hin|].
  destruct Hin as [-> | Hin].
  - exists x0. split; [now left|assumption].
  - destruct (IH Hin) as [x' [Hx R']]. exists x'. split; [now right|assumption].
Qed.

Lemma Forall2_same_length {A B} (R : A -> B -> Prop) (l : list A) (ys : list B) :
  Forall2 R l ys -> List.length ys = List.length l.
Proof. induction 1; cbn [List.length]; congruence. Qed.

(** X18.  Every calendar event comes from one of the three sources, and
    nothing else is in the calendar: a creation event is dated at the
    submission date of a case of the owner inside the window, a reminder
    event at the date of an open (not completed) reminder of the owner
    between the first midnight and the last microsecond of the window, and
    a deadline event belongs to a Pending or Overdue case of the owner;
    the number of events is the number of selected rows. *)
Theorem calendar_events_come_from_sources :
  forall (now : datetime) (user_id : Z) (start_date end_date : option date) (db : DB),
    let today := Datetime.date_of now in
    let s := fst (calendar_window today start_date end_date) in
    let e := snd (calendar_window today start_date end_date) in
    exists events,
      get_calendar_events_data now user_id start_date end_date db = Ok events
      /\ List.length events
         = (List.length (query (calendar_deadline_filter user_id s e) (sar_cases db))
            + List.length (query (calendar_creation_filter user_id s e) (sar_cases db))
            + List.length (query (calendar_reminder_filter user_id s e) (reminders db)))%nat
      /\ Forall (fun ev =>
           (exists c, In c (sar_cases db) /\ SARCase.user_id c = user_id
                      /\ is_open c = true /\ deadline_event today c = Ok ev)
           \/ (exists c d, In c (sar_cases db) /\ SARCase.user_id c = user_id
                           /\ SARCase.submission_date c = Some d /\ s <= d <= e
                           /\ creation_event c = Ok ev
                           /\ event_date ev = Datetime.combine_min d)
           \/ (exists r, In r (reminders db) /\ Reminder.user_id r = user_id
                         /\ Reminder.is_completed r = Some false
                         /\ Reminder.reminder_date r = Some (event_date ev)
                         /\ Datetime.combine_min s <= event_date ev
                            <= Datetime.combine_max e
                         /\ reminder_event now r = Ok ev))
         events.
Proof.
  intros now user_id start_date end_date db. cbv zeta.
  destruct (calendar_decompose now user_id start_date end_date db)
    as [D [C [R [FD [FC [FR E]]]]]]. cbv zeta in FD, FC, FR.
  set (s := fst (calendar_window (Datetime.date_of now) start_date end_date)) in *.
  set (e := snd (calendar_window (Datetime.date_of now) start_date end_date)) in *.
  eexists. split; [exact E|].
  pose proof (list_sort_perm event_date (D ++ C ++ R)%list) as P.
  split.
  - rewrite <- (Permutation_length P), !length_app.
    rewrite (Forall2_same_length _ _ _ FD), (Forall2_same_length _ _ _ FC),
      (Forall2_same_length _ _ _ FR). lia.
  - eapply Permutation_Forall; [exact P|].
    apply Forall_app. split; [|apply Forall_app; split]; apply Forall_forall; intros ev Hev.
    + left. destruct (Forall2_In_r _ _ _ _ FD Hev) as [c [Hc Ec]].
      apply filter_In in Hc. destruct Hc as [Hin Hf].
      unfold calendar_deadline_filter in Hf.
      rewrite !holds_and, holds_status_open in Hf.
      apply andb_true_iff in Hf. destruct Hf as [Hu Hf].
      apply andb_true_iff in Hf. destruct Hf as [Ho _].
      exists c. repeat split; auto. unfold user_is in Hu. cbn in Hu. apply Z.eqb_eq.
      destruct (SARCase.user_id c =? user_id); [reflexivity|discriminate].
    + right; left. destruct (Forall2_In_r _ _ _ _ FC Hev) as [c [Hc Ec]].
      apply filter_In in Hc. destruct Hc as [Hin Hf].
      unfold calendar_creation_filter in Hf. rewrite holds_and in Hf.
      apply andb_true_iff in Hf. destruct Hf as [Hu Hf].
      apply within_true in Hf. destruct Hf as [d [Hd Hw]].
      exists c, d. repeat split; auto; try lia.
      * unfold user_is in Hu. cbn in Hu. apply Z.eqb_eq.
        destruct (SARCase.user_id c =? user_id); [reflexivity|discriminate].
      * unfold creation_event in Ec. rewrite Hd in Ec. injection Ec as <-. reflexivity.
    + right; right. destruct (Forall2_In_r _ _ _ _ FR Hev) as [r [Hr Er]].
      apply filter_In in Hr. destruct Hr as [Hin Hf].
      unfold calendar_reminder_filter in Hf. rewrite !holds_and in Hf.
      apply andb_true_iff in Hf. destruct Hf as [Hu Hf].
      apply andb_true_iff in Hf. destruct Hf as [H1 Hf].
      apply andb_true_iff in Hf. destruct Hf as [H2 H3].
      unfold reminder_event in Er.
      destruct (Reminder.reminder_date r) as [rd|] eqn:Erd; [|discriminate].
      injection Er as <-. cbn [event_date].
      exists r. unfold Sql.ge, Sql.le in H1, H2. rewrite holds_cmp_present in H1, H2.
      rewrite Z.geb_leb in H1. apply Z.leb_le in H1, H2.
      repeat split; auto.
      * cbn in Hu. apply Z.eqb_eq.
        destruct (Reminder.user_id r =? user_id); [reflexivity|discriminate].
      * unfold Sql.eq_bool in H3.
        destruct (Reminder.is_completed r) as [[]|]; [discriminate|reflexivity|discriminate].
      * unfold reminder_event. now rewrite Erd.
Qed.

(** X19.  The deadline entry of a case is dated at its custom deadline
    even when only the statutory deadline lies in the window: a Pending or
    Overdue case of the owner whose statutory deadline is inside the
    window and whose custom deadline is outside gets a deadline entry
    dated outside the window. *)
Theorem deadline_entry_outside_window :
  forall (now : datetime) (user_id : Z) (start_date end_date : option date) (db : DB)
         (c : SARCase.t) (d k : date),
    let today := Datetime.date_of now in
    let s := fst (calendar_window today start_date end_date) in
    let e := snd (calendar_window today start_date end_date) in
    In c (sar_cases db) ->
    SARCase.user_id c = user_id ->
    is_open c = true ->
    SARCase.statutory_deadline c = Some d -> s <= d <= e ->
    SARCase.custom_deadline c = Some k -> k < s \/ e < k ->
    exists events ev,
      get_calendar_events_data now user_id start_date end_date db = Ok events
      /\ In ev events
      /\ deadline_event today c = Ok ev
      /\ event_date ev = Datetime.combine_min k
      /\ (event_date ev < Datetime.combine_min s \/ Datetime.combine_max e < event_date ev).
Proof.
  intros now user_id start_date end_date db c d k. cbv zeta.
  intros Hin Hu Ho Hd Hw Hk Hout.
  destruct (calendar_decompose now user_id start_date end_date db)
    as [D [C [R [FD [_ [_ E]]]]]]. cbv zeta in FD.
  set (s := fst (calendar_window (Datetime.date_of now) start_date end_date)) in *.
  set (e := snd (calendar_window (Datetime.date_of now) start_date end_date)) in *.
  assert (Hc : In c (query (calendar_deadline_filter user_id s e) (sar_cases db))).
  { apply filter_In. split; [exact Hin|]. unfold calendar_deadline_filter, user_is.
    rewrite !holds_and, holds_status_open, Ho, Hu, Z.eqb_refl, holds_or, Hd.
    now rewrite (within_Some d s e Hw). }
  destruct (Forall2_In_l _ _ _ _ FD Hc) as [ev [Hev Eev]].
  exists (list_sort Z.leb event_date (D ++ C ++ R)%list), ev.
  split; [exact E|]. split.
  { apply (Permutation_in _ (list_sort_perm event_date _)). apply in_or_app. now left. }
  split; [exact Eev|].
  unfold deadline_event, actual_deadline, py_or in Eev. rewrite Hk in Eev.
  injection Eev as <-. cbn [event_date]. split; [reflexivity|].
  unfold Datetime.combine_min, Datetime.combine_max, Datetime.us_per_day. lia.
Qed.

Lemma deadline_entry_outside_window_witness :
  let now := at_time (Date.ymd 2024 1 20) 10 in
  let c := case_with (Some (Date.ymd 2024 1 29)) None (Some (Date.ymd 2024 6 1)) Pending false in
  let db := mkDB [c] [] [] in
  In c (sar_cases db)
  /\ SARCase.user_id c = 7
  /\ is_open c = true
  /\ SARCase.statutory_deadline c = Some (Date.ymd 2024 1 29)
  /\ Date.ymd 2024 1 15 <= Date.ymd 2024 1 29 <= Date.ymd 2024 2 15
  /\ SARCase.custom_deadline c = Some (Date.ymd 2024 6 1)
  /\ (Date.ymd 2024 6 1 < Date.ymd 2024 1 15 \/ Date.ymd 2024 2 15 < Date.ymd 2024 6 1)
  /\ exists events ev,
      get_calendar_events_data now 7 (Some (Date.ymd 2024 1 15)) (Some (Date.ymd 2024 2 15)) db
      = Ok events
      /\ In ev events
      /\ event_date ev = Datetime.combine_min (Date.ymd 2024 6 1).
Proof.
  cbv zeta.
  assert (Hin : In (case_with (Some (Date.ymd 2024 1 29)) None (Some (Date.ymd 2024 6 1))
                              Pending false)
                   (sar_cases (mkDB [case_with (Some (Date.ymd 2024 1 29)) None
                                       (Some (Date.ymd 2024 6 1)) Pending false] [] [])))
    by (left; reflexivity).
  assert (Hw : Date.ymd 2024 1 15 <= Date.ymd 2024 1 29 <= Date.ymd 2024 2 15)
    by (vm_compute; split; discriminate).
  assert (Ho : Date.ymd 2024 6 1 < Date.ymd 2024 1 15 \/ Date.ymd 2024 2 15 < Date.ymd 2024 6 1)
    by (right; reflexivity).
  split; [exact Hin|]. do 3 (split; [reflexivity|]). split; [exact Hw|].
  split; [reflexivity|]. split; [exact Ho|].
  destruct (deadline_entry_outside_window (at_time (Date.ymd 2024 1 20) 10) 7
              (Some (Date.ymd 2024 1 15)) (Some (Date.ymd 2024 2 15)) _ _
              (Date.ymd 2024 1 29) (Date.ymd 2024 6 1)
              Hin eq_refl eq_refl eq_refl Hw eq_refl Ho)
    as [events [ev [E [Hev [_ [Hd _]]]]]].
  exists events, ev. split; [exact E|]. split; [exact Hev|exact Hd].
Defined.

Lemma query_nothing {A} (f : A -> Sql.tv) (l : list A) :
  (forall x, Sql.holds (f x) = false) -> query f l = [].
Proof.
  intros H. unfold query. induction l as [|x l IH]; [reflexivity|].
  cbn [filter]. now rewrite H.
Qed.

Lemma within_inverted (d : option date) (s e : date) :
  e < s -> Sql.holds (within d s e) = false.
Proof.
  intros H. destruct (Sql.holds (within d s e)) eqn:W; [|reflexivity].
  apply within_true in W. destruct W as [x [_ Hx]]. lia.
Qed.

(** X20.  A window that ends before it starts gives an empty calendar,
    without an error. *)
Theorem inverted_window_is_empty :
  forall (now : datetime) (user_id : Z) (s e : date) (db : DB),
    e < s ->
    get_calendar_events_data now user_id (Some s) (Some e) db = Ok [].
Proof.
  intros now user_id s e db H. unfold get_calendar_events_data, calendar_window.
  rewrite (query_nothing (calendar_deadline_filter user_id s e)).
  2:{ intros c. unfold calendar_deadline_filter.
      rewrite !holds_and, !holds_or, !within_inverted by exact H.
      now rewrite !andb_false_r. }
  cbn [mapM].
  rewrite (query_nothing (calendar_creation_filter user_id s e)).
  2:{ intros c. unfold calendar_creation_filter. rewrite holds_and.
      change (Sql.and_ (Sql.ge (SARCase.submission_date c) (Some s))
                       (Sql.le (SARCase.submission_date c) (Some e)))
        with (within (SARCase.submission_date c) s e).
      rewrite within_inverted by exact H. now rewrite andb_false_r. }
  cbn [mapM].
  rewrite (query_nothing (calendar_reminder_filter user_id s e)).
  2:{ intros r. unfold calendar_reminder_filter. rewrite !holds_and.
      unfold Sql.ge, Sql.le. rewrite !holds_cmp_present.
      destruct (Reminder.reminder_date r) as [rd|];
        [|now rewrite !andb_false_r].
      rewrite Z.geb_leb.
      destruct (Z.leb_spec (Datetime.combine_min s) rd) as [L1|L1],
               (Z.leb_spec rd (Datetime.combine_max e)) as [L2|L2];
        rewrite ?andb_false_r, ?andb_false_l; try reflexivity.
      unfold Datetime.combine_min, Datetime.combine_max, Datetime.us_per_day in *. lia. }
  reflexivity.
Qed.

Lemma inverted_window_is_empty_witness :
  Date.ymd 2024 1 15 < Date.ymd 2024 2 15
  /\ get_calendar_events_data (at_time (Date.ymd 2024 1 20) 10) 7
       (Some (Date.ymd 2024 2 15)) (Some (Date.ymd 2024 1 15)) pending_db = Ok [].
Proof.
  split; [reflexivity|].
  apply inverted_window_is_empty. reflexivity.
Defined.

(** ** The update request of main_simple.py *)

(** X21.  An update request for a case of the owner always writes both
    the organisation name and the custom deadline: a body without a name
    blanks the stored name, a body without a custom deadline clears the
    stored one.  The statutory and extended deadlines and the response
    fields are never changed by this path, and the case read back is the
    case returned. *)
Theorem update_request_overwrites :
  forall (now : datetime) (sar_id user_id : Z) (body : UpdateBody.t) (db : DB)
         (c : SARCase.t),
    outcome (get_sar_case_db sar_id user_id) db = Ok (Some c) ->
    exists c',
      outcome (update_sar_case now sar_id body user_id) db = Ok (Some c')
      /\ outcome (get_sar_case_db sar_id user_id)
                 (exec (update_sar_case now sar_id body user_id) db) = Ok (Some c')
      /\ SARCase.organization_name c'
         = match UpdateBody.organization_name body with Some s => s | None => "" end
      /\ SARCase.custom_deadline c' = UpdateBody.custom_deadline body
      /\ SARCase.statutory_deadline c' = SARCase.statutory_deadline c
      /\ SARCase.extended_deadline c' = SARCase.extended_deadline c
      /\ SARCase.response_received c' = SARCase.response_received c
      /\ SARCase.response_date c' = SARCase.response_date c.
Proof.
  intros now sar_id user_id body db c H.
  unfold outcome, get_sar_case_db in H. cbn [snd] in H. injection H as F.
  unfold update_sar_case, outcome, exec. rewrite update_sar_case_simple_db_eq, F.
  cbv zeta. cbn [fst snd].
  set (c' := update_case_simple (Datetime.date_of now) (update_object body) c).
  assert (S : exists s, c' = SARCase.set_status s (apply_simple_update (update_object body) c)).
  { unfold c', update_case_simple. rewrite update_simple_status_pass_eq.
    destruct (update_deadline _); eexists; [reflexivity|].
    symmetry. apply set_status_same. }
  destruct S as [s S]. exists c'. split; [reflexivity|]. split.
  - unfold get_sar_case_db, exec, commit_sar_case. cbn [fst snd sar_cases]. do 2 f_equal.
    apply (find_after_commit sar_id user_id c); [exact F| |]; rewrite S;
      destruct body as [o k], c; destruct o; reflexivity.
  - rewrite S. destruct body as [o k], c. destruct o; cbn; repeat split.
Qed.

Lemma update_request_overwrites_witness :
  let now := at_time (Date.ymd 2024 2 20) 10 in
  let db := mkDB [two_overrides_case] [] [] in
  let body := UpdateBody.mk None None in
  outcome (get_sar_case_db 1 7) db = Ok (Some two_overrides_case)
  /\ exists c',
      outcome (update_sar_case now 1 body 7) db = Ok (Some c')
      /\ SARCase.organization_name c' = ""
      /\ SARCase.custom_deadline c' = None.
Proof.
  cbv zeta. split; [reflexivity|].
  destruct (update_request_overwrites (at_time (Date.ymd 2024 2 20) 10) 1 7
              (UpdateBody.mk None None) (mkDB [two_overrides_case] [] [])
              two_overrides_case eq_refl) as [c' [H1 [_ [H3 [H4 _]]]]].
  exists c'. split; [exact H1|]. split; [exact H3|exact H4].
Defined.

(** ** The compliance assessment of the case report *)

(** X22.  The report and the performance figures judge a response by
    different deadlines: a response that came after the statutory deadline
    of the case but within 28 days of the submission (a FOIA request
    answered between day 21 and day 28) is written up as Compliant in the
    report of the case and counted as a late response in the performance
    of the organisation. *)
Theorem report_and_performance_disagree :
  forall (today : date) (c : SARCase.t) (sub d rd : date),
    SARCase.submission_date c = Some sub ->
    SARCase.statutory_deadline c = Some d ->
    SARCase.response_received c = Some true ->
    SARCase.response_date c = Some rd ->
    d < rd -> rd - sub <= 28 ->
    compliance_assessment today c
    = Ok ["Response Status: Compliant";
          "Response Time: " ++ str_of_Z (rd - sub) ++ " days";
          "Response Date: " ++ strftime_dmY rd]
    /\ Sql.holds (late_filter (SARCase.user_id c) (SARCase.organization_name c) c) = true
    /\ Sql.holds (on_time_filter (SARCase.user_id c) (SARCase.organization_name c) c) = false.
Proof.
  intros today c sub d rd Hs Hd Hr Hrd L1 L2. split; [|split].
  - unfold compliance_assessment, update_deadline, py_or. rewrite Hd, Hr, Hrd, Hs.
    assert (E : exists x, match SARCase.extended_deadline c with
                          | Some x => Some x
                          | None => match SARCase.custom_deadline c with
                                    | Some x => Some x
                                    | None => Some d
                                    end
                          end = Some x).
    { destruct (SARCase.extended_deadline c), (SARCase.custom_deadline c); eauto. }
    destruct E as [x ->]. cbn [date_gt truthy days_between].
    destruct (x <? today); cbn [days_between]; unfold Date.diff_days;
      destruct (Z.leb_spec (rd - sub) 28); try lia; reflexivity.
  - unfold late_filter, org_is, user_is.
    rewrite !holds_and, Hr, Hrd, Hd, Z.eqb_refl, String.eqb_refl. cbn.
    rewrite Z.gtb_ltb. now apply Z.ltb_lt in L1 as ->.
  - unfold on_time_filter, org_is, user_is.
    rewrite !holds_and, Hr, Hrd, Hd, Z.eqb_refl, String.eqb_refl. cbn.
    destruct (Z.leb_spec rd d); [lia|reflexivity].
Qed.

Lemma report_and_performance_disagree_witness :
  let sub := Date.ymd 2024 3 1 in
  let c := SARCase.mk 3 7 "SAR-202403-00000003" "Council" "FOIA" (Some sub)
             (Some (statutory_deadline_for "FOIA" sub)) None None
             (Some Responded) (Some true) (Some (Date.ymd 2024 3 26)) in
  SARCase.statutory_deadline c = Some (Date.ymd 2024 3 21)
  /\ Date.ymd 2024 3 21 < Date.ymd 2024 3 26
  /\ Date.ymd 2024 3 26 - sub <= 28
  /\ compliance_assessment (Date.ymd 2024 4 1) c
     = Ok ["Response Status: Compliant"; "Response Time: 25 days";
           "Response Date: 26/03/2024"]
  /\ Sql.holds (late_filter 7 "Council" c) = true.
Proof.
  cbv zeta. split; [reflexivity|]. split; [reflexivity|].
  split; [vm_compute; discriminate|].
  destruct (report_and_performance_disagree (Date.ymd 2024 4 1)
              (SARCase.mk 3 7 "SAR-202403-00000003" "Council" "FOIA"
                 (Some (Date.ymd 2024 3 1))
                 (Some (statutory_deadline_for "FOIA" (Date.ymd 2024 3 1))) None None
                 (Some Responded) (Some true) (Some (Date.ymd 2024 3 26)))
              (Date.ymd 2024 3 1) (Date.ymd 2024 3 21) (Date.ymd 2024 3 26)
              eq_refl eq_refl eq_refl eq_refl)
    as [H1 [H2 _]]; [reflexivity|vm_compute; discriminate|].
  split; [exact H1|exact H2].
Defined.

(** X23.  For a case without a recorded response the assessment depends
    on the deadline of the update paths (extended, else custom, else
    statutory) and on today only, not on the stored status: past that
    deadline it reads Non-compliant with the number of days overdue, and
    up to and including the day of the deadline it reads Pending with the
    number of days remaining. *)
Theorem assessment_without_response :
  forall (today : date) (c : SARCase.t) (d : date),
    truthy (SARCase.response_received c) = false ->
    update_deadline c = Some d ->
    compliance_assessment today c
    = Ok [if d <? today
          then "Status: Non-compliant - " ++ str_of_Z (today - d) ++ " days overdue"
          else "Status: Pending - " ++ str_of_Z (d - today) ++ " days remaining"].
Proof.
  intros today c d Hr Hd. unfold compliance_assessment. rewrite Hd, Hr.
  cbn [date_gt]. destruct (Z.ltb_spec d today) as [L|L];
    cbn [days_between]; unfold Date.diff_days.
  - destruct (Z.ltb_spec 0 (today - d)); [reflexivity|lia].
  - cbn. reflexivity.
Qed.

Lemma assessment_without_response_witness :
  let c := case_with (Some (Date.ymd 2024 1 29)) None None Escalated false in
  truthy (SARCase.response_received c) = false
  /\ update_deadline c = Some (Date.ymd 2024 1 29)
  /\ compliance_assessment (Date.ymd 2024 1 29) c = Ok ["Status: Pending - 0 days remaining"]
  /\ compliance_assessment (Date.ymd 2024 2 5) c
     = Ok ["Status: Non-compliant - 7 days overdue"].
Proof.
  cbv zeta. split; [reflexivity|]. split; [reflexivity|]. split.
  - apply (assessment_without_response (Date.ymd 2024 1 29)
             (case_with (Some (Date.ymd 2024 1 29)) None None Escalated false)
             (Date.ymd 2024 1 29)); reflexivity.
  - apply (assessment_without_response (Date.ymd 2024 2 5)
             (case_with (Some (Date.ymd 2024 1 29)) None None Escalated false)
             (Date.ymd 2024 1 29)); reflexivity.
Defined.

(** ** Identifiers *)

Lemma next_id_above (ids : list Z) (i : Z) : In i ids -> i < next_id ids.
Proof.
  unfold next_id. induction ids as [|x ids IH]; [intros []|].
  cbn [fold_right]. intros [-> | H]; [lia|]. specialize (IH H). lia.
Qed.

Lemma unique_after_append (rows : list SARCase.t) (c : SARCase.t) :
  NoDup (map SARCase.id rows) ->
  SARCase.id c = next_id (map SARCase.id rows) ->
  NoDup (map SARCase.id (rows ++ [c])).
Proof.
  intros N E. rewrite map_app. cbn [map].
  apply NoDup_app; [exact N|repeat constructor; intros []|].
  intros i Hi [<- | []]. apply next_id_above in Hi. lia.
Qed.

(** X24.  The identifiers of the cases stay unique: a case made by
    [create_sar_case_db] gets an identifier above every identifier in the
    store, and updates, escalations and deletions do not change the
    identifier of any case that stays. *)
Theorem case_ids_stay_unique :
  forall (valid : datetime -> datetime -> bool) (now : datetime) (uuid8 : string)
         (sar_data : SARCreate.t) (sar_id user_id : Z) (u : SARUpdate.t)
         (su : SimpleUpdate.t) (e : ICOEscalationCreate.t) (st : Store),
    unique_case_ids (core st) ->
    unique_case_ids (exec (create_sar_case_db valid now uuid8 sar_data user_id) (core st))
    /\ unique_case_ids (exec (update_sar_case_db now sar_id u user_id) (core st))
    /\ unique_case_ids (exec (update_sar_case_simple_db now sar_id su user_id) (core st))
    /\ unique_case_ids (exec (create_ico_escalation_db valid now uuid8 sar_id e user_id)
                             (core st))
    /\ unique_case_ids (core (fst (delete_sar_case_db sar_id user_id st))).
Proof.
  intros valid now uuid8 sar_data sar_id user_id u su e st N.
  unfold unique_case_ids in *. split; [|split; [|split; [|split]]].
  - unfold exec, create_sar_case_db, bind, add_sar_case, ret.
    unfold create_deadline_reminder, bind, lift, new_ReminderCreate.
    cbn [sar_cases SARCase.id].
    destruct (valid now _); cbn [fst sar_cases create_reminder add_reminder];
      now apply unique_after_append.
  - destruct (update_sar_case_db_keeps now sar_id u user_id (core st)) as [E _].
    unfold exec. now rewrite E.
  - destruct (update_sar_case_simple_db_keeps now sar_id su user_id (core st)) as [E _].
    unfold exec. now rewrite E.
  - destruct (create_ico_escalation_db_keeps valid now uuid8 sar_id e user_id (core st))
      as [E _].
    unfold exec. now rewrite E.
  - unfold delete_sar_case_db.
    destruct (find_case sar_id user_id (sar_cases (core st))) as [c|]; [|exact N].
    cbn [fst core sar_cases].
    apply (query_unique_ids (fun r => Some (negb (SARCase.id r =? SARCase.id c)))) in N.
    unfold query in N. erewrite filter_ext; [exact N|].
    intros r. cbn. now destruct (negb _).
Qed.

Lemma case_ids_stay_unique_witness :
  let now := at_time (Date.ymd 2024 2 1) 10 in
  unique_case_ids (core small_store)
  /\ unique_case_ids
       (exec (create_sar_case_db reminder_date_cannot_be_past now "0A1B2C3D" acme_request 7)
             (core small_store))
  /\ map SARCase.id
       (sar_cases (exec (create_sar_case_db reminder_date_cannot_be_past now "0A1B2C3D"
                           acme_request 7) (core small_store)))
     = [1; 2].
Proof.
  cbv zeta.
  assert (N : unique_case_ids (core small_store))
    by (constructor; [intros []|constructor]).
  split; [exact N|]. split; [|reflexivity].
  apply (case_ids_stay_unique reminder_date_cannot_be_past (at_time (Date.ymd 2024 2 1) 10)
           "0A1B2C3D" acme_request 1 7 SARUpdate.unset (SimpleUpdate.mk None None)
           escalation_request small_store N).
Defined.

(** ** The escalation record *)

(** X25.  The escalation of a case of the owner is filed under the
    reference given with the request or, when that is missing or empty,
    under ICO-, the year and month of the clock, and the eight characters
    drawn.  When a stored escalation has that reference already, the call
    fails with an [IntegrityError] and the store is as it was.  When none
    has, exactly one escalation is stored, in the state Submitted, for
    that case and owner and under that reference, whether or not the
    reminder of the investigation deadline is then accepted; without an
    investigation deadline the call succeeds and stores no reminder. *)
Theorem escalation_is_recorded :
  forall (valid : datetime -> datetime -> bool) (now : datetime) (uuid8 : string)
         (sar_id user_id : Z) (e : ICOEscalationCreate.t) (db : DB) (c : SARCase.t),
    outcome (get_sar_case_db sar_id user_id) db = Ok (Some c) ->
    let m := create_ico_escalation_db valid now uuid8 sar_id e user_id in
    let ico_reference :=
      match ICOEscalationCreate.ico_reference e with
      | Some (String a r) => String a r
      | _ => "ICO-" ++ Datetime.strftime_Ym now ++ "-" ++ uuid8
      end in
    ((exists x, In x (ico_escalations db)
                /\ ICOEscalation.ico_reference x = ico_reference) ->
     m db = (db, Raise IntegrityError))
    /\ ((forall x, In x (ico_escalations db) ->
                   ICOEscalation.ico_reference x <> ico_reference) ->
        exists esc,
          ico_escalations (exec m db) = (ico_escalations db ++ [esc])%list
          /\ ICOEscalation.sar_case_id esc = sar_id
          /\ ICOEscalation.user_id esc = user_id
          /\ ICOEscalation.status esc = "Submitted"
          /\ ICOEscalation.ico_reference esc = ico_reference
          /\ (outcome m db = Ok esc \/ outcome m db = Raise ValueError)
          /\ match ICOEscalationCreate.ico_investigation_deadline e with
             | None => outcome m db = Ok esc /\ reminders (exec m db) = reminders db
             | Some d =>
                 if valid now (ico_deadline_reminder_date d)
                 then outcome m db = Ok esc
                      /\ List.length (reminders (exec m db))
                         = S (List.length (reminders db))
                 else outcome m db = Raise ValueError
                      /\ reminders (exec m db) = reminders db
             end).
Proof.
  intros valid now uuid8 sar_id user_id e db c H. cbv zeta.
  change (match ICOEscalationCreate.ico_reference e with
          | Some (String a r) => String a r
          | _ => "ICO-" ++ Datetime.strftime_Ym now ++ "-" ++ uuid8
          end) with (escalation_reference now uuid8 e).
  split.
  - intros S. apply reference_stored_iff in S.
    pose proof (create_ico_escalation_db_cases valid now uuid8 sar_id e user_id db c H) as C.
    now rewrite S in C.
  - intros N. apply reference_new_iff in N.
    unfold outcome, get_sar_case_db in H. cbn [snd] in H. injection H as F.
    exists (ICOEscalation.mk (next_id (map ICOEscalation.id (ico_escalations db)))
              sar_id user_id
              (ICOEscalationCreate.escalation_date e)
              (ICOEscalationCreate.escalation_reason e)
              (ICOEscalationCreate.escalation_method e)
              (escalation_reference now uuid8 e)
              (ICOEscalationCreate.ico_investigation_deadline e)
              (ICOEscalationCreate.ico_decision_deadline e)
              "Submitted").
    cbn [ICOEscalation.sar_case_id ICOEscalation.user_id ICOEscalation.status
         ICOEscalation.ico_reference].
    unfold exec, outcome, create_ico_escalation_db, bind, get_sar_case_db, ret, raise.
    rewrite F. unfold add_ico_escalation. cbv zeta. cbn [ICOEscalation.ico_reference].
    rewrite reference_of_request, N. unfold commit_sar_case.
    destruct (ICOEscalationCreate.ico_investigation_deadline e) as [d|].
    + unfold create_ico_deadline_reminder, bind, lift, new_ReminderCreate.
      destruct (valid now (ico_deadline_reminder_date d)).
      * split; [reflexivity|]. do 4 (split; [reflexivity|]).
        split; [left; reflexivity|]. split; [reflexivity|].
        unfold create_reminder, add_reminder, ret.
        cbn [fst snd sar_cases reminders ico_escalations].
        rewrite length_app. cbn [List.length]. lia.
      * split; [reflexivity|]. do 4 (split; [reflexivity|]).
        split; [right; reflexivity|]. split; reflexivity.
    + split; [reflexivity|]. do 4 (split; [reflexivity|]).
      split; [left; reflexivity|]. split; reflexivity.
Qed.

Lemma escalation_is_recorded_witness :
  let now := at_time (Date.ymd 2024 2 5) 10 in
  let db := mkDB [case_with (Some (Date.ymd 2024 1 29)) None None Overdue false] [] [] in
  let m := create_ico_escalation_db reminder_date_cannot_be_past now "9F8E7D6C" 1
             escalation_request 7 in
  outcome (get_sar_case_db 1 7) db
  = Ok (Some (case_with (Some (Date.ymd 2024 1 29)) None None Overdue false))
  /\ (exists esc,
        ico_escalations (exec m db) = [esc]
        /\ ICOEscalation.ico_reference esc = "ICO-202402-9F8E7D6C"
        /\ outcome m db = Ok esc)
  /\ outcome (get_sar_case_db 1 7) escalated_db
     = Ok (Some (case_with (Some (Date.ymd 2024 1 29)) None None Escalated false))
  /\ create_ico_escalation_db reminder_date_cannot_be_past (at_time (Date.ymd 2024 3 1) 10)
       "00000000" 1 repeated_escalation 7 escalated_db
     = (escalated_db, Raise IntegrityError).
Proof.
  cbv zeta. split; [reflexivity|]. split; [|split; [reflexivity|]].
  - destruct (escalation_is_recorded reminder_date_cannot_be_past
                (at_time (Date.ymd 2024 2 5) 10) "9F8E7D6C" 1 7 escalation_request
                (mkDB [case_with (Some (Date.ymd 2024 1 29)) None None Overdue false] [] [])
                (case_with (Some (Date.ymd 2024 1 29)) None None Overdue false) eq_refl)
      as [_ New].
    destruct New as [esc [H1 [_ [_ [_ [H5 [_ H7]]]]]]]; [intros x []|].
    exists esc. split; [exact H1|]. split; [exact H5|]. exact (proj1 H7).
  - apply (escalation_is_recorded reminder_date_cannot_be_past
             (at_time (Date.ymd 2024 3 1) 10) "00000000" 1 7 repeated_escalation
             escalated_db
             (case_with (Some (Date.ymd 2024 1 29)) None None Escalated false) eq_refl).
    eexists. split; [left; reflexivity|reflexivity].
Defined.

(** ** The two precedences *)

(** X26.  The deadline of the update paths and the deadline of the read
    side differ exactly when both an extended and a custom deadline are
    set and they are different dates; with at most one override, or with
    equal overrides, every part of the code uses the same deadline. *)
Theorem precedences_differ_iff :
  forall c : SARCase.t,
    update_deadline c <> actual_deadline c <->
    exists e k, SARCase.extended_deadline c = Some e
                /\ SARCase.custom_deadline c = Some k /\ e <> k.
Proof.
  intros c. unfold update_deadline, actual_deadline, py_or.
  destruct (SARCase.extended_deadline c) as [e|], (SARCase.custom_deadline c) as [k|];
    split.
  - intros H. exists e, k. repeat split. congruence.
  - intros [e' [k' [[= <-] [[= <-] N]]]]. congruence.
  - intros H. now contradiction H.
  - intros [e' [k' [_ [H _]]]]. discriminate.
  - intros H. now contradiction H.
  - intros [e' [k' [H _]]]. discriminate.
  - intros H. now contradiction H.
  - intros [e' [k' [H _]]]. discriminate.
Qed.

(** ** The simple update path *)

(** X27.  An update on the simple path changes the status in one way
    only: from Pending to Overdue, when the deadline that results from the
    update (the custom deadline is written first) is before today.  It
    never records a response, so it never produces Responded. *)
Theorem simple_update_transitions :
  forall (today : date) (su : SimpleUpdate.t) (c : SARCase.t),
    let c' := update_case_simple today su c in
    (SARCase.status c' = SARCase.status c
     \/ (SARCase.status c = Some Pending /\ SARCase.status c' = Some Overdue))
    /\ (SARCase.status c' <> SARCase.status c <->
        SARCase.status c = Some Pending
        /\ exists d, update_deadline (apply_simple_update su c) = Some d /\ d < today)
    /\ SARCase.response_received c' = SARCase.response_received c
    /\ SARCase.response_date c' = SARCase.response_date c.
Proof.
  intros today su c. cbv zeta. unfold update_case_simple.
  rewrite update_simple_status_pass_eq.
  assert (R : forall s, SARCase.response_received
                          (SARCase.set_status s (apply_simple_update su c))
                        = SARCase.response_received c
                        /\ SARCase.response_date
                             (SARCase.set_status s (apply_simple_update su c))
                           = SARCase.response_date c).
  { intros s. destruct su as [o k], c. destruct o, k; split; reflexivity. }
  destruct (update_deadline (apply_simple_update su c)) as [d|].
  - rewrite status_set_status, apply_simple_update_status.
    split; [|split; [|apply R]].
    + unfold pass_status; cbn [truthy].
      destruct (d <? today), (SARCase.status c) as [[]|]; cbn; auto.
    + unfold pass_status; cbn [truthy].
      destruct (Z.ltb_spec d today) as [L|L], (SARCase.status c) as [[]|]; cbn; split;
        try (intros H; now contradiction H);
        try (intros [H _]; discriminate);
        try (intros [_ [d' [[= <-] H]]]; lia);
        try (intros _; discriminate).
      intros _. split; [reflexivity|]. exists d. auto.
  - rewrite apply_simple_update_status. split; [now left|]. split.
    + split; [intros H; now contradiction H|intros [_ [d [H _]]]; discriminate].
    + rewrite <- (set_status_same (apply_simple_update su c)). apply R.
Qed.

(** ** Creation and the dashboard *)

Lemma query_count_app {A} (f : A -> Sql.tv) (l l' : list A) :
  query_count f (l ++ l') = query_count f l + query_count f l'.
Proof.
  unfold query_count, query. rewrite filter_app, length_app. lia.
Qed.

Lemma query_count_one {A} (f : A -> Sql.tv) (x : A) :
  query_count f [x] = ind (Sql.holds (f x)).
Proof. rewrite query_count_ind. unfold query_count, query. cbn. lia. Qed.

Lemma create_sar_case_db_cases (valid : datetime -> datetime -> bool) (now : datetime)
    (uuid8 : string) (sar_data : SARCreate.t) (user_id : Z) (db : DB) :
  exists c,
    sar_cases (exec (create_sar_case_db valid now uuid8 sar_data user_id) db)
    = (sar_cases db ++ [c])%list
    /\ SARCase.user_id c = user_id
    /\ SARCase.status c = Some Pending
    /\ SARCase.organization_name c = SARCreate.organization_name sar_data.
Proof.
  unfold exec, create_sar_case_db, bind, add_sar_case, ret.
  unfold create_deadline_reminder, bind, lift, new_ReminderCreate.
  eexists. cbn [sar_cases SARCase.id].
  destruct (valid now _); cbn; repeat split.
Qed.

(** X28.  The creation of a case shows in the dashboard of its owner as
    one more case in total and one more Pending case, with the counts of
    Overdue, Complete and Escalated cases unchanged (also when the
    companion reminder was rejected), and it leaves the dashboard of every
    other owner as it was. *)
Theorem creation_shows_in_dashboard :
  forall (valid : datetime -> datetime -> bool) (now : datetime) (uuid8 : string)
         (sar_data : SARCreate.t) (user_id other : Z) (today : date) (db : DB),
    let db' := exec (create_sar_case_db valid now uuid8 sar_data user_id) db in
    let d := get_dashboard_data today user_id db in
    let d' := get_dashboard_data today user_id db' in
    total_cases d' = total_cases d + 1
    /\ pending_cases d' = pending_cases d + 1
    /\ overdue_cases d' = overdue_cases d
    /\ completed_cases d' = completed_cases d
    /\ escalated_cases d' = escalated_cases d
    /\ (if other =? user_id then True
        else get_dashboard_data today other db' = get_dashboard_data today other db).
Proof.
  intros valid now uuid8 sar_data user_id other today db. cbv zeta.
  destruct (create_sar_case_db_cases valid now uuid8 sar_data user_id db)
    as [c [E [Hu [Hs _]]]].
  unfold get_dashboard_data. rewrite E.
  cbn [total_cases pending_cases overdue_cases completed_cases escalated_cases].
  rewrite !query_count_app, !query_count_one.
  rewrite !holds_and, !holds_status_eq, Hs.
  assert (U : Sql.holds (user_is user_id c) = true)
    by (unfold user_is; now rewrite Hu, Z.eqb_refl).
  rewrite U. cbn [status_is SARStatus_eqb andb ind].
  repeat (split; [lia|]).
  destruct (Z.eqb_spec other user_id) as [->|N]; [exact I|].
  assert (V : Sql.holds (user_is other c) = false).
  { unfold user_is. rewrite Hu. destruct (Z.eqb_spec user_id other); [congruence|reflexivity]. }
  unfold upcoming_filter, overdue_filter.
  rewrite !holds_and, V. cbn [andb ind]. rewrite !Z.add_0_r. reflexivity.
Qed.
